(** * task-manager-node: the authentication boundary, the task query
      engine and the user/task mutation handlers

    A shallow embedding of
      - src/models/user.js, src/models/task.js   (schemas, hooks, statics),
      - src/middleware/auth.js                   (the auth gate),
      - src/routers/userRouter.js and the task router
        (the route handlers),
    followed by the properties the specification states about them.

    Conventions of the embedding.
      - A collection is a finite map from [_id] to document: MongoDB
        keeps [_id] unique, so [users] and [tasks] are [gmap]s.
      - [req.body], [req.query], [req.headers] and every JS object that
        is used as a dictionary are [gmap string _].
      - A string is a JS string whose UTF-16 code units are all below
        256: the character [c] is the code unit [nat_of_ascii c].
        Strings with other code units are outside the embedding.
      - A handler is a computation in the monad [M]: state (the two
        collections, the response written so far, the clock used by
        [timestamps: true]) plus JS exceptions.  [try_catch] is
        [try { } catch (e) { }].
      - What the libraries do (jsonwebtoken, bcryptjs, validator and
        the casts of mongoose) is taken as the interface [Libs]. *)

From Stdlib Require Import ZArith Ascii String List DecimalString Sorted.
From Stdlib Require DecimalNat DecimalFacts.
From stdpp Require Import gmap strings list fin_maps.

#[local] Set Warnings "-register-all".
#[local] Open Scope string_scope.

(** ** JavaScript strings

    The character [c] is the UTF-16 code unit [nat_of_ascii c], so a
    [string] is a JS string of code units below 256 and [String.length]
    is its [.length]. *)

Module JsString.

(** StrWhiteSpaceChar, the white space and line terminators that
    [trim] and [parseInt] drop.  Below 256 these are TAB, LF, VT, FF,
    CR, SP and the no-break space U+00A0. *)
Definition isWhiteSpace (c : ascii) : bool :=
  let n := nat_of_ascii c in
  (n =? 32)%nat || ((9 <=? n)%nat && (n <=? 13)%nat) || (n =? 160)%nat.

Fixpoint trimStart (s : string) : string :=
  match s with
  | String c s' => if isWhiteSpace c then trimStart s' else s
  | EmptyString => EmptyString
  end.

Definition reverse (s : string) : string :=
  string_of_list_ascii (rev (list_ascii_of_string s)).

(** [String.prototype.trim] *)
Definition trim (s : string) : string :=
  reverse (trimStart (reverse (trimStart s))).

(** The upper-case letters below 256 are A to Z and U+00C0 to U+00DE
    without the multiplication sign U+00D7; the lower-case letter of
    each is 32 further. *)
Definition lowerChar (c : ascii) : ascii :=
  let n := nat_of_ascii c in
  if ((65 <=? n)%nat && (n <=? 90)%nat)
     || ((192 <=? n)%nat && (n <=? 222)%nat && negb (n =? 215)%nat)
  then ascii_of_nat (n + 32) else c.

(** [String.prototype.toLowerCase] *)
Fixpoint toLowerCase (s : string) : string :=
  match s with
  | String c s' => String (lowerChar c) (toLowerCase s')
  | EmptyString => EmptyString
  end.

(** [String.prototype.includes] *)
Fixpoint includes (pat s : string) : bool :=
  String.prefix pat s ||
  match s with
  | String _ s' => includes pat s'
  | EmptyString => false
  end.

Fixpoint skip (n : nat) (s : string) : string :=
  match n, s with
  | S n', String _ s' => skip n' s'
  | _, _ => s
  end.

(** [s.replace(pat, rep)] with a string pattern: the first occurrence
    only. *)
Fixpoint replace (pat rep s : string) : string :=
  if String.prefix pat s then rep ++ skip (String.length pat) s
  else match s with
       | String c s' => String c (replace pat rep s')
       | EmptyString => EmptyString
       end.

(** [s.split(sep)] for a one-character separator. *)
Fixpoint split (sep : ascii) (s : string) : list string :=
  match s with
  | EmptyString => [EmptyString]
  | String c s' =>
      if Ascii.eqb c sep then EmptyString :: split sep s'
      else match split sep s' with
           | h :: t => String c h :: t
           | [] => [String c EmptyString]
           end
  end.

Definition digitValue (c : ascii) : option Z :=
  let n := nat_of_ascii c in
  if (48 <=? n)%nat && (n <=? 57)%nat then Some (Z.of_nat (n - 48))
  else if (97 <=? n)%nat && (n <=? 122)%nat then Some (Z.of_nat (n - 87))
  else if (65 <=? n)%nat && (n <=? 90)%nat then Some (Z.of_nat (n - 55))
  else None.

(** The longest prefix of digits of the radix; [None] when it is
    empty. *)
Fixpoint digits (radix : Z) (s : string) (acc : option Z) : option Z :=
  match s with
  | String c s' =>
      match digitValue c with
      | Some d =>
          if (d <? radix)%Z
          then digits radix s' (Some (default 0%Z acc * radix + d)%Z)
          else acc
      | None => acc
      end
  | EmptyString => acc
  end.

(** [parseInt(string)] without a radix argument.  [None] is NaN;
    [Some n] is the integer the digits denote.  [parseInt] returns the
    Number nearest to that integer, which is the integer itself up to
    2^53; the embedding does not round beyond. *)
Definition parseInt_string (s : string) : option Z :=
  let s1 := trimStart s in
  let '(sign, s2) :=
    match s1 with
    | String "-" r => ((-1)%Z, r)
    | String "+" r => (1%Z, r)
    | _ => (1%Z, s1)
    end in
  let '(radix, s3) :=
    match s2 with
    | String "0" (String "x" r) => (16%Z, r)
    | String "0" (String "X" r) => (16%Z, r)
    | _ => (10%Z, s2)
    end in
  match digits radix s3 None with
  | Some n => Some (sign * n)%Z
  | None => None
  end.

(** [parseInt(v)] where [v] may be [undefined]: the argument is first
    converted with ToString. *)
Definition parseInt (v : option string) : option Z :=
  parseInt_string (default "undefined" v).

(** A JS string is truthy when it is not empty; [undefined] is
    falsy. *)
Definition truthy (v : option string) : bool :=
  match v with
  | Some s => negb (String.eqb s "")
  | None => false
  end.

End JsString.

(** ** JSON values and JS errors *)

Definition ObjectId := string.

Inductive JSON :=
  | JNull
  | JBool (b : bool)
  | JNum (n : Z)
  | JStr (s : string)
  | JArr (l : list JSON)
  | JObj (o : gmap string JSON).

(** A JS [Error] object.  [message] is an own property that is not
    enumerable; [exn_props] are the enumerable own properties, the only
    ones [JSON.stringify] writes. *)
Record Exn := mkExn {
  exn_name : string;
  exn_message : string;
  exn_props : gmap string JSON }.

(** [new Error(msg)] *)
Definition Error (msg : string) : Exn := mkExn "Error" msg ∅.

(** [JSON.stringify(e)], as [res.send(e)] applies it to an object. *)
Definition stringify_exn (e : Exn) : JSON := JObj (exn_props e).

(** Reading a property of [undefined]. *)
Definition TypeError (msg : string) : Exn := mkExn "TypeError" msg ∅.

(** What [jwt.verify] throws. *)
Definition JsonWebTokenError (msg : string) : Exn :=
  mkExn "JsonWebTokenError" msg
        {[ "name" := JStr "JsonWebTokenError"; "message" := JStr msg ]}.

(** What [save()] throws when a path fails its validators. *)
Definition ValidationError (model : string) (errs : list (string * string)) : Exn :=
  let msg := model ++ " validation failed" in
  mkExn "ValidationError" msg
        {[ "errors" := JObj (list_to_map (prod_map id JStr <$> errs));
           "_message" := JStr msg;
           "message" := JStr msg;
           "name" := JStr "ValidationError" ]}.

(** What the driver throws on a duplicate key of a unique index. *)
Definition DuplicateKeyError : Exn :=
  mkExn "MongoError" "E11000 duplicate key error"
        {[ "name" := JStr "MongoError"; "code" := JNum 11000 ]}.

(** What the driver throws on a negative [skip]. *)
Definition BadSkipError : Exn :=
  mkExn "MongoError" "Skip value must be non-negative"
        {[ "name" := JStr "MongoError"; "code" := JNum 2 ]}.

(** What [res.send] throws once the response has been written. *)
Definition HeadersSentError : Exn :=
  mkExn "Error" "Cannot set headers after they are sent to the client"
        {[ "code" := JStr "ERR_HTTP_HEADERS_SENT" ]}.

(** ** The libraries the code calls *)

Class Libs := {
  (** [jwt.sign({_id}, secret)] *)
  jwt_sign : ObjectId -> string;
  (** [jwt.verify(token, secret)._id]; [None] when it throws: malformed
      token, wrong signature, expired. *)
  jwt_verify : string -> option ObjectId;
  (** [bcrypt.hash(s, 8)] *)
  bcrypt_hash : string -> string;
  (** [bcrypt.compare(s, hash)] on two strings *)
  bcrypt_compare : string -> string -> bool;
  (** [validator.isEmail] *)
  validator_isEmail : string -> bool;
  (** mongoose's casts to the schema types String, Number, Boolean and
      ObjectId; [None] is a CastError.  The cast of a well-formed
      ObjectId string is the ObjectId in its canonical spelling. *)
  cast_string : JSON -> option string;
  cast_number : JSON -> option Z;
  cast_boolean : JSON -> option bool;
  cast_ObjectId : JSON -> option ObjectId;
  (** A query condition on a String path that is neither a string nor
      [null]: an object of MongoDB operators ([$gt], [$ne], [$in], ...)
      or a value mongoose casts.  [Some sel] selects the stored strings
      on which [sel] holds; [None] when mongoose refuses the condition
      (a CastError), as for a nested object without operators. *)
  query_string : JSON -> option (string -> bool);
  (** The message of the CastError for a value that cannot be cast to
      a type at a path, and the enumerable properties the error has
      besides [kind], [value] and [path] (its name and message, the
      printed value), which vary with the version of mongoose. *)
  cast_error_message : string -> JSON -> string -> string;
  cast_error_props : string -> JSON -> string -> gmap string JSON }.

(** What mongoose throws when a value cannot be cast to the type of a
    path.  Unlike those of [Error], its properties are enumerable. *)
Definition CastError `{L : Libs} (kind : string) (value : JSON) (path : string) : Exn :=
  mkExn "CastError" (cast_error_message kind value path)
        (<["kind" := JStr kind]>
           (<["value" := value]>
              (<["path" := JStr path]> (cast_error_props kind value path)))).

(** The ObjectId a string of the path or of a query stands for.  The
    [_id] of a stored document is an ObjectId, which casts to itself;
    any other string goes through the cast, and [None] is the CastError
    of a string that is no well-formed ObjectId. *)
Definition castId `{L : Libs} {A} (coll : gmap ObjectId A) (id : string)
    : option ObjectId :=
  match coll !! id with
  | Some _ => Some id
  | None => cast_ObjectId (JStr id)
  end.

(** ** The data model (src/models/user.js, src/models/task.js) *)

(** The paths of [userSchema]; [timestamps: true] adds the last two.
    [password] holds the hash once the document has been saved;
    [avatar] is the optional Buffer. *)
Module UserDoc.
Record t := mk {
  name : string;
  email : string;
  password : string;
  age : Z;
  tokens : list string;
  avatar : option string;
  createdAt : nat;
  updatedAt : nat }.

Definition set_name (v : string) (u : t) : t :=
  mk v (email u) (password u) (age u) (tokens u) (avatar u) (createdAt u) (updatedAt u).
Definition set_email (v : string) (u : t) : t :=
  mk (name u) v (password u) (age u) (tokens u) (avatar u) (createdAt u) (updatedAt u).
Definition set_password (v : string) (u : t) : t :=
  mk (name u) (email u) v (age u) (tokens u) (avatar u) (createdAt u) (updatedAt u).
Definition set_age (v : Z) (u : t) : t :=
  mk (name u) (email u) (password u) v (tokens u) (avatar u) (createdAt u) (updatedAt u).
Definition set_tokens (v : list string) (u : t) : t :=
  mk (name u) (email u) (password u) (age u) v (avatar u) (createdAt u) (updatedAt u).
Definition set_avatar (v : option string) (u : t) : t :=
  mk (name u) (email u) (password u) (age u) (tokens u) v (createdAt u) (updatedAt u).
Definition set_updatedAt (v : nat) (u : t) : t :=
  mk (name u) (email u) (password u) (age u) (tokens u) (avatar u) (createdAt u) v.
End UserDoc.

(** The paths of [taskSchema]. *)
Module TaskDoc.
Record t := mk {
  description : string;
  completed : bool;
  owner : ObjectId;
  createdAt : nat;
  updatedAt : nat }.

Definition set_description (v : string) (k : t) : t :=
  mk v (completed k) (owner k) (createdAt k) (updatedAt k).
Definition set_completed (v : bool) (k : t) : t :=
  mk (description k) v (owner k) (createdAt k) (updatedAt k).
Definition set_updatedAt (v : nat) (k : t) : t :=
  mk (description k) (completed k) (owner k) (createdAt k) v.
End TaskDoc.

(** A mongoose document in memory: the stored paths, the paths assigned
    a new value since it was loaded ([isModified]) and the paths whose
    assigned value could not be cast (reported by the next
    validation). *)
Record Document (A : Type) := mkDocument {
  _id : ObjectId;
  fields : A;
  modifiedPaths : list string;
  castErrors : list string }.
Arguments mkDocument {A}.
Arguments _id {A}.
Arguments fields {A}.
Arguments modifiedPaths {A}.
Arguments castErrors {A}.

(** A document as a query returns it. *)
Definition hydrate {A} (id : ObjectId) (x : A) : Document A :=
  mkDocument id x [] [].

(** [doc.isModified(path)] and [doc.isModified()] *)
Definition isModified {A} (d : Document A) (path : string) : bool :=
  bool_decide (path ∈ modifiedPaths d).
Definition isModified_any {A} (d : Document A) : bool :=
  match modifiedPaths d with [] => false | _ => true end.

(** [doc.path = v] for a value of the path's type: the path is marked
    modified only when the value differs from the current one. *)
Definition assign {A B} `{EqDecision B} (path : string)
    (get : A -> B) (put : B -> A -> A) (v : B) (d : Document A) : Document A :=
  if decide (get (fields d) = v) then d
  else mkDocument (_id d) (put v (fields d)) (path :: modifiedPaths d) (castErrors d).

(** [doc.path = v] for a request value: cast, apply the setters of the
    schema ([trim], [lowercase]), assign. *)
Definition assign_cast {A B} `{EqDecision B} (path : string)
    (cast : JSON -> option B) (setter : B -> B)
    (get : A -> B) (put : B -> A -> A) (v : JSON) (d : Document A) : Document A :=
  match cast v with
  | Some b => assign path get put (setter b) d
  | None => mkDocument (_id d) (fields d) (modifiedPaths d) (path :: castErrors d)
  end.

(** ** The store, the response and the handler monad *)

Record DB := mkDB {
  users : gmap ObjectId UserDoc.t;
  tasks : gmap ObjectId TaskDoc.t }.

(** What [res.send] is given: nothing, a string, an object, a task
    document or an array of them (documents without a [toJSON] of their
    own are written with every path). *)
Inductive Body :=
  | BEmpty
  | BText (s : string)
  | BJson (j : JSON)
  | BTask (id : ObjectId) (k : TaskDoc.t)
  | BTasks (l : list (ObjectId * TaskDoc.t)).

Record Response := mkResponse {
  status : nat;
  body : Body }.

Record St := mkSt {
  db : DB;
  res : option Response;
  now : nat }.

Inductive Result (A : Type) :=
  | Ok (a : A)
  | Throw (e : Exn).
Arguments Ok {A}.
Arguments Throw {A}.

Definition M (A : Type) : Type := St -> St * Result A.

#[global] Instance M_ret : MRet M := fun A a s => (s, Ok a).
#[global] Instance M_bind : MBind M := fun A B f m s =>
  match m s with
  | (s', Ok a) => f a s'
  | (s', Throw e) => (s', Throw e)
  end.

Definition throw {A} (e : Exn) : M A := fun s => (s, Throw e).

(** [try { m } catch (e) { h e }] *)
Definition try_catch {A} (m : M A) (h : Exn -> M A) : M A := fun s =>
  match m s with
  | (s', Ok a) => (s', Ok a)
  | (s', Throw e) => h e s'
  end.

Definition get_db : M DB := fun s => (s, Ok (db s)).
Definition put_db (d : DB) : M unit := fun s => (mkSt d (res s) (now s), Ok tt).
Definition Date_now : M nat := fun s => (s, Ok (now s)).

(** [res.status(code).send(b)]; [res.send(b)] is [res_send 200 b].
    The first send is the response; a later one throws and leaves it as
    it is. *)
Definition res_send (code : nat) (b : Body) : M unit := fun s =>
  match res s with
  | None => (mkSt (db s) (Some (mkResponse code b)) (now s), Ok tt)
  | Some _ => (s, Throw HeadersSentError)
  end.

(** The state a request leaves behind.  An exception that escapes the
    handler is an unhandled rejection: nothing more is written. *)
Definition run (m : M unit) (s : St) : St := (m s).1.

(** The state in which a request starts: the store as it is, no
    response yet, the time of the request. *)
Definition request_at (d : DB) (time : nat) : St := mkSt d None time.

(** ** The Task model (src/models/task.js) and its queries *)

(** The [options] of a query: [limit] and [skip] as [parseInt] returns
    them ([None] is NaN) and the [sort] object, which the router fills
    with at most one field and its direction. *)
Record QueryOptions := mkQueryOptions {
  limit : option Z;
  skip : option Z;
  sort : option (string * Z) }.

Module Task.
Section Model.
Context `{L : Libs}.

(** [Task.findOne({ _id: id, owner: owner })]: the query casts [id]
    to an ObjectId first, and is rejected when it cannot. *)
Definition findOne (id : string) (owner : ObjectId) : M (option (Document TaskDoc.t)) :=
  d ← get_db;
  match castId (tasks d) id with
  | None => throw (CastError "ObjectId" (JStr id) "_id")
  | Some id =>
      mret (match tasks d !! id with
            | Some k =>
                if decide (TaskDoc.owner k = owner) then Some (hydrate id k) else None
            | None => None
            end)
  end.

(** [Task.findOneAndDelete({ _id: id, owner: owner })] *)
Definition findOneAndDelete (id : string) (owner : ObjectId)
    : M (option (Document TaskDoc.t)) :=
  task ← findOne id owner;
  match task with
  | Some task =>
      d ← get_db;
      put_db (mkDB (users d) (delete (_id task) (tasks d)));;
      mret (Some task)
  | None => mret None
  end.

(** [Task.deleteMany({ owner: owner })] *)
Definition deleteMany (owner : ObjectId) : M unit :=
  d ← get_db;
  put_db (mkDB (users d)
               (filter (fun kv => TaskDoc.owner kv.2 ≠ owner) (tasks d))).

(** [task[path] = v]: [description] is a trimmed String, [completed]
    a Boolean; a property that is no path of the schema is not part
    of the document. *)
Definition set (path : string) (v : JSON) (task : Document TaskDoc.t)
    : Document TaskDoc.t :=
  if decide (path = "description") then
    assign_cast "description" cast_string JsString.trim
                TaskDoc.description TaskDoc.set_description v task
  else if decide (path = "completed") then
    assign_cast "completed" cast_boolean id
                TaskDoc.completed TaskDoc.set_completed v task
  else task.

(** The validators of [taskSchema]: [description] is required
    ([owner] is required too and always present in a record). *)
Definition validate (k : TaskDoc.t) : list (string * string) :=
  if decide (TaskDoc.description k = "")
  then [("description", "Path `description` is required.")]
  else [].

(** [task.save()]: validation; then, when a path was modified,
    [updatedAt] and the write. *)
Definition save (task : Document TaskDoc.t) : M (Document TaskDoc.t) :=
  match (((fun p => (p, "Cast failed")) <$> castErrors task) ++ validate (fields task))%list with
  | (_ :: _) as errs => throw (ValidationError "Task" errs)
  | [] =>
      if isModified_any task then
        time ← Date_now;
        d ← get_db;
        let k := TaskDoc.set_updatedAt time (fields task) in
        put_db (mkDB (users d) (<[_id task := k]> (tasks d)));;
        mret (hydrate (_id task) k)
      else mret task
  end.

(** The order a [sort] object asks for. *)
Definition compare_by (field : string) (a b : ObjectId * TaskDoc.t) : comparison :=
  if decide (field = "description") then
    String.compare (TaskDoc.description a.2) (TaskDoc.description b.2)
  else if decide (field = "completed") then
    Bool.compare (TaskDoc.completed a.2) (TaskDoc.completed b.2)
  else if decide (field = "createdAt") then
    Nat.compare (TaskDoc.createdAt a.2) (TaskDoc.createdAt b.2)
  else if decide (field = "updatedAt") then
    Nat.compare (TaskDoc.updatedAt a.2) (TaskDoc.updatedAt b.2)
  else if decide (field = "owner") then
    String.compare (TaskDoc.owner a.2) (TaskDoc.owner b.2)
  else if decide (field = "_id") then
    String.compare a.1 b.1
  else Eq.

Definition in_order (field : string) (dir : Z) (a b : ObjectId * TaskDoc.t) : bool :=
  match (if (dir <? 0)%Z then compare_by field b a else compare_by field a b) with
  | Gt => false
  | _ => true
  end.

Fixpoint insert_sorted {A} (le : A -> A -> bool) (x : A) (l : list A) : list A :=
  match l with
  | [] => [x]
  | y :: l' => if le x y then x :: l else y :: insert_sorted le x l'
  end.

Definition sort_by {A} (le : A -> A -> bool) (l : list A) : list A :=
  foldr (insert_sorted le) [] l.

(** [limit]: NaN and 0 are no limit, a negative limit is its absolute
    value. *)
Definition apply_limit {A} (lim : option Z) (l : list A) : list A :=
  match lim with
  | Some n => if (n =? 0)%Z then l else take (Z.abs_nat n) l
  | None => l
  end.

(** [Task.find({ owner, ...match }, null, options)]: filter, sort,
    skip, limit.  [match_completed] is the [match] object, which the
    router fills with at most the key [completed].  Without a sort the
    documents come in the order of the collection, here that of
    [map_to_list]. *)
Definition find (owner : ObjectId) (match_completed : option bool)
    (options : QueryOptions) : M (list (ObjectId * TaskDoc.t)) :=
  d ← get_db;
  let docs := filter (fun kv => TaskDoc.owner kv.2 = owner) (map_to_list (tasks d)) in
  let docs :=
    match match_completed with
    | Some b => filter (fun kv => TaskDoc.completed kv.2 = b) docs
    | None => docs
    end in
  let docs :=
    match sort options with
    | Some (field, dir) => sort_by (in_order field dir) docs
    | None => docs
    end in
  match skip options with
  | Some n =>
      if (n <? 0)%Z then throw BadSkipError
      else mret (apply_limit (limit options) (drop (Z.to_nat n) docs))
  | None => mret (apply_limit (limit options) docs)
  end.

End Model.
End Task.

(** ** The User model (src/models/user.js) *)

Module User.
Section Model.
Context `{L : Libs}.

(** The stored emails the condition [{ email: email }] selects.  The
    query casts a string as an assignment does, through the setters of
    the path ([trim], [lowercase]); [undefined] and [null] select no
    stored email; [None] when the condition is refused. *)
Definition email_condition (email : option JSON) : option (string -> bool) :=
  match email with
  | Some (JStr e) =>
      Some (fun stored => String.eqb stored (JsString.toLowerCase (JsString.trim e)))
  | Some JNull | None => Some (fun _ => false)
  | Some c => query_string c
  end.

(** [User.findOne({ email: email })] *)
Definition findOne_email (email : option JSON) : M (option (Document UserDoc.t)) :=
  d ← get_db;
  match email_condition email with
  | None => throw (CastError "string" (default JNull email) "email")
  | Some sel =>
      mret (match list_find (fun kv => sel (UserDoc.email kv.2) = true)
                            (map_to_list (users d)) with
            | Some (_, (id, u)) => Some (hydrate id u)
            | None => None
            end)
  end.

(** [User.findOne({ _id: id, 'tokens.token': token })] *)
Definition findOne_id_token (id : ObjectId) (token : string)
    : M (option (Document UserDoc.t)) :=
  d ← get_db;
  mret (match users d !! id with
        | Some u =>
            if decide (token ∈ UserDoc.tokens u) then Some (hydrate id u) else None
        | None => None
        end).

(** [bcrypt.compare(pass, hash)]: rejects unless both are strings. *)
Definition compare (pass : option JSON) (hash : string) : M bool :=
  match pass with
  | Some (JStr p) => mret (bcrypt_compare p hash)
  | _ => throw (Error "Illegal arguments")
  end.

(** [userSchema.statics.findByCredentials] *)
Definition findByCredentials (email pass : option JSON) : M (Document UserDoc.t) :=
  user ← findOne_email email;
  match user with
  | None => throw (Error "Unable to login (email not found)")
  | Some user =>
      isMatch ← compare pass (UserDoc.password (fields user));
      if negb isMatch
      then throw (Error "Unable to login (password is incorrect)")
      else mret user
  end.

(** [user[path] = v] with the setters of [userSchema]. *)
Definition set (path : string) (v : JSON) (user : Document UserDoc.t)
    : Document UserDoc.t :=
  if decide (path = "name") then
    assign_cast "name" cast_string JsString.trim
                UserDoc.name UserDoc.set_name v user
  else if decide (path = "email") then
    assign_cast "email" cast_string (fun s => JsString.toLowerCase (JsString.trim s))
                UserDoc.email UserDoc.set_email v user
  else if decide (path = "password") then
    assign_cast "password" cast_string JsString.trim
                UserDoc.password UserDoc.set_password v user
  else if decide (path = "age") then
    assign_cast "age" cast_number id
                UserDoc.age UserDoc.set_age v user
  else user.

(** The validators of [userSchema], path by path; [minlength] counts
    code units, as [String.length] does. *)
Definition validate (u : UserDoc.t) : list (string * string) :=
  ((if decide (UserDoc.name u = "")
   then [("name", "Path `name` is required.")] else []) ++
  (if decide (UserDoc.email u = "")
   then [("email", "Path `email` is required.")]
   else if negb (validator_isEmail (UserDoc.email u))
   then [("email", "Email is invalid format")] else []) ++
  (if decide (UserDoc.password u = "")
   then [("password", "Path `password` is required.")]
   else if (String.length (UserDoc.password u) <? 7)%nat
   then [("password", "Path `password` is shorter than the minimum allowed length (7).")]
   else if JsString.includes "password" (JsString.toLowerCase (UserDoc.password u))
   then [("password", "Password cannot have 'password' in it.")] else []) ++
  (if (UserDoc.age u <? 0)%Z
   then [("age", "Age must be a positive number")] else []))%list.

(** [userSchema.pre('save')]: hash the password when it was
    modified. *)
Definition pre_save (user : Document UserDoc.t) : Document UserDoc.t :=
  if isModified user "password" then
    mkDocument (_id user)
               (UserDoc.set_password (bcrypt_hash (UserDoc.password (fields user)))
                                     (fields user))
               (modifiedPaths user) (castErrors user)
  else user.

(** Another user already has this email (the unique index). *)
Definition email_taken (d : DB) (id : ObjectId) (e : string) : bool :=
  existsb (fun kv => negb (String.eqb kv.1 id) && String.eqb (UserDoc.email kv.2) e)
          (map_to_list (users d)).

(** [user.save()]: validation, the pre-save hook; then, when a path
    was modified, [updatedAt] and the write. *)
Definition save (user : Document UserDoc.t) : M (Document UserDoc.t) :=
  match (((fun p => (p, "Cast failed")) <$> castErrors user) ++ validate (fields user))%list with
  | (_ :: _) as errs => throw (ValidationError "User" errs)
  | [] =>
      let user := pre_save user in
      if isModified_any user then
        time ← Date_now;
        d ← get_db;
        let u := UserDoc.set_updatedAt time (fields user) in
        if isModified user "email" && email_taken d (_id user) (UserDoc.email u)
        then throw DuplicateKeyError
        else
          put_db (mkDB (<[_id user := u]> (users d)) (tasks d));;
          mret (hydrate (_id user) u)
      else mret user
  end.

(** [userSchema.methods.generateAuthToken]; returns the token, and
    the document as the method leaves it. *)
Definition generateAuthToken (user : Document UserDoc.t)
    : M (Document UserDoc.t * string) :=
  let token := jwt_sign (_id user) in
  let user := assign "tokens" UserDoc.tokens UserDoc.set_tokens
                     (UserDoc.tokens (fields user) ++ [token])%list user in
  user ← save user;
  mret (user, token).

(** [user.toObject()]: a copy with every stored path. *)
Definition toObject (user : Document UserDoc.t) : gmap string JSON :=
  let u := fields user in
  let copy : gmap string JSON :=
    {[ "_id" := JStr (_id user);
       "name" := JStr (UserDoc.name u);
       "email" := JStr (UserDoc.email u);
       "password" := JStr (UserDoc.password u);
       "age" := JNum (UserDoc.age u);
       "tokens" := JArr ((fun t => JObj {[ "token" := JStr t ]}) <$> UserDoc.tokens u);
       "createdAt" := JNum (Z.of_nat (UserDoc.createdAt u));
       "updatedAt" := JNum (Z.of_nat (UserDoc.updatedAt u)) ]} in
  match UserDoc.avatar u with
  | Some bytes => <["avatar" := JStr bytes]> copy
  | None => copy
  end.

(** [userSchema.methods.toJSON] *)
Definition toJSON (user : Document UserDoc.t) : gmap string JSON :=
  let publicUser := toObject user in
  let publicUser := delete "password" publicUser in
  let publicUser := delete "tokens" publicUser in
  let publicUser := delete "avatar" publicUser in
  publicUser.

(** [userSchema.pre('remove')] *)
Definition pre_remove (user : Document UserDoc.t) : M unit :=
  Task.deleteMany (_id user).

(** [user.remove()]: the hook, then the user document itself. *)
Definition remove (user : Document UserDoc.t) : M unit :=
  pre_remove user;;
  d ← get_db;
  put_db (mkDB (delete (_id user) (users d)) (tasks d)).

(** [user.populate({ path: 'tasks', match, options }).execPopulate()]
    through the virtual [tasks]: localField [_id], foreignField
    [owner]. *)
Definition populate_tasks (user : Document UserDoc.t) (match_completed : option bool)
    (options : QueryOptions) : M (list (ObjectId * TaskDoc.t)) :=
  Task.find (_id user) match_completed options.

End Model.
End User.

(** ** Requests *)

(** What the handlers read of an express request.  [req_headers] is
    keyed by lower-case header name, as node delivers it; [req_params_id]
    is the [:id] of the path as it was sent, which need not be a
    well-formed ObjectId; query values are strings, as express
    delivers a parameter that is given once (one given several times,
    delivered as an array, is outside the embedding). *)
Record Request := mkRequest {
  req_headers : gmap string string;
  req_params_id : string;
  req_query : gmap string string;
  req_body : gmap string JSON }.

(** [req.header(name)] *)
Definition req_header (req : Request) (name : string) : option string :=
  req_headers req !! JsString.toLowerCase name.

(** [Object.keys(o)] *)
Definition Object_keys {A} (o : gmap string A) : list string :=
  (map_to_list o).*1.

(** [updates.every((key) => allowedUpdates.includes(key))] *)
Definition isValidOperation (allowedUpdates updates : list string) : bool :=
  forallb (fun key => bool_decide (key ∈ allowedUpdates)) updates.

(** [updates.forEach((update) => doc[update] = body[update])]; the
    keys are distinct and each is assigned to its own path, so the order
    in which [Object_keys] lists them does not matter. *)
Definition apply_updates {A} (set : string -> JSON -> Document A -> Document A)
    (body : gmap string JSON) (updates : list string) (doc : Document A) : Document A :=
  foldl (fun doc update =>
           match body !! update with
           | Some v => set update v doc
           | None => doc
           end) doc updates.

Definition task_body (task : Document TaskDoc.t) : Body :=
  BTask (_id task) (fields task).

Section Routers.
Context `{L : Libs}.

(** *** src/middleware/auth.js *)

(** [auth]: the result is [Some (req.user, req.token)] when [next()]
    is called, [None] when the middleware has answered itself.  The
    handler is an async function, so nothing it throws reaches the
    [try] of the middleware. *)
Definition auth (req : Request) : M (option (Document UserDoc.t * string)) :=
  try_catch
    (header ← match req_header req "Authorization" with
              | Some h => mret h
              | None => throw (TypeError "Cannot read property 'replace' of undefined")
              end;
     let token := JsString.replace "Bearer " "" header in
     decoded ← match jwt_verify token with
               | Some id => mret id
               | None => throw (JsonWebTokenError "invalid token")
               end;
     user ← User.findOne_id_token decoded token;
     match user with
     | None => throw (Error "")
     | Some user => mret (Some (user, token))
     end)
    (fun e =>
       res_send 401 (BJson (JObj {[ "error" := JStr "Authentication failed" ]}));;
       mret None).

(** A route registered as [router.verb(path, auth, handler)]. *)
Definition with_auth (handler : Document UserDoc.t -> string -> Request -> M unit)
    (req : Request) : M unit :=
  passed ← auth req;
  match passed with
  | Some (user, token) => handler user token req
  | None => mret tt
  end.

(** *** src/routers/userRouter.js *)

(** [router.get('/users/me', auth, ...)] *)
Definition get_users_me : Request -> M unit :=
  with_auth (fun user token req =>
    res_send 200 (BJson (JObj (User.toJSON user)))).

(** [router.patch('/users/me', auth, ...)] *)
Definition patch_users_me : Request -> M unit :=
  with_auth (fun user token req =>
    let updates := Object_keys (req_body req) in
    let allowedUpdates := ["name"; "email"; "password"; "age"] in
    if negb (isValidOperation allowedUpdates updates) then
      res_send 400 (BJson (JObj {[ "error" :=
        JStr "You are trying to update a User property that is not allowed or doesn't exist" ]}))
    else
      try_catch
        (let user := apply_updates User.set (req_body req) updates user in
         user ← User.save user;
         res_send 200 (BJson (JObj (User.toJSON user))))
        (fun e => res_send 400 (BJson (stringify_exn e)))).

(** [router.post('/users/login', ...)]; [res.send(e)] writes
    [JSON.stringify(e)], the enumerable own properties of the error. *)
Definition post_users_login (req : Request) : M unit :=
  try_catch
    (user ← User.findByCredentials (req_body req !! "email") (req_body req !! "password");
     '(user, newToken) ← User.generateAuthToken user;
     res_send 200 (BJson (JObj {[ "user" := JObj (User.toJSON user);
                                  "newToken" := JStr newToken ]})))
    (fun e => res_send 400 (BJson (stringify_exn e))).

(** [router.delete('/users/me/avatar', auth, ...)]; no [try] here. *)
Definition delete_users_me_avatar : Request -> M unit :=
  with_auth (fun user token req =>
    let user := assign "avatar" UserDoc.avatar UserDoc.set_avatar None user in
    User.save user;;
    res_send 200 (BText "Successfully deleted your avatar")).

(** [router.delete('/users/me', auth, ...)] *)
Definition delete_users_me : Request -> M unit :=
  with_auth (fun user token req =>
    try_catch
      (User.remove user;;
       res_send 200 (BJson (JObj (User.toJSON user))))
      (fun e => res_send 500 BEmpty)).

(** *** src/routers/taskRouter.js *)

(** The [match] object of [GET /tasks]. *)
Definition tasks_match (req : Request) : option bool :=
  if JsString.truthy (req_query req !! "completed")
  then Some (bool_decide (req_query req !! "completed" = Some "true"))
  else None.

(** The [sort] object of [GET /tasks]. *)
Definition tasks_sort (req : Request) : option (string * Z) :=
  if JsString.truthy (req_query req !! "sortBy") then
    let parts := JsString.split "_" (default "" (req_query req !! "sortBy")) in
    Some (default "" (parts !! 0%nat),
          if decide (parts !! 1%nat = Some "desc") then (-1)%Z else 1%Z)
  else None.

(** [router.get('/tasks', auth, ...)] *)
Definition get_tasks : Request -> M unit :=
  with_auth (fun user token req =>
    let match_ := tasks_match req in
    let sort := tasks_sort req in
    try_catch
      (tasks ← User.populate_tasks user match_
                 (mkQueryOptions (JsString.parseInt (req_query req !! "limit"))
                                 (JsString.parseInt (req_query req !! "skip"))
                                 sort);
       res_send 200 (BTasks tasks))
      (fun e => res_send 500 BEmpty)).

(** [router.get('/tasks/:id', auth, ...)]; the 404 branch does not
    return, so [res.send(task)] follows it. *)
Definition get_tasks_id : Request -> M unit :=
  with_auth (fun user token req =>
    let id := req_params_id req in
    try_catch
      (task ← Task.findOne id (_id user);
       match task with
       | None => res_send 404 BEmpty;; res_send 200 BEmpty
       | Some task => res_send 200 (task_body task)
       end)
      (fun e => res_send 404 BEmpty)).

(** [router.patch('/tasks/:id', auth, ...)] *)
Definition patch_tasks_id : Request -> M unit :=
  with_auth (fun user token req =>
    let updates := Object_keys (req_body req) in
    let allowedUpdates := ["description"; "completed"] in
    if negb (isValidOperation allowedUpdates updates) then
      res_send 400 (BJson (JObj {[ "error" :=
        JStr "You are trying to update a Task property that is not allowed or doesn't exist" ]}))
    else
      try_catch
        (task ← Task.findOne (req_params_id req) (_id user);
         match task with
         | None => res_send 404 (BJson (JObj {[ "error" := JStr "User not found" ]}))
         | Some task =>
             let task := apply_updates Task.set (req_body req) updates task in
             task ← Task.save task;
             res_send 200 (task_body task)
         end)
        (fun e => res_send 400 (BJson (stringify_exn e)))).

(** [router.delete('/tasks/:id', auth, ...)] *)
Definition delete_tasks_id : Request -> M unit :=
  with_auth (fun user token req =>
    try_catch
      (task ← Task.findOneAndDelete (req_params_id req) (_id user);
       match task with
       | None => res_send 404 BEmpty
       | Some task => res_send 200 (task_body task)
       end)
      (fun e => res_send 500 BEmpty)).

End Routers.

(** ** A concrete instance of the libraries, to run the handlers *)

Module Toy.
Definition sign (id : ObjectId) : string := "jwt." ++ id.
Definition verify (token : string) : option ObjectId :=
  if String.prefix "jwt." token then Some (JsString.skip 4 token) else None.
Definition hash (s : string) : string := "$2a$08$" ++ s.
Definition compare (s h : string) : bool := String.eqb (hash s) h.
Definition isEmail (s : string) : bool := JsString.includes "@" s.
Definition castString (v : JSON) : option string :=
  match v with JStr s => Some s | _ => None end.
Definition castNumber (v : JSON) : option Z :=
  match v with JNum n => Some n | _ => None end.
Definition castBoolean (v : JSON) : option bool :=
  match v with JBool b => Some b | _ => None end.

(** A well-formed id has no hyphen; its canonical spelling is in
    lower case. *)
Definition castObjectId (v : JSON) : option ObjectId :=
  match v with
  | JStr s =>
      if String.eqb s "" || JsString.includes "-" s then None
      else Some (JsString.toLowerCase s)
  | _ => None
  end.
(** The one operator is [$ne]; every other object is refused. *)
Definition queryString (v : JSON) : option (string -> bool) :=
  match v with
  | JObj o =>
      match o !! "$ne" with
      | Some (JStr s) => Some (fun stored => negb (String.eqb stored s))
      | _ => None
      end
  | _ => None
  end.

Definition castErrorMessage (kind : string) (value : JSON) (path : string) : string :=
  "Cast to " ++ kind ++ " failed at path " ++ path.
Definition castErrorProps (kind : string) (value : JSON) (path : string)
    : gmap string JSON :=
  {[ "message" := JStr (castErrorMessage kind value path);
     "name" := JStr "CastError" ]}.

Definition libs : Libs :=
  Build_Libs sign verify hash compare isEmail castString castNumber castBoolean
             castObjectId queryString castErrorMessage castErrorProps.

(** Two users and three tasks. *)
Definition ann : UserDoc.t :=
  UserDoc.mk "Ann" "ann@example.com" (hash "correct horse") 30
             ["jwt.u1"] (Some "PNG") 1 1.
Definition bob : UserDoc.t :=
  UserDoc.mk "Bob" "bob@example.com" (hash "battery staple") 41
             ["jwt.u2"] None 2 2.
Definition store : DB :=
  mkDB {[ "u1" := ann; "u2" := bob ]}
       {[ "t1" := TaskDoc.mk "write" false "u1" 3 3;
          "t2" := TaskDoc.mk "review" true "u1" 4 4;
          "t3" := TaskDoc.mk "deploy" true "u2" 5 5 ]}.

Definition bearer (token : string) : gmap string string :=
  {[ "authorization" := "Bearer " ++ token ]}.
Definition request (headers : gmap string string) (id : string)
    (query : gmap string string) (body : gmap string JSON) : Request :=
  mkRequest headers id query body.

(** A request of Ann, with her token. *)
Definition ann_request (id : string) (query : gmap string string)
    (body : gmap string JSON) : Request :=
  request (bearer "jwt.u1") id query body.

Definition login_request (email password : string) : Request :=
  request ∅ "" ∅ {[ "email" := JStr email; "password" := JStr password ]}.
End Toy.

(** ** The vocabulary of the specification *)

(** The state after a request that changed nothing in the store and
    was answered with [code] and [b]. *)
Definition answered (d : DB) (time : nat) (code : nat) (b : Body) : St :=
  mkSt d (Some (mkResponse code b)) time.

(** The one answer of the auth gate. *)
Definition authentication_failed : Body :=
  BJson (JObj {[ "error" := JStr "Authentication failed" ]}).

Section Vocabulary.
Context `{L : Libs}.

(** The bearer token of a request, when it has the header. *)
Definition bearer_token (req : Request) : option string :=
  JsString.replace "Bearer " "" <$> req_header req "Authorization".

(** The failure modes of section 4.2 of the specification. *)
Inductive AuthFailure (req : Request) (d : DB) : Prop :=
  | MissingHeader :
      req_header req "Authorization" = None ->
      AuthFailure req d
  | InvalidToken token :
      bearer_token req = Some token ->
      jwt_verify token = None ->
      AuthFailure req d
  | UserNotFound token id :
      bearer_token req = Some token ->
      jwt_verify token = Some id ->
      users d !! id = None ->
      AuthFailure req d
  | TokenNotInSet token id u :
      bearer_token req = Some token ->
      jwt_verify token = Some id ->
      users d !! id = Some u ->
      token ∉ UserDoc.tokens u ->
      AuthFailure req d.

(** The request carries a verifiable token of the stored user [u]
    with identity [id], and the token is in the user's token set. *)
Definition Authenticated (req : Request) (d : DB) (id : ObjectId) (u : UserDoc.t)
    (token : string) : Prop :=
  bearer_token req = Some token ∧
  jwt_verify token = Some id ∧
  users d !! id = Some u ∧
  token ∈ UserDoc.tokens u.

(** The email of the request is not registered: the condition made of
    it selects the email of no stored user. *)
Definition email_unregistered (d : DB) (sel : string -> bool) : Prop :=
  ∀ id u, users d !! id = Some u -> sel (UserDoc.email u) = false.

(** The password of the request matches the hash: it is a string and
    [bcrypt.compare] accepts it. *)
Definition password_matches (pass : option JSON) (hash : string) : bool :=
  match pass with
  | Some (JStr p) => bcrypt_compare p hash
  | _ => false
  end.

(** The email of the request is registered, and its password matches
    the hash of no user the condition selects. *)
Definition password_mismatch (d : DB) (sel : string -> bool) (pass : option JSON) : Prop :=
  (∃ id u, users d !! id = Some u ∧ sel (UserDoc.email u) = true) ∧
  ∀ id u, users d !! id = Some u -> sel (UserDoc.email u) = true ->
          password_matches pass (UserDoc.password u) = false.

(** The tasks of the user [uid], completed or not, in the order of
    the collection. *)
Definition owned_tasks (d : DB) (uid : ObjectId) : list (ObjectId * TaskDoc.t) :=
  filter (fun kv => TaskDoc.owner kv.2 = uid) (map_to_list (tasks d)).

(** The documents a query works on, after [match] and [sort]. *)
Definition matched_sorted (d : DB) (uid : ObjectId) (m : option bool)
    (srt : option (string * Z)) : list (ObjectId * TaskDoc.t) :=
  let docs := owned_tasks d uid in
  let docs := match m with
              | Some b => filter (fun kv => TaskDoc.completed kv.2 = b) docs
              | None => docs
              end in
  match srt with
  | Some (field, dir) => Task.sort_by (Task.in_order field dir) docs
  | None => docs
  end.

(** No task has both the identity [id] and the owner [uid]. *)
Definition no_owned_task (d : DB) (uid id : ObjectId) : Prop :=
  ∀ k, tasks d !! id = Some k -> TaskDoc.owner k ≠ uid.

(** The [:id] of the path is a well-formed ObjectId, that of [id]. *)
Definition task_id_of (d : DB) (raw : string) (id : ObjectId) : Prop :=
  castId (tasks d) raw = Some id.

Definition avatar_deleted : Body := BText "Successfully deleted your avatar".

(** The user record after [DELETE /users/me/avatar] at [time]. *)
Definition without_avatar (time : nat) (u : UserDoc.t) : UserDoc.t :=
  match UserDoc.avatar u with
  | Some _ => UserDoc.set_updatedAt time (UserDoc.set_avatar None u)
  | None => u
  end.


(** The request with the query parameter [key] set to [value], and
    without it. *)
Definition with_query (key value : string) (req : Request) : Request :=
  mkRequest (req_headers req) (req_params_id req)
            (<[key := value]> (req_query req)) (req_body req).

End Vocabulary.

(** ** The routes the claims do not reach: registration, task creation,
       logout, the avatar download *)

(** What mongoose does when a document is constructed from a request
    body: the [_id] it generates and its casts to Date, the array of
    token subdocuments and Buffer ([None] is a CastError); and the time
    that passes between two readings of the clock in one request. *)
Class Mongoose := {
  (** [new mongoose.Types.ObjectId()] *)
  ObjectId_generate : St -> ObjectId;
  cast_Date : JSON -> option nat;
  cast_tokens : JSON -> option (list string);
  cast_Buffer : JSON -> option string;
  clock_elapsed : St -> nat }.

(** A document that [new Model(obj)] has built and that is not stored
    yet ([isNew]); [given_createdAt] is the [createdAt] of [obj], which
    [timestamps: true] keeps when it is there. *)
Record NewDocument (A : Type) := mkNewDocument {
  new_doc : Document A;
  given_createdAt : option nat }.
Arguments mkNewDocument {A}.
Arguments new_doc {A}.
Arguments given_createdAt {A}.

Section Construction.
Context `{L : Libs} `{G : Mongoose}.

(** The paths of [obj] whose value cannot be cast. *)
Definition cast_failures {B} (cast : JSON -> option B) (obj : gmap string JSON)
    (path : string) : list string :=
  match obj !! path with
  | Some v => match cast v with Some _ => [] | None => [path] end
  | None => []
  end.

(** The [_id] of a new document: the one of [obj] when it has one,
    else a generated one. *)
Definition construct_id (obj : gmap string JSON) : M ObjectId := fun s =>
  (s, Ok (match obj !! "_id" ≫= cast_ObjectId with
          | Some id => id
          | None => ObjectId_generate s
          end)).

(** [new Model(obj)]: start from the defaults of the schema and assign
    every key of [obj] that is a path. *)
Definition construct {A} (defaults : A)
    (set : string -> JSON -> Document A -> Document A)
    (obj : gmap string JSON) : M (NewDocument A) :=
  id ← construct_id obj;
  let errs := (cast_failures cast_ObjectId obj "_id" ++
               cast_failures cast_Date obj "createdAt" ++
               cast_failures cast_Date obj "updatedAt")%list in
  mret (mkNewDocument
          (apply_updates set obj (Object_keys obj) (mkDocument id defaults [] errs))
          (obj !! "createdAt" ≫= cast_Date)).

(** [new Task({ ...req.body, owner: owner })]: the [owner] of the body,
    if any, is overridden; [completed] defaults to [false]. *)
Definition Task_new (body : gmap string JSON) (owner : ObjectId)
    : M (NewDocument TaskDoc.t) :=
  construct (TaskDoc.mk "" false owner 0 0) Task.set body.

(** [task.save()] on a new task: validation, the timestamps, the
    insert, which fails on an [_id] that is already there. *)
Definition Task_insert (new : NewDocument TaskDoc.t) : M (Document TaskDoc.t) :=
  let task := new_doc new in
  match (((fun p => (p, "Cast failed")) <$> castErrors task) ++ Task.validate (fields task))%list with
  | (_ :: _) as errs => throw (ValidationError "Task" errs)
  | [] =>
      time ← Date_now;
      d ← get_db;
      let created := default time (given_createdAt new) in
      let k := TaskDoc.mk (TaskDoc.description (fields task))
                          (TaskDoc.completed (fields task))
                          (TaskDoc.owner (fields task)) created created in
      match tasks d !! _id task with
      | Some _ => throw DuplicateKeyError
      | None =>
          put_db (mkDB (users d) (<[_id task := k]> (tasks d)));;
          mret (hydrate (_id task) k)
      end
  end.

(** The assignments [new User(obj)] can make: the four paths of
    [User.set], and [tokens] and [avatar]. *)
Definition User_init (path : string) (v : JSON) (user : Document UserDoc.t)
    : Document UserDoc.t :=
  if decide (path = "tokens") then
    assign_cast "tokens" cast_tokens id UserDoc.tokens UserDoc.set_tokens v user
  else if decide (path = "avatar") then
    assign_cast "avatar" (fun v => Some <$> cast_Buffer v) id
                UserDoc.avatar UserDoc.set_avatar v user
  else User.set path v user.

(** [new User(req.body)]; [age] defaults to 0. *)
Definition User_new (body : gmap string JSON) : M (NewDocument UserDoc.t) :=
  construct (UserDoc.mk "" "" "" 0 [] None 0 0) User_init body.

(** [user.save()] on a new user: validation, the pre-save hook that
    hashes the password, the timestamps, the insert, which fails on an
    [_id] or an email that is already there. *)
Definition User_insert (new : NewDocument UserDoc.t) : M (Document UserDoc.t) :=
  let user := new_doc new in
  match (((fun p => (p, "Cast failed")) <$> castErrors user) ++ User.validate (fields user))%list with
  | (_ :: _) as errs => throw (ValidationError "User" errs)
  | [] =>
      let user := User.pre_save user in
      time ← Date_now;
      d ← get_db;
      let created := default time (given_createdAt new) in
      let u := UserDoc.mk (UserDoc.name (fields user)) (UserDoc.email (fields user))
                          (UserDoc.password (fields user)) (UserDoc.age (fields user))
                          (UserDoc.tokens (fields user)) (UserDoc.avatar (fields user))
                          created created in
      match users d !! _id user with
      | Some _ => throw DuplicateKeyError
      | None =>
          if User.email_taken d (_id user) (UserDoc.email u)
          then throw DuplicateKeyError
          else
            put_db (mkDB (<[_id user := u]> (users d)) (tasks d));;
            mret (hydrate (_id user) u)
      end
  end.

(** The clock moves on between the two saves of [POST /users]. *)
Definition clock_advance : M unit := fun s =>
  (mkSt (db s) (res s) (now s + clock_elapsed s), Ok tt).

(** [router.post('/users', ...)]: [user.save()] and then
    [generateAuthToken], which saves again and reads the clock again. *)
Definition post_users (req : Request) : M unit :=
  user ← User_new (req_body req);
  try_catch
    (user ← User_insert user;
     clock_advance;;
     '(user, newToken) ← User.generateAuthToken user;
     res_send 201 (BJson (JObj {[ "user" := JObj (User.toJSON user);
                                  "newToken" := JStr newToken ]})))
    (fun e => res_send 400 (BJson (stringify_exn e))).

(** [router.post('/tasks', auth, ...)] *)
Definition post_tasks : Request -> M unit :=
  with_auth (fun user token req =>
    task ← Task_new (req_body req) (_id user);
    try_catch
      (task ← Task_insert task;
       res_send 201 (task_body task))
      (fun e => res_send 400 (BJson (stringify_exn e)))).

(** [router.post('/users/logout', auth, ...)] *)
Definition post_users_logout : Request -> M unit :=
  with_auth (fun user token req =>
    try_catch
      (let user := assign "tokens" UserDoc.tokens UserDoc.set_tokens
                          (filter (fun t => t ≠ token) (UserDoc.tokens (fields user)))
                          user in
       User.save user;;
       res_send 200 (BText "You have been succesfully logged out"))
      (fun e => res_send 500 (BJson (stringify_exn e)))).

(** [router.post('/users/logoutAll', auth, ...)] *)
Definition post_users_logoutAll : Request -> M unit :=
  with_auth (fun user token req =>
    try_catch
      (let user := assign "tokens" UserDoc.tokens UserDoc.set_tokens [] user in
       User.save user;;
       res_send 200 (BText "Succesfully logged out of all sessions."))
      (fun e => res_send 500 (BJson (stringify_exn e)))).



End Construction.

(** A concrete instance of [Mongoose]. *)
Module ToyMongoose.
Definition generate (s : St) : ObjectId :=
  "new" ++ NilEmpty.string_of_uint (Nat.to_uint (now s)).
Definition castDate (v : JSON) : option nat :=
  match v with JNum n => Some (Z.to_nat n) | _ => None end.
Definition castTokens (v : JSON) : option (list string) :=
  match v with JArr [] => Some [] | _ => None end.
Definition castBuffer (v : JSON) : option string :=
  match v with JStr s => Some s | _ => None end.
Definition elapsed (s : St) : nat := 1.
Definition mongoose : Mongoose :=
  Build_Mongoose generate castDate castTokens castBuffer elapsed.
End ToyMongoose.

(** ** Vocabulary of the further properties *)

Section MoreVocabulary.
Context `{L : Libs} `{G : Mongoose}.

(** What the assignments of [PATCH /users/me] keep of the stored user
    [u]: the identity, the tokens, the avatar and the timestamps; and a
    path that is not marked modified still has its stored value. *)
Definition profile_kept (uid : ObjectId) (u : UserDoc.t) (doc : Document UserDoc.t) : Prop :=
  _id doc = uid ∧
  UserDoc.tokens (fields doc) = UserDoc.tokens u ∧
  UserDoc.avatar (fields doc) = UserDoc.avatar u ∧
  UserDoc.createdAt (fields doc) = UserDoc.createdAt u ∧
  ("password" ∉ modifiedPaths doc -> UserDoc.password (fields doc) = UserDoc.password u) ∧
  ("email" ∉ modifiedPaths doc -> UserDoc.email (fields doc) = UserDoc.email u) ∧
  (modifiedPaths doc = [] -> fields doc = u).

(** A password that the validators of [userSchema] refuse: empty,
    shorter than 7 characters, or with [password] in it in any letter
    case. *)
Definition weak_password (p : string) : Prop :=
  (String.length p < 7)%nat ∨
  JsString.includes "password" (JsString.toLowerCase p) = true.

(** What the assignments of [PATCH /tasks/:id] keep of the stored task
    [k]. *)
Definition task_kept (id : ObjectId) (k : TaskDoc.t) (doc : Document TaskDoc.t) : Prop :=
  _id doc = id ∧
  TaskDoc.owner (fields doc) = TaskDoc.owner k ∧
  TaskDoc.createdAt (fields doc) = TaskDoc.createdAt k ∧
  (modifiedPaths doc = [] -> fields doc = k).

(** The [_id] and the document [new Task] builds for a request. *)
Definition new_task_id (req : Request) (s : St) : ObjectId :=
  match req_body req !! "_id" ≫= cast_ObjectId with
  | Some id => id
  | None => ObjectId_generate s
  end.
Definition new_task_doc (req : Request) (uid : ObjectId) (s : St) : Document TaskDoc.t :=
  apply_updates Task.set (req_body req) (Object_keys (req_body req))
    (mkDocument (new_task_id req s) (TaskDoc.mk "" false uid 0 0) []
       (cast_failures cast_ObjectId (req_body req) "_id" ++
        cast_failures cast_Date (req_body req) "createdAt" ++
        cast_failures cast_Date (req_body req) "updatedAt")%list).

(** The [_id] and the document [new User] builds for a request. *)
Definition new_user_id (req : Request) (s : St) : ObjectId :=
  match req_body req !! "_id" ≫= cast_ObjectId with
  | Some id => id
  | None => ObjectId_generate s
  end.
Definition new_user_doc (req : Request) (s : St) : Document UserDoc.t :=
  apply_updates User_init (req_body req) (Object_keys (req_body req))
    (mkDocument (new_user_id req s) (UserDoc.mk "" "" "" 0 [] None 0 0) []
       (cast_failures cast_ObjectId (req_body req) "_id" ++
        cast_failures cast_Date (req_body req) "createdAt" ++
        cast_failures cast_Date (req_body req) "updatedAt")%list).

(** The record [user.save()] inserts for a new document. *)
Definition inserted_user (req : Request) (time : nat) (doc : Document UserDoc.t) : UserDoc.t :=
  let created := default time (req_body req !! "createdAt" ≫= cast_Date) in
  let hashed := fields (User.pre_save doc) in
  UserDoc.mk (UserDoc.name hashed) (UserDoc.email hashed) (UserDoc.password hashed)
             (UserDoc.age hashed) (UserDoc.tokens hashed) (UserDoc.avatar hashed)
             created created.

(** The rest of [POST /users] once the user [u1] is inserted:
    [generateAuthToken], a while later, and the answer. *)
Definition issue_first_token (id : ObjectId) (u1 : UserDoc.t) : M unit :=
  try_catch
    (clock_advance;;
     '(user, newToken) ← User.generateAuthToken (hydrate id u1);
     res_send 201 (BJson (JObj {[ "user" := JObj (User.toJSON user);
                                  "newToken" := JStr newToken ]})))
    (fun e => res_send 400 (BJson (stringify_exn e))).

(** What [new User] keeps: the identity it was given, and a password
    that is set is marked modified. *)
Definition constructed (id : ObjectId) (doc : Document UserDoc.t) : Prop :=
  _id doc = id ∧
  (UserDoc.password (fields doc) ≠ "" -> "password" ∈ modifiedPaths doc).

(** The order [sortBy=createdAt_asc] and [sortBy=createdAt_desc] ask
    for, by direction. *)
Definition createdAt_order (dir : Z) (a b : ObjectId * TaskDoc.t) : Prop :=
  if (dir <? 0)%Z then (TaskDoc.createdAt b.2 <= TaskDoc.createdAt a.2)%nat
  else (TaskDoc.createdAt a.2 <= TaskDoc.createdAt b.2)%nat.

(** [String(n)] for a non-negative integer: its decimal digits. *)
Definition decimal (n : nat) : string := NilEmpty.string_of_uint (Nat.to_uint n).

Definition isDecimalDigit (c : ascii) : bool :=
  (48 <=? nat_of_ascii c)%nat && (nat_of_ascii c <=? 57)%nat.

(** What may follow the digits of [n] for [parseInt] to read [n]: the
    end of the string, or a character that is no decimal digit and,
    after a lone [0], not the [x] of a hexadecimal prefix. *)
Definition stops_number (n : nat) (rest : string) : Prop :=
  match rest with
  | String c _ => isDecimalDigit c = false ∧ (n = 0%nat -> c ≠ "x"%char ∧ c ≠ "X"%char)
  | EmptyString => True
  end.

(** The tasks of an answer; none when it is not a task list. *)
Definition page_of (s : St) : list (ObjectId * TaskDoc.t) :=
  match res s with
  | Some (mkResponse _ (BTasks l)) => l
  | _ => []
  end.

(** The request for the [n] tasks after the first [k]. *)
Definition page_request (k n : nat) (req : Request) : Request :=
  with_query "limit" (decimal n) (with_query "skip" (decimal k) req).


End MoreVocabulary.

(** ** Properties *)

Ltac unfold_M :=
  unfold run, with_auth, try_catch, throw, get_db, put_db, Date_now, res_send,
         request_at, answered, mbind, M_bind, mret, M_ret in *.

Section Properties.
Context `{L : Libs}.

(** *** The auth gate *)

Lemma auth_pass req d id u token s :
  Authenticated req d id u token -> db s = d ->
  auth req s = (s, Ok (Some (hydrate id u, token))).
Proof.
  intros (Htok & Hver & Hu & Hin) <-.
  unfold bearer_token in Htok.
  destruct (req_header req "Authorization") as [h|] eqn:Hh; [|discriminate].
  simpl in Htok. injection Htok as Htok.
  unfold auth, User.findOne_id_token. unfold_M.
  rewrite Hh, Htok, Hver. simpl. rewrite Hu.
  destruct (decide (token ∈ UserDoc.tokens u)); [reflexivity | contradiction].
Qed.

Lemma auth_fail req d time :
  AuthFailure req d ->
  auth req (request_at d time) = (answered d time 401 authentication_failed, Ok None).
Proof.
  unfold auth, bearer_token, User.findOne_id_token.
  intros [Hh | token Htok Hver | token id Htok Hver Hu | token id u Htok Hver Hu Hin];
    unfold_M; try unfold bearer_token in Htok.
  - rewrite Hh. reflexivity.
  - destruct (req_header req "Authorization") as [h|]; simpl in Htok; [|discriminate].
    injection Htok as <-. rewrite Hver. reflexivity.
  - destruct (req_header req "Authorization") as [h|]; simpl in Htok; [|discriminate].
    injection Htok as <-. rewrite Hver. simpl. rewrite Hu. reflexivity.
  - destruct (req_header req "Authorization") as [h|]; simpl in Htok; [|discriminate].
    injection Htok as <-. rewrite Hver. simpl. rewrite Hu.
    destruct (decide _); [contradiction | reflexivity].
Qed.

(** Every request is either authenticated or in one of the failure
    modes: the modes leave nothing out. *)
Lemma auth_dichotomy req d :
  AuthFailure req d ∨ ∃ id u token, Authenticated req d id u token.
Proof.
  destruct (req_header req "Authorization") as [h|] eqn:Hh;
    [|left; by apply MissingHeader].
  pose (token := JsString.replace "Bearer " "" h).
  assert (Htok : bearer_token req = Some token)
    by (unfold bearer_token; rewrite Hh; reflexivity).
  destruct (jwt_verify token) as [id|] eqn:Hver;
    [|left; by eapply InvalidToken].
  destruct (users d !! id) as [u|] eqn:Hu;
    [|left; by eapply UserNotFound].
  destruct (decide (token ∈ UserDoc.tokens u)) as [Hin|Hin].
  - right. exists id, u, token. done.
  - left. by eapply TokenNotInSet.
Qed.

Lemma with_auth_pass handler req d id u token s :
  Authenticated req d id u token -> db s = d ->
  with_auth handler req s = handler (hydrate id u) token req s.
Proof.
  intros HA Hd. unfold with_auth. unfold mbind, M_bind.
  rewrite (auth_pass _ _ _ _ _ _ HA Hd). reflexivity.
Qed.

Lemma with_auth_pass_at handler req d id u token time :
  Authenticated req d id u token ->
  with_auth handler req (request_at d time)
    = handler (hydrate id u) token req (request_at d time).
Proof. intros HA. by apply (with_auth_pass _ _ d). Qed.

(** C2. On a protected route, every failure mode of the
    authentication check (no Authorization header, a token that does
    not verify, no user with the embedded id, a token that is not in
    the user's token set) gives the same response, status 401 with the
    one body [authentication_failed]; the store is unchanged and the
    handler is not run, whatever the handler is. *)
Theorem auth_failure_is_one_outcome handler req d time :
  AuthFailure req d ->
  auth req (request_at d time) = (answered d time 401 authentication_failed, Ok None) ∧
  run (with_auth handler req) (request_at d time)
    = answered d time 401 authentication_failed.
Proof.
  intros HF. split; [by apply auth_fail|].
  unfold run, with_auth, mbind, M_bind.
  rewrite (auth_fail _ _ _ HF). reflexivity.
Qed.

(** *** Login *)

Lemma email_condition_string e :
  User.email_condition (Some (JStr e))
    = Some (fun stored => String.eqb stored (JsString.toLowerCase (JsString.trim e))).
Proof. reflexivity. Qed.

Lemma findOne_email_unregistered d c sel s :
  User.email_condition c = Some sel ->
  email_unregistered d sel -> db s = d ->
  User.findOne_email c s = (s, Ok None).
Proof.
  intros Hc Hun <-. unfold User.findOne_email. rewrite Hc. unfold_M.
  destruct (list_find _ _) as [[i [id u]]|] eqn:Hfind; [|reflexivity].
  apply list_find_Some in Hfind as (Hi & He & _).
  apply list_elem_of_lookup_2, elem_of_map_to_list in Hi.
  simpl in He. rewrite (Hun id u Hi) in He. discriminate.
Qed.

Lemma findOne_email_registered d c sel s :
  User.email_condition c = Some sel ->
  (∃ id u, users d !! id = Some u ∧ sel (UserDoc.email u) = true) -> db s = d ->
  ∃ id u, users d !! id = Some u ∧ sel (UserDoc.email u) = true ∧
          User.findOne_email c s = (s, Ok (Some (hydrate id u))).
Proof.
  intros Hc (id & u & Hu & He) <-. unfold User.findOne_email. rewrite Hc. unfold_M.
  destruct (list_find _ _) as [[i [id' u']]|] eqn:Hfind.
  - apply list_find_Some in Hfind as (Hi & He' & _).
    apply list_elem_of_lookup_2, elem_of_map_to_list in Hi.
    exists id', u'. done.
  - apply list_find_None in Hfind.
    rewrite Forall_forall in Hfind.
    destruct (Hfind (id, u)); [by apply elem_of_map_to_list | done].
Qed.

Lemma findOne_email_refused c s :
  User.email_condition c = None ->
  User.findOne_email c s = (s, Throw (CastError "string" (default JNull c) "email")).
Proof. intros Hc. unfold User.findOne_email. rewrite Hc. reflexivity. Qed.

(** A password that does not match is answered [false] by
    [bcrypt.compare], or makes it throw a plain [Error] when it is no
    string. *)
Lemma compare_mismatch pass hash s :
  password_matches pass hash = false ->
  User.compare pass hash s = (s, Ok false) ∨
  User.compare pass hash s = (s, Throw (Error "Illegal arguments")).
Proof.
  unfold password_matches, User.compare.
  destruct pass as [[]|]; try (by right). intros ->. by left.
Qed.

(** The two errors [findByCredentials] throws differ in their
    message, which [res.send] does not write. *)
Lemma login_errors_differ_only_in_message :
  Error "Unable to login (email not found)"
    ≠ Error "Unable to login (password is incorrect)" ∧
  stringify_exn (Error "Unable to login (email not found)")
    = stringify_exn (Error "Unable to login (password is incorrect)").
Proof. split; [discriminate | reflexivity]. Qed.

Lemma CastError_enumerable kind value path :
  exn_props (CastError kind value path) ≠ ∅.
Proof.
  intros Hempty. apply (f_equal (lookup "kind")) in Hempty.
  unfold CastError in Hempty. cbn [exn_props] in Hempty.
  rewrite lookup_empty, lookup_insert_eq in Hempty. discriminate.
Qed.

(** C1, as the code has it.  The email of a login request is the
    condition of a query: a string is trimmed and lower-cased as the
    schema's setters do, an object of operators selects what it
    selects.  A login whose email selects no stored user, and a login
    whose email selects stored users but whose password matches the
    hash of none of them (or is no string), both fail with status 400,
    and the two responses are the same response, the empty JSON object:
    nothing in it tells which factor failed.  Neither changes the
    store.  A login whose email mongoose refuses as a condition fails
    with status 400 too and leaves the store as it is, but its body is
    the cast error, not the empty object. *)
Theorem login_failure_is_undifferentiated
    req1 d1 time1 sel1 req2 d2 time2 sel2 req3 d3 time3 :
  User.email_condition (req_body req1 !! "email") = Some sel1 ->
  email_unregistered d1 sel1 ->
  User.email_condition (req_body req2 !! "email") = Some sel2 ->
  password_mismatch d2 sel2 (req_body req2 !! "password") ->
  User.email_condition (req_body req3 !! "email") = None ->
  run (post_users_login req1) (request_at d1 time1)
    = answered d1 time1 400 (BJson (JObj ∅)) ∧
  run (post_users_login req2) (request_at d2 time2)
    = answered d2 time2 400 (BJson (JObj ∅)) ∧
  res (run (post_users_login req1) (request_at d1 time1))
    = res (run (post_users_login req2) (request_at d2 time2)) ∧
  ∃ e, run (post_users_login req3) (request_at d3 time3)
         = answered d3 time3 400 (BJson (JObj e)) ∧ e ≠ ∅.
Proof.
  intros Hemail1 Hun Hemail2 [Hreg Hmis] Hemail3.
  assert (H1 : run (post_users_login req1) (request_at d1 time1)
               = answered d1 time1 400 (BJson (JObj ∅))).
  { unfold post_users_login, User.findByCredentials.
    unfold run, try_catch, mbind, M_bind.
    rewrite (findOne_email_unregistered d1 _ sel1 (request_at d1 time1) Hemail1 Hun eq_refl).
    reflexivity. }
  assert (H2 : run (post_users_login req2) (request_at d2 time2)
               = answered d2 time2 400 (BJson (JObj ∅))).
  { destruct (findOne_email_registered d2 _ sel2 (request_at d2 time2) Hemail2 Hreg eq_refl)
      as (id & u & Hu & He & Hfind).
    unfold post_users_login, User.findByCredentials.
    unfold run, try_catch, mbind, M_bind. rewrite Hfind. cbn [fields hydrate].
    destruct (compare_mismatch _ _ (request_at d2 time2) (Hmis id u Hu He)) as [-> | ->];
      reflexivity. }
  rewrite H1, H2. split_and!; [done | done | done |].
  eexists. split; [|apply (CastError_enumerable "string" (default JNull (req_body req3 !! "email")) "email")].
  unfold post_users_login, User.findByCredentials.
  unfold run, try_catch, mbind, M_bind.
  rewrite (findOne_email_refused _ _ Hemail3). reflexivity.
Qed.

(** *** Looking up by [_id] *)

Lemma castId_stored {A} (coll : gmap ObjectId A) id x :
  coll !! id = Some x -> castId coll id = Some id.
Proof. intros Hx. unfold castId. by rewrite Hx. Qed.

Lemma castId_well_formed {A} (coll : gmap ObjectId A) id :
  cast_ObjectId (JStr id) = Some id -> castId coll id = Some id.
Proof. intros Hcast. unfold castId. by destruct (coll !! id). Qed.

Lemma Task_findOne_found d raw id uid k s :
  castId (tasks d) raw = Some id ->
  tasks d !! id = Some k -> TaskDoc.owner k = uid -> db s = d ->
  Task.findOne raw uid s = (s, Ok (Some (hydrate id k))).
Proof.
  intros Hid Hk Hown <-. unfold Task.findOne. unfold_M. rewrite Hid, Hk.
  destruct (decide _); [reflexivity | contradiction].
Qed.

Lemma Task_findOne_missing d raw id uid s :
  castId (tasks d) raw = Some id ->
  no_owned_task d uid id -> db s = d ->
  Task.findOne raw uid s = (s, Ok None).
Proof.
  intros Hid Hno <-. unfold Task.findOne. unfold_M. rewrite Hid.
  destruct (tasks (db s) !! id) as [k|] eqn:Hk; [|reflexivity].
  destruct (decide _) as [Hown|]; [|reflexivity]. destruct (Hno k Hk Hown).
Qed.

Lemma Task_findOne_malformed d raw uid s :
  castId (tasks d) raw = None -> db s = d ->
  Task.findOne raw uid s = (s, Throw (CastError "ObjectId" (JStr raw) "_id")).
Proof. intros Hid <-. unfold Task.findOne. unfold_M. by rewrite Hid. Qed.

(** *** Updates *)

Lemma isValidOperation_false {A} (body : gmap string A) allowed key :
  is_Some (body !! key) -> key ∉ allowed ->
  isValidOperation allowed (Object_keys body) = false.
Proof.
  intros [v Hv] Hnot. unfold isValidOperation, Object_keys.
  destruct (forallb _ _) eqn:Hall; [|reflexivity].
  rewrite forallb_forall in Hall.
  specialize (Hall key). rewrite bool_decide_eq_true in Hall.
  destruct Hnot. apply Hall, list_elem_of_In, list_elem_of_fmap.
  exists (key, v). split; [reflexivity | by apply elem_of_map_to_list].
Qed.

Lemma Object_keys_empty {A} : Object_keys (∅ : gmap string A) = [].
Proof. unfold Object_keys. by rewrite map_to_list_empty. Qed.

(** C4. An authenticated update whose body has a key outside the
    allowlist of the entity (user: name, email, password, age; task:
    description, completed) is answered with status 400 and leaves the
    store exactly as it was: no field is assigned, nothing is saved. *)
Theorem update_with_unknown_key_is_rejected req d time id u token key :
  Authenticated req d id u token ->
  is_Some (req_body req !! key) ->
  (key ∉ ["name"; "email"; "password"; "age"] ->
   run (patch_users_me req) (request_at d time)
     = answered d time 400 (BJson (JObj {[ "error" :=
         JStr "You are trying to update a User property that is not allowed or doesn't exist" ]}))) ∧
  (key ∉ ["description"; "completed"] ->
   run (patch_tasks_id req) (request_at d time)
     = answered d time 400 (BJson (JObj {[ "error" :=
         JStr "You are trying to update a Task property that is not allowed or doesn't exist" ]}))).
Proof.
  intros HA Hkey. split; intros Hnot.
  - unfold run, patch_users_me.
    rewrite (with_auth_pass_at _ _ _ _ _ _ _ HA).
    rewrite (isValidOperation_false _ _ _ Hkey Hnot). reflexivity.
  - unfold run, patch_tasks_id.
    rewrite (with_auth_pass_at _ _ _ _ _ _ _ HA).
    rewrite (isValidOperation_false _ _ _ Hkey Hnot). reflexivity.
Qed.

(** C10. An authenticated update whose body is the empty object
    passes the allowlist check and is answered with status 200 and
    the entity as it is stored; the store is unchanged.  This holds
    for the profile of a user who satisfies the validators of the
    schema, and for a task of the caller that satisfies them. *)
Theorem empty_update_changes_nothing req d time id u token :
  Authenticated req d id u token ->
  req_body req = ∅ ->
  (User.validate u = [] ->
   run (patch_users_me req) (request_at d time)
     = answered d time 200 (BJson (JObj (User.toJSON (hydrate id u))))) ∧
  (∀ k, tasks d !! req_params_id req = Some k ->
        TaskDoc.owner k = id ->
        Task.validate k = [] ->
        run (patch_tasks_id req) (request_at d time)
          = answered d time 200 (BTask (req_params_id req) k)).
Proof.
  intros HA Hbody. split.
  - intros Hvalid. unfold run, patch_users_me.
    rewrite (with_auth_pass_at _ _ _ _ _ _ _ HA).
    rewrite Hbody, (Object_keys_empty (A:=JSON)). simpl.
    unfold User.save. unfold_M. simpl. rewrite Hvalid. reflexivity.
  - intros k Hk Hown Hvalid. unfold run, patch_tasks_id.
    rewrite (with_auth_pass_at _ _ _ _ _ _ _ HA).
    rewrite Hbody, (Object_keys_empty (A:=JSON)). simpl.
    unfold try_catch, mbind, M_bind.
    rewrite (Task_findOne_found d _ (req_params_id req) id k)
      by (try done; by eapply castId_stored).
    unfold Task.save. unfold_M. simpl. rewrite Hvalid. reflexivity.
Qed.

(** *** Ownership of tasks *)

Lemma isValidOperation_true {A} (body : gmap string A) allowed :
  (∀ key, is_Some (body !! key) -> key ∈ allowed) ->
  isValidOperation allowed (Object_keys body) = true.
Proof.
  intros Hall. unfold isValidOperation, Object_keys.
  apply forallb_forall. intros key Hin. apply bool_decide_eq_true, Hall.
  apply list_elem_of_In, list_elem_of_fmap in Hin as ([key' v] & -> & Hin).
  apply elem_of_map_to_list in Hin. by exists v.
Qed.

Lemma assign_id {A B} `{EqDecision B} path (get : A -> B) put v (doc : Document A) :
  _id (assign path get put v doc) = _id doc.
Proof. unfold assign. by destruct (decide _). Qed.

Lemma assign_cast_id {A B} `{EqDecision B} path cast setter (get : A -> B) put v
    (doc : Document A) :
  _id (assign_cast path cast setter get put v doc) = _id doc.
Proof. unfold assign_cast. destruct (cast v); [apply assign_id | reflexivity]. Qed.

Lemma Task_set_id path v task : _id (Task.set path v task) = _id task.
Proof.
  unfold Task.set. repeat destruct (decide _); auto using assign_cast_id.
Qed.

Lemma apply_updates_id {A} (set : string -> JSON -> Document A -> Document A)
    body updates doc :
  (∀ path v doc, _id (set path v doc) = _id doc) ->
  _id (apply_updates set body updates doc) = _id doc.
Proof.
  intros Hset. unfold apply_updates. revert doc.
  induction updates as [|update updates IH]; intros doc; [reflexivity|].
  simpl. rewrite IH. destruct (body !! update); [apply Hset | reflexivity].
Qed.

(** [task.save()] writes at most the task's own record. *)
Lemma Task_save_frame task s s' r :
  Task.save task s = (s', r) ->
  users (db s') = users (db s) ∧ res s' = res s ∧ now s' = now s ∧
  ∀ id', id' ≠ _id task -> tasks (db s') !! id' = tasks (db s) !! id'.
Proof.
  unfold Task.save. destruct (_ ++ _)%list.
  - destruct (isModified_any task); unfold_M; intros [= <- <-]; simpl.
    + split_and!; try done. intros id' Hne. by rewrite lookup_insert_ne.
    + done.
  - unfold_M. intros [= <- <-]. done.
Qed.

(** C3, as the code has it.  For an authenticated caller and the
    [:id] of the path.  When the id is a well-formed ObjectId and no
    task has both that id and the caller as owner (the id is unknown, or
    the task is another user's), fetch and delete answer 404 and so does
    an update whose body keys are all in the allowlist, each with the
    response it gives for an unknown id and with the store unchanged.
    When the id is not a well-formed ObjectId the lookup is rejected:
    fetch answers 404 as for an unknown id, delete answers 500 and an
    update whose body keys are all in the allowlist answers 400, the
    store unchanged.  An update with a key outside the allowlist is
    answered 400 before the task is looked up, whatever the id.  When
    the caller has a task of that id, fetch returns it, delete removes
    it and nothing else, and update changes no user and no other
    task. *)
Theorem task_routes_check_id_and_owner req d time uid u token :
  Authenticated req d uid u token ->
  (∀ id, task_id_of d (req_params_id req) id -> no_owned_task d uid id ->
     run (get_tasks_id req) (request_at d time) = answered d time 404 BEmpty ∧
     run (delete_tasks_id req) (request_at d time) = answered d time 404 BEmpty ∧
     ((∀ key, is_Some (req_body req !! key) -> key ∈ ["description"; "completed"]) ->
      run (patch_tasks_id req) (request_at d time)
        = answered d time 404 (BJson (JObj {[ "error" := JStr "User not found" ]})))) ∧
  (castId (tasks d) (req_params_id req) = None ->
     run (get_tasks_id req) (request_at d time) = answered d time 404 BEmpty ∧
     run (delete_tasks_id req) (request_at d time) = answered d time 500 BEmpty ∧
     ((∀ key, is_Some (req_body req !! key) -> key ∈ ["description"; "completed"]) ->
      status <$> res (run (patch_tasks_id req) (request_at d time)) = Some 400 ∧
      db (run (patch_tasks_id req) (request_at d time)) = d)) ∧
  (∀ key, is_Some (req_body req !! key) -> key ∉ ["description"; "completed"] ->
     status <$> res (run (patch_tasks_id req) (request_at d time)) = Some 400 ∧
     db (run (patch_tasks_id req) (request_at d time)) = d) ∧
  (∀ id k, task_id_of d (req_params_id req) id ->
     tasks d !! id = Some k -> TaskDoc.owner k = uid ->
     run (get_tasks_id req) (request_at d time) = answered d time 200 (BTask id k) ∧
     run (delete_tasks_id req) (request_at d time)
       = answered (mkDB (users d) (delete id (tasks d))) time 200 (BTask id k) ∧
     users (db (run (patch_tasks_id req) (request_at d time))) = users d ∧
     ∀ id', id' ≠ id ->
       tasks (db (run (patch_tasks_id req) (request_at d time))) !! id' = tasks d !! id').
Proof.
  intros HA. split_and!.
  - intros id Hid Hno.
    assert (Hfind : ∀ s, db s = d ->
              Task.findOne (req_params_id req) uid s = (s, Ok None))
      by (intros s Hs; by apply (Task_findOne_missing d _ id)).
    split_and!.
    + unfold run, get_tasks_id. rewrite (with_auth_pass_at _ _ _ _ _ _ _ HA).
      unfold try_catch, mbind, M_bind. cbn [_id hydrate negb]. rewrite Hfind by reflexivity.
      reflexivity.
    + unfold run, delete_tasks_id, Task.findOneAndDelete.
      rewrite (with_auth_pass_at _ _ _ _ _ _ _ HA).
      unfold try_catch, mbind, M_bind. cbn [_id hydrate negb]. rewrite Hfind by reflexivity.
      reflexivity.
    + intros Hallowed. unfold run, patch_tasks_id.
      rewrite (with_auth_pass_at _ _ _ _ _ _ _ HA).
      rewrite (isValidOperation_true _ _ Hallowed).
      unfold try_catch, mbind, M_bind. cbn [_id hydrate negb]. rewrite Hfind by reflexivity.
      reflexivity.
  - intros Hid.
    assert (Hfind : ∀ s, db s = d ->
              Task.findOne (req_params_id req) uid s
                = (s, Throw (CastError "ObjectId" (JStr (req_params_id req)) "_id")))
      by (intros s Hs; by apply (Task_findOne_malformed d)).
    split_and!.
    + unfold run, get_tasks_id. rewrite (with_auth_pass_at _ _ _ _ _ _ _ HA).
      unfold try_catch, mbind, M_bind. cbn [_id hydrate negb]. rewrite Hfind by reflexivity.
      reflexivity.
    + unfold run, delete_tasks_id, Task.findOneAndDelete.
      rewrite (with_auth_pass_at _ _ _ _ _ _ _ HA).
      unfold try_catch, mbind, M_bind. cbn [_id hydrate negb]. rewrite Hfind by reflexivity.
      reflexivity.
    + intros Hallowed. unfold run, patch_tasks_id.
      rewrite (with_auth_pass_at _ _ _ _ _ _ _ HA).
      rewrite (isValidOperation_true _ _ Hallowed).
      unfold try_catch, mbind, M_bind. cbn [_id hydrate negb]. rewrite Hfind by reflexivity.
      done.
  - intros key Hkey Hnot. unfold run, patch_tasks_id.
    rewrite (with_auth_pass_at _ _ _ _ _ _ _ HA).
    rewrite (isValidOperation_false _ _ _ Hkey Hnot). done.
  - intros id k Hid Hk Hown.
    assert (Hfind : ∀ s, db s = d ->
              Task.findOne (req_params_id req) uid s = (s, Ok (Some (hydrate id k))))
      by (intros s Hs; by apply (Task_findOne_found d)).
    split_and!.
    + unfold run, get_tasks_id. rewrite (with_auth_pass_at _ _ _ _ _ _ _ HA).
      unfold try_catch, mbind, M_bind. cbn [_id hydrate negb]. rewrite Hfind by reflexivity.
      reflexivity.
    + unfold run, delete_tasks_id, Task.findOneAndDelete.
      rewrite (with_auth_pass_at _ _ _ _ _ _ _ HA).
      unfold try_catch, mbind, M_bind. cbn [_id hydrate negb]. rewrite Hfind by reflexivity.
      reflexivity.
    + unfold run, patch_tasks_id. rewrite (with_auth_pass_at _ _ _ _ _ _ _ HA).
      destruct (isValidOperation _ _); [|reflexivity].
      unfold try_catch, mbind, M_bind. cbn [_id hydrate negb]. rewrite Hfind by reflexivity.
      destruct (Task.save _ _) as [s' r] eqn:Hsave.
      apply Task_save_frame in Hsave as (Hu & Hres & _ & _).
      destruct r; unfold res_send; rewrite Hres; simpl; exact Hu.
    + intros id' Hne. unfold run, patch_tasks_id.
      rewrite (with_auth_pass_at _ _ _ _ _ _ _ HA).
      destruct (isValidOperation _ _); [|reflexivity].
      unfold try_catch, mbind, M_bind. cbn [_id hydrate negb]. rewrite Hfind by reflexivity.
      destruct (Task.save _ _) as [s' r] eqn:Hsave.
      apply Task_save_frame in Hsave as (_ & Hres & _ & Hframe).
      rewrite apply_updates_id in Hframe by apply Task_set_id.
      destruct r; unfold res_send; rewrite Hres; simpl; by apply Hframe.
Qed.

(** *** The task query engine *)

Lemma insert_sorted_perm {A} (le : A -> A -> bool) x l :
  Task.insert_sorted le x l ≡ₚ x :: l.
Proof.
  induction l as [|y l IH]; simpl; [reflexivity|].
  destruct (le x y); [reflexivity|].
  rewrite IH. apply Permutation_swap.
Qed.

Lemma sort_by_perm {A} (le : A -> A -> bool) l : Task.sort_by le l ≡ₚ l.
Proof.
  unfold Task.sort_by. induction l as [|x l IH]; simpl; [reflexivity|].
  by rewrite insert_sorted_perm, IH.
Qed.

Lemma apply_limit_subseteq {A} lim (l : list A) : Task.apply_limit lim l ⊆ l.
Proof.
  unfold Task.apply_limit. destruct lim as [n|]; [|done].
  destruct (n =? 0)%Z; [done | apply subseteq_take].
Qed.

Lemma Task_find_unfold uid m options s :
  Task.find uid m options s =
    (s, match skip options with
        | Some n =>
            if (n <? 0)%Z then Throw BadSkipError
            else Ok (Task.apply_limit (limit options)
                       (drop (Z.to_nat n) (matched_sorted (db s) uid m (sort options))))
        | None => Ok (Task.apply_limit (limit options)
                        (matched_sorted (db s) uid m (sort options)))
        end).
Proof.
  unfold Task.find, matched_sorted, owned_tasks. unfold_M.
  destruct (skip options) as [n|]; [|reflexivity].
  destruct (n <? 0)%Z; reflexivity.
Qed.

Lemma matched_sorted_elem d uid m srt id k :
  (id, k) ∈ matched_sorted d uid m srt ->
  tasks d !! id = Some k ∧ TaskDoc.owner k = uid ∧
  ∀ b, m = Some b -> TaskDoc.completed k = b.
Proof.
  unfold matched_sorted, owned_tasks. intros Hin.
  assert (Hin' : (id, k) ∈
            match m with
            | Some b => filter (fun kv => TaskDoc.completed kv.2 = b)
                          (filter (fun kv => TaskDoc.owner kv.2 = uid)
                                  (map_to_list (tasks d)))
            | None => filter (fun kv => TaskDoc.owner kv.2 = uid)
                             (map_to_list (tasks d))
            end).
  { destruct srt as [[field dir]|]; [|exact Hin].
    by rewrite sort_by_perm in Hin. }
  clear Hin. destruct m as [b|].
  - apply list_elem_of_filter in Hin' as [Hb Hin'].
    apply list_elem_of_filter in Hin' as [Ho Hin'].
    apply elem_of_map_to_list in Hin'. split_and!; [done..|].
    by intros b' [= <-].
  - apply list_elem_of_filter in Hin' as [Ho Hin'].
    apply elem_of_map_to_list in Hin'. done.
Qed.

Lemma matched_sorted_all d uid srt :
  matched_sorted d uid None srt ≡ₚ owned_tasks d uid.
Proof.
  unfold matched_sorted. destruct srt as [[field dir]|]; [|reflexivity].
  apply sort_by_perm.
Qed.

Lemma tasks_match_true req :
  req_query req !! "completed" = Some "true" -> tasks_match req = Some true.
Proof. unfold tasks_match. intros ->. reflexivity. Qed.

Lemma tasks_match_absent req :
  req_query req !! "completed" = None -> tasks_match req = None.
Proof. unfold tasks_match. intros ->. reflexivity. Qed.

Lemma get_tasks_run req d time uid u token :
  Authenticated req d uid u token ->
  run (get_tasks req) (request_at d time) =
    match JsString.parseInt (req_query req !! "skip") with
    | Some n =>
        if (n <? 0)%Z then answered d time 500 BEmpty
        else answered d time 200 (BTasks
               (Task.apply_limit (JsString.parseInt (req_query req !! "limit"))
                  (drop (Z.to_nat n)
                        (matched_sorted d uid (tasks_match req) (tasks_sort req)))))
    | None => answered d time 200 (BTasks
               (Task.apply_limit (JsString.parseInt (req_query req !! "limit"))
                  (matched_sorted d uid (tasks_match req) (tasks_sort req))))
    end.
Proof.
  intros HA. unfold run, get_tasks. rewrite (with_auth_pass_at _ _ _ _ _ _ _ HA).
  unfold User.populate_tasks, try_catch, mbind, M_bind.
  rewrite Task_find_unfold. cbn [_id hydrate skip limit sort db request_at].
  destruct (JsString.parseInt (req_query req !! "skip")) as [n|]; [|reflexivity].
  destruct (n <? 0)%Z; reflexivity.
Qed.

(** C5. The task list of an authenticated caller.  Unless [skip] is
    negative (the query then fails: status 500, no task), the answer
    is status 200 with a sequence in which every task is a stored task
    owned by the caller; with [completed=true] every task in it is
    completed; without [completed] it is a window (skip, limit) of all
    the caller's tasks in some order, whatever their completion state,
    and all of them when neither [limit] nor [skip] is given. *)
Theorem task_list_is_the_callers req d time uid u token :
  Authenticated req d uid u token ->
  (∃ n, JsString.parseInt (req_query req !! "skip") = Some n ∧ (n < 0)%Z ∧
        run (get_tasks req) (request_at d time) = answered d time 500 BEmpty) ∨
  (∃ l, run (get_tasks req) (request_at d time) = answered d time 200 (BTasks l) ∧
        (∀ id k, (id, k) ∈ l -> tasks d !! id = Some k ∧ TaskDoc.owner k = uid) ∧
        (req_query req !! "completed" = Some "true" ->
         ∀ id k, (id, k) ∈ l -> TaskDoc.completed k = true) ∧
        (req_query req !! "completed" = None ->
         ∃ all, all ≡ₚ owned_tasks d uid ∧
           l = Task.apply_limit (JsString.parseInt (req_query req !! "limit"))
                 (drop (Z.to_nat (default 0%Z (JsString.parseInt (req_query req !! "skip"))))
                       all)) ∧
        (req_query req !! "completed" = None ->
         req_query req !! "limit" = None -> req_query req !! "skip" = None ->
         ∀ id k, tasks d !! id = Some k -> TaskDoc.owner k = uid -> (id, k) ∈ l)).
Proof.
  intros HA.
  rewrite (get_tasks_run _ _ _ _ _ _ HA).
  set (docs := matched_sorted d uid (tasks_match req) (tasks_sort req)).
  set (lim := JsString.parseInt (req_query req !! "limit")).
  assert (Hpage : ∀ n, Task.apply_limit lim (drop n docs) ⊆ docs).
  { intros n. etrans; [apply apply_limit_subseteq | apply subseteq_drop]. }
  assert (Hgood : ∀ n,
    (∀ id k, (id, k) ∈ Task.apply_limit lim (drop n docs) ->
             tasks d !! id = Some k ∧ TaskDoc.owner k = uid) ∧
    (req_query req !! "completed" = Some "true" ->
     ∀ id k, (id, k) ∈ Task.apply_limit lim (drop n docs) ->
             TaskDoc.completed k = true)).
  { intros n. split.
    - intros id k Hin. apply Hpage, matched_sorted_elem in Hin.
      destruct Hin as (Hk & Ho & _). done.
    - intros Hq id k Hin. apply Hpage, matched_sorted_elem in Hin.
      destruct Hin as (_ & _ & Hb). apply Hb. by apply tasks_match_true. }
  assert (Hall : req_query req !! "completed" = None -> docs ≡ₚ owned_tasks d uid).
  { intros Hq. unfold docs. rewrite (tasks_match_absent _ Hq).
    apply matched_sorted_all. }
  destruct (JsString.parseInt (req_query req !! "skip")) as [n|] eqn:Hskip.
  - destruct (n <? 0)%Z eqn:Hneg.
    + left. exists n. split_and!; [done | lia | done].
    + right. eexists. split; [reflexivity|].
      destruct (Hgood (Z.to_nat n)) as [Ha Hb]. split_and!; [done | done | |].
      * intros Hq. exists docs. split; [by apply Hall | reflexivity].
      * intros _ _ Hs. rewrite Hs in Hskip. discriminate.
  - right. eexists. split; [reflexivity|].
    destruct (Hgood 0%nat) as [Ha Hb]. split_and!; [done | done | |].
    + intros Hq. exists docs. split; [by apply Hall | reflexivity].
    + intros Hq Hl _ id k Hk Ho. unfold lim. rewrite Hl.
      change (JsString.parseInt None) with (@None Z). simpl.
      rewrite (Hall Hq). unfold owned_tasks.
      apply list_elem_of_filter. split; [done | by apply elem_of_map_to_list].
Qed.

Lemma tasks_match_other_key req req' :
  req_query req' !! "completed" = req_query req !! "completed" ->
  tasks_match req' = tasks_match req.
Proof. unfold tasks_match. by intros ->. Qed.

Lemma tasks_sort_other_key req req' :
  req_query req' !! "sortBy" = req_query req !! "sortBy" ->
  tasks_sort req' = tasks_sort req.
Proof. unfold tasks_sort. by intros ->. Qed.


(** How [parseInt] reads a value that starts with decimal digits. *)

Lemma digits_stop c r acc :
  isDecimalDigit c = false ->
  JsString.digits 10 (String c r) acc = acc.
Proof.
  unfold isDecimalDigit. cbn [JsString.digits]. unfold JsString.digitValue.
  intros ->.
  destruct ((97 <=? nat_of_ascii c)%nat && (nat_of_ascii c <=? 122)%nat) eqn:Hlow.
  { apply andb_prop in Hlow as [H1%Nat.leb_le H2%Nat.leb_le].
    destruct (Z.ltb_spec (Z.of_nat (nat_of_ascii c - 87)) 10); [lia | done]. }
  destruct ((65 <=? nat_of_ascii c)%nat && (nat_of_ascii c <=? 90)%nat) eqn:Hup; [|done].
  apply andb_prop in Hup as [H1%Nat.leb_le H2%Nat.leb_le].
  destruct (Z.ltb_spec (Z.of_nat (nat_of_ascii c - 55)) 10); [lia | done].
Qed.

Lemma digits_rest rest acc :
  match rest with String c _ => isDecimalDigit c = false | EmptyString => True end ->
  JsString.digits 10 rest acc = acc.
Proof. destruct rest; [done | apply digits_stop]. Qed.

Lemma digits_uint d rest a :
  match rest with String c _ => isDecimalDigit c = false | EmptyString => True end ->
  JsString.digits 10 (NilEmpty.string_of_uint d ++ rest) (Some (Z.of_nat a))
    = Some (Z.of_nat (Nat.of_uint_acc d a)).
Proof.
  intros Hrest. revert a.
  induction d as [|d IH|d IH|d IH|d IH|d IH|d IH|d IH|d IH|d IH|d IH]; intros a;
    [by apply digits_rest|..];
    cbn [NilEmpty.string_of_uint Nat.of_uint_acc]; rewrite Nat.tail_mul_spec, <- IH;
    simpl;
    do 2 f_equal; lia.
Qed.

Lemma to_uint_nonnil n : Nat.to_uint n ≠ Decimal.Nil.
Proof.
  rewrite <- (DecimalNat.Unsigned.of_to n) at 1.
  rewrite DecimalNat.Unsigned.to_of. apply DecimalFacts.unorm_nonnil.
Qed.

Lemma to_uint_leading_zero n d : Nat.to_uint n = Decimal.D0 d -> n = 0%nat.
Proof.
  intros Hn. pose proof (DecimalNat.Unsigned.to_of (Nat.to_uint n)) as Hnorm.
  rewrite DecimalNat.Unsigned.of_to, Hn in Hnorm.
  rewrite <- (DecimalNat.Unsigned.of_to n), Hn.
  unfold Decimal.unorm in Hnorm.
  destruct (Decimal.nzhead (Decimal.D0 d)) eqn:Hhead; try discriminate.
  - injection Hnorm as ->. reflexivity.
  - by apply DecimalFacts.nzhead_nonzero in Hhead.
Qed.

Lemma append_cons c s r : String c s ++ r = String c (s ++ r).
Proof. reflexivity. Qed.

Lemma append_nil_r s : s ++ "" = s.
Proof. induction s as [|c s IH]; [done|]. by rewrite append_cons, IH. Qed.

Lemma digits_first d rest :
  d ≠ Decimal.Nil ->
  JsString.digits 10 (NilEmpty.string_of_uint d ++ rest) None
    = JsString.digits 10 (NilEmpty.string_of_uint d ++ rest) (Some (Z.of_nat 0)).
Proof. destruct d; [done|..]; reflexivity. Qed.

(** Before a decimal number, [parseInt] finds no white space to drop
    and no hexadecimal prefix. *)
Lemma parseInt_string_number n d rest :
  d ≠ Decimal.Nil ->
  (∀ d', d = Decimal.D0 d' -> n = 0%nat) ->
  stops_number n rest ->
  JsString.parseInt_string (NilEmpty.string_of_uint d ++ rest)
    = (Z.mul 1) <$> JsString.digits 10 (NilEmpty.string_of_uint d ++ rest) None ∧
  JsString.parseInt_string ("-" ++ NilEmpty.string_of_uint d ++ rest)
    = (Z.mul (-1)) <$> JsString.digits 10 (NilEmpty.string_of_uint d ++ rest) None.
Proof.
  intros Hd Hzero Hstop.
  destruct d as [|d|d|d|d|d|d|d|d|d|d]; [done|..]; try (split; reflexivity).
  destruct d as [|d|d|d|d|d|d|d|d|d|d]; try (split; reflexivity).
  destruct rest as [|c r]; [split; reflexivity|].
  destruct Hstop as [_ Hx]. destruct (Hx (Hzero _ eq_refl)) as [Hx1 Hx2].
  destruct c as [[] [] [] [] [] [] [] []]; try (split; reflexivity); congruence.
Qed.

Lemma parseInt_string_decimal n rest :
  stops_number n rest ->
  JsString.parseInt_string (decimal n ++ rest) = Some (Z.of_nat n) ∧
  JsString.parseInt_string ("-" ++ decimal n ++ rest) = Some (- Z.of_nat n)%Z.
Proof.
  intros Hstop. unfold decimal.
  destruct (parseInt_string_number n (Nat.to_uint n) rest) as [-> ->];
    [apply to_uint_nonnil | apply to_uint_leading_zero | done |].
  rewrite digits_first by apply to_uint_nonnil.
  rewrite digits_uint by (destruct rest; [done | apply Hstop]).
  change (Nat.of_uint_acc (Nat.to_uint n) 0) with (Nat.of_uint (Nat.to_uint n)).
  rewrite DecimalNat.Unsigned.of_to. cbn [fmap option_fmap option_map].
  split; f_equal; lia.
Qed.


(** *** Account deletion *)

Lemma filter_none {A} (P : A -> Prop) `{∀ x, Decision (P x)} (l : list A) :
  (∀ x, x ∈ l -> ¬ P x) -> filter P l = [].
Proof.
  induction l as [|x l IH]; intros Hnone; [reflexivity|].
  rewrite filter_cons_False by (apply Hnone; left).
  apply IH. intros y Hy. apply Hnone. by right.
Qed.

Lemma delete_users_me_run req d time uid u token :
  Authenticated req d uid u token ->
  run (delete_users_me req) (request_at d time) =
    answered (mkDB (delete uid (users d))
                   (filter (fun kv => TaskDoc.owner kv.2 ≠ uid) (tasks d)))
             time 200 (BJson (JObj (User.toJSON (hydrate uid u)))).
Proof.
  intros HA. unfold run, delete_users_me.
  rewrite (with_auth_pass_at _ _ _ _ _ _ _ HA). reflexivity.
Qed.

(** C7. Deleting the account of an authenticated user is answered
    with status 200, removes the user and every task whose owner is
    that user, and keeps the tasks of the others; afterwards every
    query for the tasks of the deleted user (any [match], any [sort]
    and [limit], any [skip] that is not negative) returns the empty
    sequence. *)
Theorem account_deletion_cascades req d time uid u token :
  Authenticated req d uid u token ->
  let s := run (delete_users_me req) (request_at d time) in
  status <$> res s = Some 200 ∧
  users (db s) !! uid = None ∧
  (∀ id k, tasks (db s) !! id = Some k -> TaskDoc.owner k ≠ uid) ∧
  (∀ id k, tasks d !! id = Some k -> TaskDoc.owner k ≠ uid ->
           tasks (db s) !! id = Some k) ∧
  owned_tasks (db s) uid = [] ∧
  ∀ m options time',
    (∀ n, skip options = Some n -> (0 <= n)%Z) ->
    Task.find uid m options (request_at (db s) time')
      = (request_at (db s) time', Ok []).
Proof.
  intros HA s. subst s. rewrite (delete_users_me_run _ _ _ _ _ _ HA).
  cbn [answered db res users tasks].
  assert (Hgone : ∀ id k,
            filter (fun kv : ObjectId * TaskDoc.t => TaskDoc.owner kv.2 ≠ uid)
                   (tasks d) !! id = Some k -> TaskDoc.owner k ≠ uid).
  { intros id k Hk. by apply map_lookup_filter_Some in Hk as [_ Hk]. }
  assert (Hempty : owned_tasks
            (mkDB (delete uid (users d))
                  (filter (fun kv => TaskDoc.owner kv.2 ≠ uid) (tasks d))) uid = []).
  { unfold owned_tasks. apply filter_none. intros [id k] Hin Hown.
    apply elem_of_map_to_list in Hin. exact (Hgone id k Hin Hown). }
  split_and!.
  - reflexivity.
  - apply lookup_delete_eq.
  - exact Hgone.
  - intros id k Hk Hown. by apply map_lookup_filter_Some.
  - exact Hempty.
  - intros m options time' Hskip. rewrite Task_find_unfold. f_equal.
    cbn [db request_at]. unfold matched_sorted. rewrite Hempty.
    assert (Hms : match options.(sort) with
                  | Some (field, dir) =>
                      Task.sort_by (Task.in_order field dir)
                        match m with
                        | Some b => filter (fun kv : ObjectId * TaskDoc.t =>
                                              TaskDoc.completed kv.2 = b) []
                        | None => []
                        end
                  | None => match m with
                            | Some b => filter (fun kv : ObjectId * TaskDoc.t =>
                                                  TaskDoc.completed kv.2 = b) []
                            | None => []
                            end
                  end = []).
    { destruct m, (sort options) as [[field dir]|]; reflexivity. }
    cbv zeta. rewrite Hms.
    assert (Hlim : ∀ lim, Task.apply_limit lim ([] : list (ObjectId * TaskDoc.t)) = []).
    { intros [n|]; [|reflexivity]. unfold Task.apply_limit.
      destruct (n =? 0)%Z; [reflexivity | apply take_nil]. }
    destruct (skip options) as [n|] eqn:Hs.
    + specialize (Hskip n eq_refl).
      destruct (n <? 0)%Z eqn:Hneg; [lia|]. by rewrite drop_nil, Hlim.
    + by rewrite Hlim.
Qed.

(** *** Serialization of a user *)

(** C8. What [GET /users/me] sends for an authenticated user is the
    [toJSON] of the stored record, and the store is left as it was.
    That object has no [password], no [tokens] and no [avatar]; every
    other property of the record's copy is in it unchanged, among
    them the identity, name, email, age and the two timestamps. *)
Theorem toJSON_omits_private_fields req d time id u token :
  Authenticated req d id u token ->
  let user := hydrate id u in
  run (get_users_me req) (request_at d time)
    = answered d time 200 (BJson (JObj (User.toJSON user))) ∧
  User.toJSON user !! "password" = None ∧
  User.toJSON user !! "tokens" = None ∧
  User.toJSON user !! "avatar" = None ∧
  (∀ key, key ∉ ["password"; "tokens"; "avatar"] ->
          User.toJSON user !! key = User.toObject user !! key) ∧
  User.toJSON user !! "_id" = Some (JStr id) ∧
  User.toJSON user !! "name" = Some (JStr (UserDoc.name u)) ∧
  User.toJSON user !! "email" = Some (JStr (UserDoc.email u)) ∧
  User.toJSON user !! "age" = Some (JNum (UserDoc.age u)) ∧
  User.toJSON user !! "createdAt" = Some (JNum (Z.of_nat (UserDoc.createdAt u))) ∧
  User.toJSON user !! "updatedAt" = Some (JNum (Z.of_nat (UserDoc.updatedAt u))).
Proof.
  intros HA user.
  assert (Hother : ∀ key, key ∉ ["password"; "tokens"; "avatar"] ->
            User.toJSON user !! key = User.toObject user !! key).
  { intros key Hkey. unfold User.toJSON.
    rewrite !lookup_delete_ne; [reflexivity|..]; intros <-; apply Hkey; compute_done. }
  split_and!.
  6-11: rewrite Hother by compute_done; unfold User.toObject, user;
    cbn [fields hydrate _id]; destruct (UserDoc.avatar u); by simplify_map_eq.
  - unfold run, get_users_me. by rewrite (with_auth_pass_at _ _ _ _ _ _ _ HA).
  - unfold User.toJSON. rewrite !lookup_delete_ne by done. apply lookup_delete_eq.
  - unfold User.toJSON. rewrite lookup_delete_ne by done. apply lookup_delete_eq.
  - unfold User.toJSON. apply lookup_delete_eq.
  - exact Hother.
Qed.

(** *** Clearing the avatar *)

Lemma without_avatar_valid time u :
  User.validate (without_avatar time u) = User.validate u.
Proof. unfold without_avatar. by destruct (UserDoc.avatar u). Qed.

Lemma without_avatar_avatar time u : UserDoc.avatar (without_avatar time u) = None.
Proof. unfold without_avatar. by destruct (UserDoc.avatar u) eqn:Ha. Qed.

Lemma delete_users_me_avatar_run req d time uid u token :
  Authenticated req d uid u token ->
  User.validate u = [] ->
  run (delete_users_me_avatar req) (request_at d time) =
    answered (mkDB (<[uid := without_avatar time u]> (users d)) (tasks d))
             time 200 avatar_deleted.
Proof.
  intros HA Hvalid. unfold run, delete_users_me_avatar.
  rewrite (with_auth_pass_at _ _ _ _ _ _ _ HA).
  pose proof HA as (_ & _ & Hu & _).
  unfold without_avatar, assign, User.save. cbn [fields hydrate].
  destruct (UserDoc.avatar u) as [bytes|] eqn:Havatar.
  - destruct (decide (Some bytes = None)); [discriminate|].
    cbn [castErrors fields hydrate fmap list_fmap app].
    change (User.validate (UserDoc.set_avatar None u)) with (User.validate u).
    rewrite Hvalid. reflexivity.
  - destruct (decide (None = None)); [|done].
    cbn [castErrors fields hydrate fmap list_fmap app].
    rewrite Hvalid, insert_id by done. destruct d. reflexivity.
Qed.

(** C9. For an authenticated user whose record satisfies the
    validators of the schema, two consecutive calls that delete the
    avatar are both answered with status 200; after the first the
    record has no avatar, and the second leaves the store exactly as
    the first left it, at whatever time it is made. *)
Theorem avatar_delete_is_idempotent req d time1 time2 uid u token :
  Authenticated req d uid u token ->
  User.validate u = [] ->
  let s1 := run (delete_users_me_avatar req) (request_at d time1) in
  let s2 := run (delete_users_me_avatar req) (request_at (db s1) time2) in
  res s1 = Some (mkResponse 200 avatar_deleted) ∧
  res s2 = Some (mkResponse 200 avatar_deleted) ∧
  db s2 = db s1 ∧
  users (db s1) !! uid = Some (without_avatar time1 u) ∧
  UserDoc.avatar (without_avatar time1 u) = None ∧
  ∀ id, id ≠ uid -> users (db s1) !! id = users d !! id.
Proof.
  intros HA Hvalid s1 s2. subst s1 s2.
  rewrite (delete_users_me_avatar_run _ _ _ _ _ _ HA Hvalid).
  cbn [answered db res users].
  set (u1 := without_avatar time1 u).
  set (d1 := mkDB (<[uid := u1]> (users d)) (tasks d)).
  assert (HA1 : Authenticated req d1 uid u1 token).
  { destruct HA as (Htok & Hver & Hu & Hin). split_and!; [done | done | |].
    - apply lookup_insert_eq.
    - unfold u1, without_avatar. by destruct (UserDoc.avatar u). }
  assert (Hvalid1 : User.validate u1 = [])
    by (unfold u1; by rewrite without_avatar_valid).
  rewrite (delete_users_me_avatar_run _ _ _ _ _ _ HA1 Hvalid1).
  cbn [answered db res users].
  assert (Hsame : without_avatar time2 u1 = u1).
  { unfold without_avatar at 1. unfold u1. by rewrite without_avatar_avatar. }
  split_and!.
  - reflexivity.
  - reflexivity.
  - unfold d1. cbn [users tasks]. by rewrite Hsame, insert_insert_eq.
  - apply lookup_insert_eq.
  - apply without_avatar_avatar.
  - intros id Hne. by rewrite lookup_insert_ne.
Qed.

End Properties.

(** ** Further properties of the code *)

Section MoreProperties.
Context `{L : Libs}.

(** *** The auth gate, the passing side *)

(** X1. The auth gate decides every request one of two ways: it passes
    the request on with the stored user and the raw token and writes
    nothing, exactly when the request is authenticated; or it answers
    401 itself, in one of the four failure modes, and leaves the store
    alone. *)
Theorem auth_gate_decides req d time :
  (∃ id u token,
     Authenticated req d id u token ∧
     auth req (request_at d time)
       = (request_at d time, Ok (Some (hydrate id u, token)))) ∨
  (AuthFailure req d ∧
   auth req (request_at d time)
     = (answered d time 401 authentication_failed, Ok None)).
Proof.
  destruct (auth_dichotomy req d) as [HF | (id & u & token & HA)].
  - right. split; [exact HF | by apply auth_fail].
  - left. exists id, u, token. split; [exact HA | by apply (auth_pass _ d)].
Qed.

Lemma skip_append pat s : JsString.skip (String.length pat) (pat ++ s) = s.
Proof. induction pat as [|c pat IH]; [reflexivity | exact IH]. Qed.

Lemma prefix_append pat s : String.prefix pat (pat ++ s) = true.
Proof.
  induction pat as [|c pat IH]; simpl; [by destruct s|].
  destruct (ascii_dec c c); [exact IH | contradiction].
Qed.

Lemma replace_prefix pat rep s :
  JsString.replace pat rep (pat ++ s) = rep ++ s.
Proof.
  destruct pat as [|c pat].
  - simpl. destruct s; reflexivity.
  - change ((String c pat ++ s)) with (String c (pat ++ s)).
    unfold JsString.replace; fold JsString.replace.
    change (String c (pat ++ s)) with (String c pat ++ s).
    by rewrite prefix_append, skip_append.
Qed.

Lemma replace_absent pat rep s :
  JsString.includes pat s = false -> JsString.replace pat rep s = s.
Proof.
  induction s as [|c s IH]; simpl; intros Hinc.
  - apply orb_false_iff in Hinc as [-> _]. reflexivity.
  - apply orb_false_iff in Hinc as [-> Hinc]. by rewrite IH.
Qed.

(** X2. The [Bearer ] prefix of the Authorization header is removed
    when it is there and not required: a header that is the bare token
    authenticates as well as [Bearer <token>], for a token that does
    not itself contain [Bearer ]. *)
Theorem bearer_prefix_is_optional req d id u token :
  jwt_verify token = Some id ->
  users d !! id = Some u ->
  token ∈ UserDoc.tokens u ->
  req_header req "Authorization" = Some ("Bearer " ++ token) ∨
  (req_header req "Authorization" = Some token ∧
   JsString.includes "Bearer " token = false) ->
  Authenticated req d id u token.
Proof.
  intros Hver Hu Hin Hheader. split_and!; [|done..].
  unfold bearer_token. destruct Hheader as [-> | [-> Hbare]]; simpl; f_equal.
  - apply (replace_prefix "Bearer " "" token).
  - by apply replace_absent.
Qed.

(** *** Issuing and revoking tokens *)

Lemma findOne_email_unique d e id u s :
  users d !! id = Some u ->
  UserDoc.email u = JsString.toLowerCase (JsString.trim e) ->
  (∀ id' u', users d !! id' = Some u' ->
             UserDoc.email u' = JsString.toLowerCase (JsString.trim e) -> id' = id) ->
  db s = d ->
  User.findOne_email (Some (JStr e)) s = (s, Ok (Some (hydrate id u))).
Proof.
  intros Hu He Hunique Hd.
  destruct (findOne_email_registered d (Some (JStr e)) _ s (email_condition_string e))
    as (id' & u' & Hu' & He' & ->);
    [exists id, u; split; [done | by apply String.eqb_eq] | done |].
  apply String.eqb_eq in He'.
  pose proof (Hunique id' u' Hu' He') as ->.
  rewrite Hu in Hu'. by injection Hu' as ->.
Qed.

(** [user.tokens = toks; await user.save()] on a stored user that
    satisfies the validators. *)
Lemma User_save_tokens id u toks s :
  User.validate u = [] ->
  User.save (assign "tokens" UserDoc.tokens UserDoc.set_tokens toks (hydrate id u)) s =
    if decide (UserDoc.tokens u = toks) then (s, Ok (hydrate id u))
    else
      let u' := UserDoc.set_updatedAt (now s) (UserDoc.set_tokens toks u) in
      (mkSt (mkDB (<[id := u']> (users (db s))) (tasks (db s))) (res s) (now s),
       Ok (hydrate id u')).
Proof.
  intros Hvalid. unfold assign, User.save. cbn [fields hydrate].
  destruct (decide (UserDoc.tokens u = toks)).
  - cbn [castErrors fields hydrate fmap list_fmap app]. by rewrite Hvalid.
  - cbn [castErrors fields hydrate fmap list_fmap app].
    change (User.validate (UserDoc.set_tokens toks u)) with (User.validate u).
    by rewrite Hvalid.
Qed.

(** X3. A login whose email, trimmed and lower-cased as the query
    casts it, is the email of exactly one stored user, with a password
    that matches its hash, is answered 200 with the public user and a
    new token; the token is appended to the user's tokens, nothing else
    in the store changes, and a request that carries the token then
    passes the auth gate.  The stored user has to satisfy the validators
    ([generateAuthToken] saves it), and [jwt.verify] has to accept what
    [jwt.sign] made. *)
Theorem login_issues_a_working_token req d time id u e p :
  req_body req !! "email" = Some (JStr e) ->
  req_body req !! "password" = Some (JStr p) ->
  users d !! id = Some u ->
  UserDoc.email u = JsString.toLowerCase (JsString.trim e) ->
  (∀ id' u', users d !! id' = Some u' ->
             UserDoc.email u' = JsString.toLowerCase (JsString.trim e) -> id' = id) ->
  bcrypt_compare p (UserDoc.password u) = true ->
  User.validate u = [] ->
  jwt_verify (jwt_sign id) = Some id ->
  let u' := UserDoc.set_updatedAt time
              (UserDoc.set_tokens (UserDoc.tokens u ++ [jwt_sign id])%list u) in
  let d' := mkDB (<[id := u']> (users d)) (tasks d) in
  run (post_users_login req) (request_at d time)
    = answered d' time 200
        (BJson (JObj {[ "user" := JObj (User.toJSON (hydrate id u'));
                        "newToken" := JStr (jwt_sign id) ]})) ∧
  ∀ req', req_header req' "Authorization" = Some ("Bearer " ++ jwt_sign id) ->
          Authenticated req' d' id u' (jwt_sign id).
Proof.
  intros Hemail Hpass Hu He Hunique Hmatch Hvalid Hjwt u' d'. split.
  - unfold run, post_users_login, User.findByCredentials, User.generateAuthToken.
    unfold try_catch, mbind, M_bind. rewrite Hemail, Hpass.
    rewrite (findOne_email_unique d e id u (request_at d time) Hu He Hunique eq_refl).
    cbn [User.compare fields hydrate _id]. unfold mret at 1, M_ret at 1.
    rewrite Hmatch. cbn [negb]. unfold mret at 1, M_ret at 1.
    rewrite (User_save_tokens _ _ _ _ Hvalid).
    destruct (decide _) as [Heq|_]; [|reflexivity].
    apply (f_equal length) in Heq. rewrite length_app in Heq. simpl in Heq. lia.
  - intros req' Hheader. split_and!.
    + unfold bearer_token. rewrite Hheader. simpl. f_equal.
      apply (replace_prefix "Bearer " "").
    + exact Hjwt.
    + apply lookup_insert_eq.
    + unfold u'. cbn [UserDoc.tokens UserDoc.set_updatedAt UserDoc.set_tokens].
      apply elem_of_app. right. by left.
Qed.

Lemma with_auth_fail handler req d time :
  AuthFailure req d ->
  run (with_auth handler req) (request_at d time)
    = answered d time 401 authentication_failed.
Proof.
  intros HF. unfold run, with_auth, mbind, M_bind.
  by rewrite (auth_fail _ _ _ HF).
Qed.

(** X4. Logging out, for an authenticated user who satisfies the
    validators, is answered 200 and removes the token of the request
    from the user's tokens, every copy of it and nothing else; the same
    request is refused with 401 from then on, on every protected
    route. *)
Theorem logout_revokes_the_token req d time uid u token :
  Authenticated req d uid u token ->
  User.validate u = [] ->
  let u' := UserDoc.set_updatedAt time
              (UserDoc.set_tokens (filter (fun t => t ≠ token) (UserDoc.tokens u)) u) in
  let d' := mkDB (<[uid := u']> (users d)) (tasks d) in
  run (post_users_logout req) (request_at d time)
    = answered d' time 200 (BText "You have been succesfully logged out") ∧
  (token ∉ UserDoc.tokens u') ∧
  (∀ t, t ∈ UserDoc.tokens u -> t ≠ token -> t ∈ UserDoc.tokens u') ∧
  ∀ handler time',
    run (with_auth handler req) (request_at d' time')
      = answered d' time' 401 authentication_failed.
Proof.
  intros HA Hvalid u' d'.
  assert (Hnot : token ∉ UserDoc.tokens u').
  { unfold u'. cbn [UserDoc.tokens UserDoc.set_updatedAt UserDoc.set_tokens].
    intros [Hne _]%list_elem_of_filter. by apply Hne. }
  split_and!.
  - unfold run, post_users_logout. rewrite (with_auth_pass_at _ _ _ _ _ _ _ HA).
    unfold try_catch, mbind, M_bind. cbn [fields hydrate].
    rewrite (User_save_tokens _ _ _ _ Hvalid).
    destruct (decide _) as [Heq|_]; [|reflexivity].
    destruct HA as (_ & _ & _ & Hin). rewrite Heq in Hin.
    apply list_elem_of_filter in Hin as [Hne _]. by destruct Hne.
  - exact Hnot.
  - intros t Hin Hne. unfold u'.
    cbn [UserDoc.tokens UserDoc.set_updatedAt UserDoc.set_tokens].
    by apply list_elem_of_filter.
  - intros handler time'. apply with_auth_fail.
    destruct HA as (Htok & Hver & _ & _).
    apply (TokenNotInSet req d' token uid u' Htok Hver); [apply lookup_insert_eq | exact Hnot].
Qed.

(** X5. Logging out of all sessions, for an authenticated user who
    satisfies the validators, is answered 200 and empties the user's
    tokens; afterwards every request with a token for this user, old or
    forged, is refused with 401. *)
Theorem logoutAll_revokes_every_token req d time uid u token :
  Authenticated req d uid u token ->
  User.validate u = [] ->
  let u' := UserDoc.set_updatedAt time (UserDoc.set_tokens [] u) in
  let d' := mkDB (<[uid := u']> (users d)) (tasks d) in
  run (post_users_logoutAll req) (request_at d time)
    = answered d' time 200 (BText "Succesfully logged out of all sessions.") ∧
  ∀ req' token' handler time',
    bearer_token req' = Some token' ->
    jwt_verify token' = Some uid ->
    run (with_auth handler req') (request_at d' time')
      = answered d' time' 401 authentication_failed.
Proof.
  intros HA Hvalid u' d'. split.
  - unfold run, post_users_logoutAll. rewrite (with_auth_pass_at _ _ _ _ _ _ _ HA).
    unfold try_catch, mbind, M_bind. cbn [fields hydrate].
    rewrite (User_save_tokens _ _ _ _ Hvalid).
    destruct (decide _) as [Heq|_]; [|reflexivity].
    destruct HA as (_ & _ & _ & Hin). rewrite Heq in Hin. by apply elem_of_nil in Hin.
  - intros req' token' handler time' Htok Hver. apply with_auth_fail.
    apply (TokenNotInSet req' d' token' uid u' Htok Hver); [apply lookup_insert_eq|].
    apply not_elem_of_nil.
Qed.

(** X6. Once an account is deleted, every request with a token for
    that user is refused with 401. *)
Theorem deleted_account_cannot_authenticate req d time uid u token :
  Authenticated req d uid u token ->
  let d' := db (run (delete_users_me req) (request_at d time)) in
  ∀ req' token' handler time',
    bearer_token req' = Some token' ->
    jwt_verify token' = Some uid ->
    run (with_auth handler req') (request_at d' time')
      = answered d' time' 401 authentication_failed.
Proof.
  intros HA d' req' token' handler time' Htok Hver. apply with_auth_fail.
  apply (UserNotFound req' d' token' uid Htok Hver).
  unfold d'. rewrite (delete_users_me_run _ _ _ _ _ _ HA).
  apply lookup_delete_eq.
Qed.

(** *** Updating the profile *)

Lemma apply_updates_ind {A} (set : string -> JSON -> Document A -> Document A)
    body (P : Document A -> Prop) updates doc :
  P doc ->
  (∀ k v d, body !! k = Some v -> P d -> P (set k v d)) ->
  P (apply_updates set body updates doc).
Proof.
  intros Hdoc Hstep. unfold apply_updates. revert doc Hdoc.
  induction updates as [|k updates IH]; intros doc Hdoc; [exact Hdoc|].
  simpl. apply IH. destruct (body !! k) eqn:Hk; [by apply Hstep | exact Hdoc].
Qed.

Lemma apply_updates_get_other {A B} (set : string -> JSON -> Document A -> Document A)
    (g : Document A -> B) body key updates doc :
  key ∉ updates ->
  (∀ k v d, k ≠ key -> g (set k v d) = g d) ->
  g (apply_updates set body updates doc) = g doc.
Proof.
  intros Hnot Hother. unfold apply_updates. revert doc.
  induction updates as [|k updates IH]; intros doc; [reflexivity|].
  apply not_elem_of_cons in Hnot as [Hne Hnot]. simpl. rewrite IH by done.
  destruct (body !! k); [by apply Hother | reflexivity].
Qed.

(** The value of a path after the assignments of a body that has its
    key, when no other key touches the path. *)
Lemma apply_updates_get {A B} (set : string -> JSON -> Document A -> Document A)
    (g : Document A -> B) (body : gmap string JSON) key v x doc :
  body !! key = Some v ->
  (∀ d, g (set key v d) = x) ->
  (∀ k v' d, k ≠ key -> g (set k v' d) = g d) ->
  g (apply_updates set body (Object_keys body) doc) = x.
Proof.
  intros Hkey Hset Hother.
  assert (Hin : key ∈ Object_keys body).
  { unfold Object_keys. apply list_elem_of_fmap. exists (key, v).
    split; [reflexivity | by apply elem_of_map_to_list]. }
  assert (Hnodup : NoDup (Object_keys body)) by apply NoDup_fst_map_to_list.
  apply list_elem_of_split in Hin as (l1 & l2 & Hsplit). rewrite Hsplit in *.
  apply NoDup_app in Hnodup as (_ & _ & Hnodup).
  apply NoDup_cons in Hnodup as [Hnot _].
  unfold apply_updates. rewrite foldl_app. simpl. rewrite Hkey.
  change (g (apply_updates set body l2
               (set key v (apply_updates set body l1 doc))) = x).
  rewrite (apply_updates_get_other set g body key) by done. apply Hset.
Qed.

Lemma apply_updates_get_absent {A B} (set : string -> JSON -> Document A -> Document A)
    (g : Document A -> B) (body : gmap string JSON) key doc :
  body !! key = None ->
  (∀ k v d, k ≠ key -> g (set k v d) = g d) ->
  g (apply_updates set body (Object_keys body) doc) = g doc.
Proof.
  intros Hkey Hother. apply (apply_updates_get_other set g body key); [|done].
  unfold Object_keys. intros ([k v] & -> & Hin)%list_elem_of_fmap.
  apply elem_of_map_to_list in Hin. simpl in Hkey. congruence.
Qed.

Lemma User_set_profile_kept uid u path v doc :
  profile_kept uid u doc -> profile_kept uid u (User.set path v doc).
Proof.
  intros (Hid & Htok & Hav & Hcr & Hpw & Hem & Hnone).
  unfold User.set, assign_cast, assign.
  repeat (destruct (decide (path = _)); [subst path|]);
    repeat match goal with
           | |- context [match ?c with Some _ => _ | None => _ end] => destruct c
           | |- context [decide ?P] => destruct (decide P)
           end;
    unfold profile_kept; cbn; split_and!; try done;
    try (intros Hnot; apply not_elem_of_cons in Hnot as [Hne Hnot]; auto; done).
Qed.

Lemma patched_profile_kept uid u body :
  profile_kept uid u
    (apply_updates User.set body (Object_keys body) (hydrate uid u)).
Proof.
  apply apply_updates_ind; [by unfold profile_kept|].
  intros k v d _. apply User_set_profile_kept.
Qed.

(** What [PATCH /users/me] does, case by case. *)
Lemma patch_users_me_run req d time uid u token :
  Authenticated req d uid u token ->
  let doc := apply_updates User.set (req_body req) (Object_keys (req_body req))
                           (hydrate uid u) in
  run (patch_users_me req) (request_at d time) =
    if negb (isValidOperation ["name"; "email"; "password"; "age"]
                              (Object_keys (req_body req)))
    then answered d time 400 (BJson (JObj {[ "error" :=
           JStr "You are trying to update a User property that is not allowed or doesn't exist" ]}))
    else
      match (((fun p => (p, "Cast failed")) <$> castErrors doc)
               ++ User.validate (fields doc))%list with
      | (_ :: _) as errs =>
          answered d time 400 (BJson (stringify_exn (ValidationError "User" errs)))
      | [] =>
          if isModified_any doc then
            let u' := UserDoc.set_updatedAt time (fields (User.pre_save doc)) in
            if isModified doc "email" && User.email_taken d uid (UserDoc.email u')
            then answered d time 400 (BJson (stringify_exn DuplicateKeyError))
            else answered (mkDB (<[uid := u']> (users d)) (tasks d)) time 200
                          (BJson (JObj (User.toJSON (hydrate uid u'))))
          else answered d time 200 (BJson (JObj (User.toJSON doc)))
      end.
Proof.
  intros HA doc. unfold run, patch_users_me.
  rewrite (with_auth_pass_at _ _ _ _ _ _ _ HA).
  destruct (negb _); [reflexivity|].
  fold doc. unfold try_catch, mbind, M_bind, User.save.
  destruct (patched_profile_kept uid u (req_body req)) as (Hid & _).
  fold doc in Hid.
  destruct (_ ++ _)%list; [|reflexivity].
  assert (Hpre : modifiedPaths (User.pre_save doc) = modifiedPaths doc
                 ∧ _id (User.pre_save doc) = uid).
  { unfold User.pre_save. by destruct (isModified doc "password"). }
  destruct Hpre as [Hmod Hid'].
  assert (Hany : isModified_any (User.pre_save doc) = isModified_any doc)
    by (unfold isModified_any; by rewrite Hmod).
  assert (Hemail : isModified (User.pre_save doc) "email" = isModified doc "email")
    by (unfold isModified; by rewrite Hmod).
  rewrite Hany. destruct (isModified_any doc) eqn:Hmodified.
  - unfold_M. cbn [db now res]. rewrite Hemail, Hid'.
    destruct (_ && _); reflexivity.
  - unfold_M. cbn [db now res].
    assert (User.pre_save doc = doc) as ->; [|reflexivity].
    unfold User.pre_save, isModified. unfold isModified_any in Hmodified.
    destruct (modifiedPaths doc); [|discriminate]. reflexivity.
Qed.

(** X7. [PATCH /users/me] never stores a plaintext password: whatever
    the body, the password of the stored user afterwards is the one
    stored before or a value of [bcrypt.hash]. *)
Theorem profile_update_stores_only_hashes req d time uid u token :
  Authenticated req d uid u token ->
  ∃ u', users (db (run (patch_users_me req) (request_at d time))) !! uid = Some u' ∧
        (UserDoc.password u' = UserDoc.password u ∨
         ∃ p, UserDoc.password u' = bcrypt_hash p).
Proof.
  intros HA. pose proof HA as (_ & _ & Hu & _).
  rewrite (patch_users_me_run _ _ _ _ _ _ HA).
  set (doc := apply_updates _ _ _ _).
  destruct (patched_profile_kept uid u (req_body req)) as (_ & _ & _ & _ & Hpw & _).
  fold doc in Hpw.
  destruct (negb _); [by exists u; auto|].
  destruct (_ ++ _)%list; [|by exists u; auto].
  destruct (isModified_any doc); [|by exists u; auto].
  cbv zeta. destruct (_ && _); [by exists u; auto|].
  eexists. split; [apply lookup_insert_eq|].
  unfold User.pre_save, isModified.
  destruct (bool_decide_reflect ("password" ∈ modifiedPaths doc)) as [Hin|Hnot].
  - right. by eexists.
  - left. by apply Hpw.
Qed.

(** X8. [PATCH /users/me] changes at most the caller's own record, and
    in it never the tokens, the avatar or [createdAt]; every other user
    and every task stay as they are. *)
Theorem profile_update_frame req d time uid u token :
  Authenticated req d uid u token ->
  let d' := db (run (patch_users_me req) (request_at d time)) in
  tasks d' = tasks d ∧
  (∀ id, id ≠ uid -> users d' !! id = users d !! id) ∧
  ∃ u', users d' !! uid = Some u' ∧
        UserDoc.tokens u' = UserDoc.tokens u ∧
        UserDoc.avatar u' = UserDoc.avatar u ∧
        UserDoc.createdAt u' = UserDoc.createdAt u.
Proof.
  intros HA d'. subst d'. pose proof HA as (_ & _ & Hu & _).
  rewrite (patch_users_me_run _ _ _ _ _ _ HA).
  set (doc := apply_updates _ _ _ _).
  destruct (patched_profile_kept uid u (req_body req)) as (_ & Htok & Hav & Hcr & _).
  fold doc in Htok, Hav, Hcr.
  assert (Hsame : tasks d = tasks d ∧ (∀ id, id ≠ uid -> users d !! id = users d !! id) ∧
            ∃ u', users d !! uid = Some u' ∧ UserDoc.tokens u' = UserDoc.tokens u ∧
                  UserDoc.avatar u' = UserDoc.avatar u ∧
                  UserDoc.createdAt u' = UserDoc.createdAt u)
    by (split_and!; [done | done | by exists u]).
  destruct (negb _); [exact Hsame|].
  destruct (_ ++ _)%list; [|exact Hsame].
  destruct (isModified_any doc); [|exact Hsame].
  cbv zeta. destruct (_ && _); [exact Hsame|].
  cbn [answered db users tasks]. split_and!; [done | |].
  - intros id Hne. by rewrite lookup_insert_ne.
  - eexists. split; [apply lookup_insert_eq|].
    unfold User.pre_save. by destruct (isModified doc "password").
Qed.

(** X9. [PATCH /users/me] is all or nothing: the answer is 200 or 400,
    and whenever it is 400 (a key outside the allowlist, a value that
    fails a validator or a cast, an email that is taken) the store is
    exactly as before. *)
Theorem profile_update_is_all_or_nothing req d time uid u token :
  Authenticated req d uid u token ->
  let s := run (patch_users_me req) (request_at d time) in
  (status <$> res s = Some 200 ∨ status <$> res s = Some 400) ∧
  (status <$> res s = Some 400 -> db s = d).
Proof.
  intros HA s. subst s. rewrite (patch_users_me_run _ _ _ _ _ _ HA).
  set (doc := apply_updates _ _ _ _).
  destruct (negb _); [by split; [right|]|].
  destruct (_ ++ _)%list; [|by split; [right|]].
  destruct (isModified_any doc); [|by split; [left|]].
  cbv zeta. destruct (_ && _); [by split; [right|]|].
  split; [by left | discriminate].
Qed.

Lemma validate_weak_password u :
  weak_password (UserDoc.password u) -> User.validate u ≠ [].
Proof.
  intros Hweak. unfold User.validate.
  assert (Hpw : ∀ l1 l2 l3 (x : string * string), (l1 ++ l2 ++ (x :: l3))%list ≠ [])
    by (intros [|] [|] ? ?; discriminate).
  destruct (decide (UserDoc.name u = "")), (decide (UserDoc.email u = ""));
    try destruct (negb _);
    destruct (decide (UserDoc.password u = "")) as [Hempty|Hfull];
    try (rewrite <- !app_assoc; simpl; discriminate);
    try (simpl; discriminate).
  all: destruct (String.length (UserDoc.password u) <? 7)%nat eqn:Hlen;
    try (simpl; discriminate).
  all: apply Nat.ltb_ge in Hlen; destruct Hweak as [Hshort | ->]; [lia|];
    simpl; discriminate.
Qed.

Lemma User_set_password_value v p doc :
  cast_string v = Some p ->
  UserDoc.password (fields (User.set "password" v doc)) = JsString.trim p.
Proof.
  intros Hcast. unfold User.set, assign_cast, assign.
  repeat (destruct (decide ("password" = _)) as [?|_]; [discriminate|]).
  destruct (decide ("password" = "password")); [|done].
  rewrite Hcast. by destruct (decide _).
Qed.

Lemma User_set_other_password k v doc :
  k ≠ "password" ->
  UserDoc.password (fields (User.set k v doc)) = UserDoc.password (fields doc).
Proof.
  intros Hne. unfold User.set, assign_cast, assign.
  repeat (destruct (decide (k = _)); [subst k|]); try done;
    repeat match goal with
           | |- context [match ?c with Some _ => _ | None => _ end] => destruct c
           | |- context [decide ?P] => destruct (decide P)
           end; reflexivity.
Qed.

Lemma User_set_email_value v e doc :
  cast_string v = Some e ->
  UserDoc.email (fields (User.set "email" v doc))
    = JsString.toLowerCase (JsString.trim e).
Proof.
  intros Hcast. unfold User.set, assign_cast, assign.
  repeat (destruct (decide ("email" = _)) as [?|_]; [discriminate|]).
  destruct (decide ("email" = "email")); [|done].
  rewrite Hcast. by destruct (decide _).
Qed.

Lemma User_set_other_email k v doc :
  k ≠ "email" ->
  UserDoc.email (fields (User.set k v doc)) = UserDoc.email (fields doc).
Proof.
  intros Hne. unfold User.set, assign_cast, assign.
  repeat (destruct (decide (k = _)); [subst k|]); try done;
    repeat match goal with
           | |- context [match ?c with Some _ => _ | None => _ end] => destruct c
           | |- context [decide ?P] => destruct (decide P)
           end; reflexivity.
Qed.

(** X10. A profile update whose [password] is, once trimmed, shorter
    than 7 characters or contains [password] in any letter case is
    answered 400 and changes nothing, whatever else the body holds. *)
Theorem weak_password_is_refused req d time uid u token v p :
  Authenticated req d uid u token ->
  req_body req !! "password" = Some v ->
  cast_string v = Some p ->
  weak_password (JsString.trim p) ->
  status <$> res (run (patch_users_me req) (request_at d time)) = Some 400 ∧
  db (run (patch_users_me req) (request_at d time)) = d.
Proof.
  intros HA Hbody Hcast Hweak. rewrite (patch_users_me_run _ _ _ _ _ _ HA).
  set (doc := apply_updates _ _ _ _).
  assert (Hpw : UserDoc.password (fields doc) = JsString.trim p).
  { apply (apply_updates_get User.set (fun d => UserDoc.password (fields d))
             (req_body req) "password" v); [done | |].
    - intros d0. by apply User_set_password_value.
    - intros k v' d0 Hne. by apply User_set_other_password. }
  destruct (negb _); [done|].
  assert (Hinvalid : User.validate (fields doc) ≠ [])
    by (apply validate_weak_password; by rewrite Hpw).
  destruct (_ ++ _)%list eqn:Herrs; [|done].
  apply app_eq_nil in Herrs as [_ Herrs]. contradiction.
Qed.

Lemma email_taken_true d uid e id u :
  users d !! id = Some u -> id ≠ uid -> UserDoc.email u = e ->
  User.email_taken d uid e = true.
Proof.
  intros Hu Hne He. unfold User.email_taken. apply existsb_exists.
  exists (id, u). split.
  - apply list_elem_of_In. by apply elem_of_map_to_list.
  - simpl. apply andb_true_iff. split.
    + apply negb_true_iff. by apply String.eqb_neq.
    + by apply String.eqb_eq.
Qed.

(** X11. Emails are unique after trimming and lower-casing: a profile
    update whose [email], so normalised, is the email of another user
    (and not the caller's own) is answered 400 and changes nothing. *)
Theorem taken_email_is_refused req d time uid u token v e other u2 :
  Authenticated req d uid u token ->
  req_body req !! "email" = Some v ->
  cast_string v = Some e ->
  JsString.toLowerCase (JsString.trim e) ≠ UserDoc.email u ->
  users d !! other = Some u2 ->
  other ≠ uid ->
  UserDoc.email u2 = JsString.toLowerCase (JsString.trim e) ->
  status <$> res (run (patch_users_me req) (request_at d time)) = Some 400 ∧
  db (run (patch_users_me req) (request_at d time)) = d.
Proof.
  intros HA Hbody Hcast Hnew Hother Hne Hsame.
  rewrite (patch_users_me_run _ _ _ _ _ _ HA).
  set (doc := apply_updates _ _ _ _).
  assert (Hem : UserDoc.email (fields doc) = JsString.toLowerCase (JsString.trim e)).
  { apply (apply_updates_get User.set (fun d => UserDoc.email (fields d))
             (req_body req) "email" v); [done | |].
    - intros d0. by apply User_set_email_value.
    - intros k v' d0 Hk. by apply User_set_other_email. }
  destruct (patched_profile_kept uid u (req_body req)) as (_ & _ & _ & _ & _ & Hkept & _).
  fold doc in Hkept.
  assert (Hmod : "email" ∈ modifiedPaths doc).
  { destruct (decide ("email" ∈ modifiedPaths doc)) as [|Hnot]; [done|].
    rewrite (Hkept Hnot) in Hem. by destruct Hnew. }
  destruct (negb _); [done|].
  destruct (_ ++ _)%list; [|done].
  assert (Hany : isModified_any doc = true).
  { unfold isModified_any. destruct (modifiedPaths doc); [|done].
    by apply elem_of_nil in Hmod. }
  rewrite Hany. cbv zeta.
  assert (Hpre : UserDoc.email (fields (User.pre_save doc)) = UserDoc.email (fields doc))
    by (unfold User.pre_save; by destruct (isModified doc "password")).
  assert (Htaken : isModified doc "email" &&
            User.email_taken d uid
              (UserDoc.email (UserDoc.set_updatedAt time (fields (User.pre_save doc))))
            = true).
  { apply andb_true_iff. split; [by apply bool_decide_eq_true|].
    apply (email_taken_true d uid _ other u2 Hother Hne).
    cbn [UserDoc.email UserDoc.set_updatedAt]. by rewrite Hpre, Hem. }
  by rewrite Htaken.
Qed.

(** *** Updating and deleting a task *)

Lemma Task_findOne_owned d id uid k s :
  tasks d !! id = Some k -> TaskDoc.owner k = uid -> db s = d ->
  Task.findOne id uid s = (s, Ok (Some (hydrate id k))).
Proof.
  intros Hk Hown Hd. apply (Task_findOne_found d); try done.
  by eapply castId_stored.
Qed.

Lemma Task_findOne_none d id uid s :
  cast_ObjectId (JStr id) = Some id ->
  no_owned_task d uid id -> db s = d ->
  Task.findOne id uid s = (s, Ok None).
Proof.
  intros Hcast Hno Hd. apply (Task_findOne_missing d _ id); try done.
  by apply castId_well_formed.
Qed.

Lemma Task_set_task_kept id k path v doc :
  task_kept id k doc -> task_kept id k (Task.set path v doc).
Proof.
  intros (Hid & Hown & Hcr & Hnone).
  unfold Task.set, assign_cast, assign.
  repeat (destruct (decide (path = _)); [subst path|]);
    repeat match goal with
           | |- context [match ?c with Some _ => _ | None => _ end] => destruct c
           | |- context [decide ?P] => destruct (decide P)
           end;
    unfold task_kept; cbn; split_and!; done.
Qed.

Lemma patched_task_kept id k body :
  task_kept id k (apply_updates Task.set body (Object_keys body) (hydrate id k)).
Proof.
  apply apply_updates_ind; [by unfold task_kept|].
  intros key v d _. apply Task_set_task_kept.
Qed.

(** What [PATCH /tasks/:id] does on a task of the caller, case by
    case. *)
Lemma patch_tasks_id_run req d time uid u token k :
  Authenticated req d uid u token ->
  tasks d !! req_params_id req = Some k ->
  TaskDoc.owner k = uid ->
  let id := req_params_id req in
  let doc := apply_updates Task.set (req_body req) (Object_keys (req_body req))
                           (hydrate id k) in
  run (patch_tasks_id req) (request_at d time) =
    if negb (isValidOperation ["description"; "completed"] (Object_keys (req_body req)))
    then answered d time 400 (BJson (JObj {[ "error" :=
           JStr "You are trying to update a Task property that is not allowed or doesn't exist" ]}))
    else
      match (((fun p => (p, "Cast failed")) <$> castErrors doc)
               ++ Task.validate (fields doc))%list with
      | (_ :: _) as errs =>
          answered d time 400 (BJson (stringify_exn (ValidationError "Task" errs)))
      | [] =>
          if isModified_any doc then
            let k' := TaskDoc.set_updatedAt time (fields doc) in
            answered (mkDB (users d) (<[id := k']> (tasks d))) time 200 (BTask id k')
          else answered d time 200 (BTask id (fields doc))
      end.
Proof.
  intros HA Hk Hown id doc. unfold run, patch_tasks_id.
  rewrite (with_auth_pass_at _ _ _ _ _ _ _ HA).
  destruct (negb _); [reflexivity|].
  unfold try_catch, mbind, M_bind. cbn [_id hydrate].
  rewrite (Task_findOne_owned d _ uid k) by done.
  fold id. fold doc. unfold Task.save.
  destruct (patched_task_kept id k (req_body req)) as (Hid & _). fold doc in Hid.
  destruct (_ ++ _)%list; [|reflexivity].
  destruct (isModified_any doc).
  - unfold_M. cbn [db now res]. unfold task_body. cbn [_id fields hydrate].
    by rewrite Hid.
  - unfold_M. cbn [db now res]. unfold task_body. by rewrite Hid.
Qed.

(** X12. [PATCH /tasks/:id] on a task of the caller can change neither
    the owner nor [createdAt] of the task, whatever the body; the
    answer is 200 or 400, and on 400 the store is exactly as before. *)
Theorem task_update_keeps_the_owner req d time uid u token k :
  Authenticated req d uid u token ->
  tasks d !! req_params_id req = Some k ->
  TaskDoc.owner k = uid ->
  let s := run (patch_tasks_id req) (request_at d time) in
  (status <$> res s = Some 200 ∨ status <$> res s = Some 400) ∧
  (status <$> res s = Some 400 -> db s = d) ∧
  ∃ k', tasks (db s) !! req_params_id req = Some k' ∧
        TaskDoc.owner k' = uid ∧
        TaskDoc.createdAt k' = TaskDoc.createdAt k.
Proof.
  intros HA Hk Hown s. subst s.
  rewrite (patch_tasks_id_run _ _ _ _ _ _ _ HA Hk Hown). cbv zeta.
  set (doc := apply_updates _ _ _ _).
  destruct (patched_task_kept (req_params_id req) k (req_body req))
    as (_ & Howner & Hcreated & _).
  fold doc in Howner, Hcreated.
  destruct (negb _); [by split_and!; [right | | exists k]|].
  destruct (_ ++ _)%list; [|by split_and!; [right | | exists k]].
  destruct (isModified_any doc).
  - split_and!; [by left | discriminate |].
    eexists. split; [apply lookup_insert_eq|].
    cbn [TaskDoc.owner TaskDoc.createdAt TaskDoc.set_updatedAt].
    by rewrite Howner, Hcreated.
  - split_and!; [by left | discriminate | by exists k].
Qed.

(** X13. Deleting a task of the caller is answered 200 with the task
    and removes that task only; afterwards the caller's fetch and a
    second delete of the same id are both answered 404.  The id, being
    that of a stored task, is a well-formed ObjectId: once the task is
    gone, this is what keeps the lookup from being rejected. *)
Theorem deleted_task_is_gone req d time1 time2 uid u token k :
  Authenticated req d uid u token ->
  tasks d !! req_params_id req = Some k ->
  TaskDoc.owner k = uid ->
  let id := req_params_id req in
  let d' := mkDB (users d) (delete id (tasks d)) in
  run (delete_tasks_id req) (request_at d time1) = answered d' time1 200 (BTask id k) ∧
  (cast_ObjectId (JStr id) = Some id ->
   run (get_tasks_id req) (request_at d' time2) = answered d' time2 404 BEmpty ∧
   run (delete_tasks_id req) (request_at d' time2) = answered d' time2 404 BEmpty).
Proof.
  intros HA Hk Hown id d'.
  assert (HA' : Authenticated req d' uid u token) by exact HA.
  assert (Hno : no_owned_task d' uid id).
  { intros k' Hk'. unfold d' in Hk'. cbn [tasks] in Hk'.
    by rewrite lookup_delete_eq in Hk'. }
  split; [|intros Hcast; split].
  - unfold run, delete_tasks_id, Task.findOneAndDelete.
    rewrite (with_auth_pass_at _ _ _ _ _ _ _ HA).
    unfold try_catch, mbind, M_bind. cbn [_id hydrate].
    by rewrite (Task_findOne_owned d _ uid k).
  - unfold run, get_tasks_id. rewrite (with_auth_pass_at _ _ _ _ _ _ _ HA').
    unfold try_catch, mbind, M_bind. cbn [_id hydrate].
    by rewrite (Task_findOne_none d' _ uid).
  - unfold run, delete_tasks_id, Task.findOneAndDelete.
    rewrite (with_auth_pass_at _ _ _ _ _ _ _ HA').
    unfold try_catch, mbind, M_bind. cbn [_id hydrate].
    by rewrite (Task_findOne_none d' _ uid).
Qed.

End MoreProperties.

Section CreationProperties.
Context `{L : Libs} `{G : Mongoose}.

(** *** Creating a task *)

Lemma constructed_task_kept body id uid errs :
  task_kept id (TaskDoc.mk "" false uid 0 0)
    (apply_updates Task.set body (Object_keys body)
       (mkDocument id (TaskDoc.mk "" false uid 0 0) [] errs)).
Proof.
  apply apply_updates_ind; [by unfold task_kept|].
  intros key v d _. apply Task_set_task_kept.
Qed.

Lemma bind_run {A B} (m : M A) (f : A -> M B) s :
  (m ≫= f) s = match m s with
               | (s', Ok a) => f a s'
               | (s', Throw e) => (s', Throw e)
               end.
Proof. reflexivity. Qed.

Lemma Task_new_run req uid s :
  Task_new (req_body req) uid s
    = (s, Ok (mkNewDocument (new_task_doc req uid s)
                            (req_body req !! "createdAt" ≫= cast_Date))).
Proof. reflexivity. Qed.

(** What [POST /tasks] does, case by case. *)
Lemma post_tasks_run req d time uid u token :
  Authenticated req d uid u token ->
  let id := new_task_id req (request_at d time) in
  let doc := new_task_doc req uid (request_at d time) in
  let created := default time (req_body req !! "createdAt" ≫= cast_Date) in
  let k := TaskDoc.mk (TaskDoc.description (fields doc)) (TaskDoc.completed (fields doc))
                      uid created created in
  run (post_tasks req) (request_at d time) =
    match (((fun p => (p, "Cast failed")) <$> castErrors doc)
             ++ Task.validate (fields doc))%list with
    | (_ :: _) as errs =>
        answered d time 400 (BJson (stringify_exn (ValidationError "Task" errs)))
    | [] =>
        match tasks d !! id with
        | Some _ => answered d time 400 (BJson (stringify_exn DuplicateKeyError))
        | None => answered (mkDB (users d) (<[id := k]> (tasks d))) time 201 (BTask id k)
        end
    end.
Proof.
  intros HA id doc created k. unfold run, post_tasks.
  rewrite (with_auth_pass_at _ _ _ _ _ _ _ HA). cbn [_id hydrate].
  rewrite bind_run, Task_new_run. fold doc.
  destruct (constructed_task_kept (req_body req) id uid
              (cast_failures cast_ObjectId (req_body req) "_id" ++
               cast_failures cast_Date (req_body req) "createdAt" ++
               cast_failures cast_Date (req_body req) "updatedAt")%list)
    as (Hid & Hown & _).
  change (apply_updates _ _ _ _) with doc in Hid, Hown.
  cbn [TaskDoc.owner] in Hown. subst k. clearbody doc id.
  unfold try_catch. rewrite bind_run. unfold Task_insert.
  cbn [new_doc given_createdAt].
  destruct (_ ++ _)%list; [|reflexivity].
  rewrite Hid, Hown.
  unfold throw, get_db, put_db, Date_now, res_send, mbind, M_bind, mret, M_ret.
  cbn [db now res request_at].
  destruct (tasks d !! id); reflexivity.
Qed.

(** X14. [POST /tasks] only ever adds: the answer is 201 or 400; on
    400 the store is as before; on 201 exactly one task is added, under
    an [_id] that was free, and its owner is the caller, whatever
    [owner] or [_id] the body names.  No user and no existing task is
    changed. *)
Theorem task_creation_only_adds_own_tasks req d time uid u token :
  Authenticated req d uid u token ->
  let s := run (post_tasks req) (request_at d time) in
  (status <$> res s = Some 400 ∧ db s = d) ∨
  (∃ id k, tasks d !! id = None ∧
           TaskDoc.owner k = uid ∧
           TaskDoc.description k ≠ "" ∧
           s = answered (mkDB (users d) (<[id := k]> (tasks d))) time 201 (BTask id k)).
Proof.
  intros HA s. subst s. rewrite (post_tasks_run _ _ _ _ _ _ HA). cbv zeta.
  set (doc := new_task_doc _ _ _).
  destruct (_ ++ _)%list eqn:Herrs; [|by left].
  destruct (tasks d !! _) eqn:Hfree; [by left|].
  right. refine (ex_intro _ _ (ex_intro _ _ (conj Hfree (conj _ (conj _ eq_refl))))).
  - reflexivity.
  - apply app_eq_nil in Herrs as [_ Hvalid]. unfold Task.validate in Hvalid.
    cbn [TaskDoc.description].
    by destruct (decide (TaskDoc.description (fields doc) = "")).
Qed.

Lemma Task_set_description_value v text doc :
  cast_string v = Some text ->
  TaskDoc.description (fields (Task.set "description" v doc)) = JsString.trim text.
Proof.
  intros Hcast. unfold Task.set, assign_cast, assign.
  destruct (decide ("description" = "description")); [|done].
  rewrite Hcast. by destruct (decide _).
Qed.

Lemma Task_set_other_description k v doc :
  k ≠ "description" ->
  TaskDoc.description (fields (Task.set k v doc)) = TaskDoc.description (fields doc).
Proof.
  intros Hne. unfold Task.set, assign_cast, assign.
  destruct (decide (k = "description")); [done|].
  destruct (decide (k = "completed")); [|done].
  destruct (cast_boolean v); [|done]. by destruct (decide _).
Qed.

Lemma Task_set_completed_value v b doc :
  cast_boolean v = Some b ->
  TaskDoc.completed (fields (Task.set "completed" v doc)) = b.
Proof.
  intros Hcast. unfold Task.set, assign_cast, assign.
  destruct (decide ("completed" = "description")); [discriminate|].
  destruct (decide ("completed" = "completed")); [|done].
  rewrite Hcast. by destruct (decide _).
Qed.

Lemma Task_set_other_completed k v doc :
  k ≠ "completed" ->
  TaskDoc.completed (fields (Task.set k v doc)) = TaskDoc.completed (fields doc).
Proof.
  intros Hne. unfold Task.set, assign_cast, assign.
  destruct (decide (k = "description")); [|by destruct (decide (k = "completed"))].
  destruct (cast_string v); [|done]. by destruct (decide _).
Qed.

Lemma Task_set_castErrors (body : gmap string JSON) k v doc :
  body !! k = Some v ->
  (∀ v, body !! "description" = Some v -> is_Some (cast_string v)) ->
  (∀ v, body !! "completed" = Some v -> is_Some (cast_boolean v)) ->
  castErrors doc = [] -> castErrors (Task.set k v doc) = [].
Proof.
  intros Hk Hd Hc Hnone. unfold Task.set, assign_cast, assign.
  destruct (decide (k = "description")) as [->|].
  - destruct (Hd v Hk) as [text ->]. by destruct (decide _).
  - destruct (decide (k = "completed")) as [->|]; [|done].
    destruct (Hc v Hk) as [b ->]. by destruct (decide _).
Qed.

(** X15. A task is created as described and can be fetched back.  For
    a body with a [description] that is not blank, a [completed], if
    any, that casts to a Boolean, and no [_id] or timestamps of its
    own, and a generated [_id] that is free: the answer is 201 with the
    task; its description is the trimmed one, [completed] is the value
    given or [false], the owner is the caller even if the body names
    another [owner], and both timestamps are the time of the request;
    the caller's [GET /tasks/:id] then returns the same task. *)
Theorem created_task_can_be_fetched req d time uid u token v text :
  Authenticated req d uid u token ->
  req_body req !! "description" = Some v ->
  cast_string v = Some text ->
  JsString.trim text ≠ "" ->
  (∀ c, req_body req !! "completed" = Some c -> is_Some (cast_boolean c)) ->
  req_body req !! "_id" = None ->
  req_body req !! "createdAt" = None ->
  req_body req !! "updatedAt" = None ->
  tasks d !! ObjectId_generate (request_at d time) = None ->
  let id := ObjectId_generate (request_at d time) in
  let k := TaskDoc.mk (JsString.trim text)
                      (default false (req_body req !! "completed" ≫= cast_boolean))
                      uid time time in
  let d' := mkDB (users d) (<[id := k]> (tasks d)) in
  run (post_tasks req) (request_at d time) = answered d' time 201 (BTask id k) ∧
  ∀ req' token' time',
    Authenticated req' d' uid u token' ->
    req_params_id req' = id ->
    run (get_tasks_id req') (request_at d' time') = answered d' time' 200 (BTask id k).
Proof.
  intros HA Hdesc Hcast Hblank Hcompleted Hid Hcreated Hupdated Hfree id k d'.
  assert (Hrun : run (post_tasks req) (request_at d time)
                 = answered d' time 201 (BTask id k)).
  { rewrite (post_tasks_run _ _ _ _ _ _ HA). cbv zeta.
    unfold new_task_id, new_task_doc, cast_failures.
    rewrite Hid, Hcreated, Hupdated. cbn [mbind option_bind app default].
    set (doc := apply_updates _ _ _ _).
    assert (Herr : castErrors doc = []).
    { apply apply_updates_ind; [reflexivity|].
      intros key val d0 Hkey. apply (Task_set_castErrors (req_body req)); [done | | done].
      intros v' Hv'. rewrite Hdesc in Hv'. injection Hv' as <-. by rewrite Hcast. }
    assert (Hd : TaskDoc.description (fields doc) = JsString.trim text).
    { apply (apply_updates_get Task.set (fun d => TaskDoc.description (fields d))
               (req_body req) "description" v); [done | |].
      - intros d0. by apply Task_set_description_value.
      - intros key v' d0 Hne. by apply Task_set_other_description. }
    assert (Hc : TaskDoc.completed (fields doc)
                 = default false (req_body req !! "completed" ≫= cast_boolean)).
    { destruct (req_body req !! "completed") as [c|] eqn:Hc.
      - destruct (Hcompleted c eq_refl) as [b Hb]. cbn [mbind option_bind]. rewrite Hb.
        apply (apply_updates_get Task.set (fun d => TaskDoc.completed (fields d))
                 (req_body req) "completed" c); [done | |].
        + intros d0. by apply Task_set_completed_value.
        + intros key v' d0 Hne. by apply Task_set_other_completed.
      - apply (apply_updates_get_absent Task.set (fun d => TaskDoc.completed (fields d))
                 (req_body req) "completed"); [done|].
        intros key v' d0 Hne. by apply Task_set_other_completed. }
    rewrite Herr. cbn [fmap list_fmap app]. unfold Task.validate. rewrite Hd.
    destruct (decide (JsString.trim text = "")); [contradiction|].
    rewrite Hfree, Hc. reflexivity. }
  split; [exact Hrun|].
  intros req' token' time' HA' Hreq. unfold run, get_tasks_id.
  rewrite (with_auth_pass_at _ _ _ _ _ _ _ HA').
  unfold try_catch, mbind, M_bind. cbn [_id hydrate]. rewrite Hreq.
  rewrite (Task_findOne_owned d' id uid k); [reflexivity | | reflexivity | reflexivity].
  apply lookup_insert_eq.
Qed.

(** X16. A task without a description is not created: when the body
    has no [description], or one that is blank once trimmed, the answer
    is 400 and the store is unchanged. *)
Theorem task_without_description_is_refused req d time uid u token :
  Authenticated req d uid u token ->
  req_body req !! "description" = None ∨
  (∃ v text, req_body req !! "description" = Some v ∧
             cast_string v = Some text ∧ JsString.trim text = "") ->
  status <$> res (run (post_tasks req) (request_at d time)) = Some 400 ∧
  db (run (post_tasks req) (request_at d time)) = d.
Proof.
  intros HA Hdesc. rewrite (post_tasks_run _ _ _ _ _ _ HA). cbv zeta.
  set (doc := new_task_doc _ _ _).
  assert (Hd : TaskDoc.description (fields doc) = "").
  { destruct Hdesc as [Hnone | (v & text & Hv & Hcast & Hblank)].
    - apply (apply_updates_get_absent Task.set (fun d => TaskDoc.description (fields d))
               (req_body req) "description"); [done|].
      intros key v' d0 Hne. by apply Task_set_other_description.
    - rewrite <- Hblank.
      apply (apply_updates_get Task.set (fun d => TaskDoc.description (fields d))
               (req_body req) "description" v); [done | |].
      + intros d0. by apply Task_set_description_value.
      + intros key v' d0 Hne. by apply Task_set_other_description. }
  destruct (_ ++ _)%list eqn:Herrs; [|done].
  apply app_eq_nil in Herrs as [_ Hvalid]. unfold Task.validate in Hvalid.
  rewrite Hd in Hvalid. discriminate.
Qed.

(** *** Registration *)

Lemma User_new_run req s :
  User_new (req_body req) s
    = (s, Ok (mkNewDocument (new_user_doc req s)
                            (req_body req !! "createdAt" ≫= cast_Date))).
Proof. reflexivity. Qed.

Lemma User_init_constructed id path v doc :
  constructed id doc -> constructed id (User_init path v doc).
Proof.
  intros (Hid & Hpw).
  unfold User_init, User.set, assign_cast, assign.
  repeat (destruct (decide (path = _)); [subst path|]);
    repeat match goal with
           | |- context [match ?c with Some _ => _ | None => _ end] => destruct c
           | |- context [decide ?P] => destruct (decide P)
           end;
    unfold constructed; cbn; split; try done;
    intros Hne; try (right; by apply Hpw); by left.
Qed.

Lemma new_user_constructed req s :
  constructed (new_user_id req s) (new_user_doc req s).
Proof.
  unfold new_user_doc. apply apply_updates_ind; [by split|].
  intros k v d _. apply User_init_constructed.
Qed.

Lemma validate_nil_password u : User.validate u = [] -> UserDoc.password u ≠ "".
Proof.
  unfold User.validate. intros Hnil Hempty.
  apply app_eq_nil in Hnil as [_ Hnil]. apply app_eq_nil in Hnil as [_ Hnil].
  apply app_eq_nil in Hnil as [Hnil _].
  by destruct (decide (UserDoc.password u = "")).
Qed.

(** What [POST /users] does up to the insert. *)
Lemma post_users_run req d time :
  let id := new_user_id req (request_at d time) in
  let doc := new_user_doc req (request_at d time) in
  let u1 := inserted_user req time doc in
  run (post_users req) (request_at d time) =
    match (((fun p => (p, "Cast failed")) <$> castErrors doc)
             ++ User.validate (fields doc))%list with
    | (_ :: _) as errs =>
        answered d time 400 (BJson (stringify_exn (ValidationError "User" errs)))
    | [] =>
        match users d !! id with
        | Some _ => answered d time 400 (BJson (stringify_exn DuplicateKeyError))
        | None =>
            if User.email_taken d id (UserDoc.email u1)
            then answered d time 400 (BJson (stringify_exn DuplicateKeyError))
            else run (issue_first_token id u1)
                     (request_at (mkDB (<[id := u1]> (users d)) (tasks d)) time)
        end
    end.
Proof.
  intros id doc u1. unfold run, post_users.
  rewrite bind_run, User_new_run. fold doc.
  destruct (new_user_constructed req (request_at d time)) as (Hid & _).
  fold doc in Hid. fold id in Hid.
  assert (Hid' : _id (User.pre_save doc) = id)
    by (unfold User.pre_save; by destruct (isModified doc "password")).
  unfold try_catch at 1. rewrite bind_run. unfold User_insert.
  cbn [new_doc given_createdAt]. fold (inserted_user req time doc). fold u1.
  clearbody doc id. cbv zeta.
  destruct (_ ++ _)%list; [|reflexivity].
  rewrite Hid'.
  unfold throw, get_db, put_db, Date_now, res_send, mbind, M_bind, mret, M_ret.
  cbn [db now res request_at].
  destruct (users d !! id); [reflexivity|].
  change (UserDoc.mk _ _ _ _ _ _ _ _) with u1.
  destruct (User.email_taken d id (UserDoc.email u1)); reflexivity.
Qed.

Lemma User_save_invalid id u toks s :
  User.validate u ≠ [] ->
  ∃ e, User.save (assign "tokens" UserDoc.tokens UserDoc.set_tokens toks (hydrate id u)) s
       = (s, Throw e).
Proof.
  intros Hinvalid. unfold assign, User.save. cbn [fields hydrate].
  assert (Hsame : User.validate (UserDoc.set_tokens toks u) = User.validate u)
    by reflexivity.
  destruct (decide (UserDoc.tokens u = toks));
    cbn [castErrors fields hydrate fmap list_fmap app];
    rewrite ?Hsame; destruct (User.validate u); try done; by eexists.
Qed.

(** What the rest of [POST /users] does after the insert. *)
Lemma issue_first_token_run id u1 d1 time :
  let time2 := time + clock_elapsed (request_at d1 time) in
  let u2 := UserDoc.set_updatedAt time2
              (UserDoc.set_tokens (UserDoc.tokens u1 ++ [jwt_sign id])%list u1) in
  (User.validate u1 = [] ->
   run (issue_first_token id u1) (request_at d1 time)
     = answered (mkDB (<[id := u2]> (users d1)) (tasks d1)) time2 201
         (BJson (JObj {[ "user" := JObj (User.toJSON (hydrate id u2));
                         "newToken" := JStr (jwt_sign id) ]}))) ∧
  (User.validate u1 ≠ [] ->
   status <$> res (run (issue_first_token id u1) (request_at d1 time)) = Some 400 ∧
   db (run (issue_first_token id u1) (request_at d1 time)) = d1).
Proof.
  intros time2 u2. split; intros Hvalid.
  - unfold run, issue_first_token, User.generateAuthToken, clock_advance.
    unfold try_catch, mbind, M_bind. cbn [fields hydrate _id].
    rewrite (User_save_tokens _ _ _ _ Hvalid).
    destruct (decide _) as [Heq|_]; [|reflexivity].
    apply (f_equal length) in Heq. rewrite length_app in Heq. simpl in Heq. lia.
  - unfold run, issue_first_token, User.generateAuthToken, clock_advance.
    unfold try_catch, mbind, M_bind. cbn [fields hydrate _id].
    destruct (User_save_invalid id u1 (UserDoc.tokens u1 ++ [jwt_sign id])
                (mkSt (db (request_at d1 time)) (res (request_at d1 time))
                      (now (request_at d1 time) + clock_elapsed (request_at d1 time)))
                Hvalid) as [e ->].
    done.
Qed.

(** X17. Registration adds at most one user and never stores a
    plaintext password.  Either the answer is 400 and the store is as
    before; or exactly one user is inserted, under an [_id] that was
    free, with a password that is a value of [bcrypt.hash], and every
    other user and every task is as before.  In the second case the
    answer is 201 and the user holds the token that was issued, or it
    is 400, when the save of [generateAuthToken] is refused after the
    insert. *)
Theorem registration_stores_only_hashes req d time :
  let s := run (post_users req) (request_at d time) in
  (status <$> res s = Some 400 ∧ db s = d) ∨
  (∃ id u, users d !! id = None ∧
           db s = mkDB (<[id := u]> (users d)) (tasks d) ∧
           (∃ p, UserDoc.password u = bcrypt_hash p) ∧
           (status <$> res s = Some 201 ∨ status <$> res s = Some 400) ∧
           (status <$> res s = Some 201 -> jwt_sign id ∈ UserDoc.tokens u)).
Proof.
  intros s. subst s. rewrite post_users_run. cbv zeta.
  set (id := new_user_id _ _). set (doc := new_user_doc _ _).
  set (u1 := inserted_user req time doc).
  destruct (_ ++ _)%list eqn:Herrs; [|by left].
  destruct (users d !! id) eqn:Hfree; [by left|].
  destruct (User.email_taken d id (UserDoc.email u1)); [by left|].
  right. exists id.
  apply app_eq_nil in Herrs as [_ Hvalid].
  assert (Hhashed : ∃ p, UserDoc.password u1 = bcrypt_hash p).
  { destruct (new_user_constructed req (request_at d time)) as (_ & Hmod).
    fold doc in Hmod. specialize (Hmod (validate_nil_password _ Hvalid)).
    unfold u1, inserted_user, User.pre_save, isModified.
    rewrite bool_decide_eq_true_2 by done. by eexists. }
  destruct (issue_first_token_run id u1
              (mkDB (<[id := u1]> (users d)) (tasks d)) time) as [Hok Hbad].
  destruct (User.validate u1) eqn:Hv1.
  - rewrite (Hok eq_refl). eexists.
    cbn [answered db res users tasks fmap option_fmap option_map status].
    rewrite insert_insert_eq.
    split_and!; [done | reflexivity | exact Hhashed | by left |].
    intros _. cbn [UserDoc.tokens UserDoc.set_updatedAt UserDoc.set_tokens].
    apply elem_of_app. right. by left.
  - destruct Hbad as [Hstatus Hdb]; [done|]. rewrite Hstatus, Hdb.
    exists u1. split_and!; [done | reflexivity | exact Hhashed | by right | discriminate].
Qed.

Lemma User_init_email_value v e doc :
  cast_string v = Some e ->
  UserDoc.email (fields (User_init "email" v doc))
    = JsString.toLowerCase (JsString.trim e).
Proof.
  intros Hcast. unfold User_init.
  repeat (destruct (decide ("email" = _)) as [?|_]; [discriminate|]).
  by apply User_set_email_value.
Qed.

Lemma User_init_other_email k v doc :
  k ≠ "email" ->
  UserDoc.email (fields (User_init k v doc)) = UserDoc.email (fields doc).
Proof.
  intros Hne. unfold User_init, assign_cast, assign.
  repeat (destruct (decide (k = _)); [subst k|]);
    repeat match goal with
           | |- context [match ?c with Some _ => _ | None => _ end] => destruct c
           | |- context [decide ?P] => destruct (decide P)
           end; try reflexivity.
  by apply User_set_other_email.
Qed.

(** X18. Registration with an email that, trimmed and lower-cased, is
    already the email of a stored user is answered 400 and stores
    nothing. *)
Theorem registration_with_taken_email_is_refused req d time v e other u2 :
  req_body req !! "email" = Some v ->
  cast_string v = Some e ->
  users d !! other = Some u2 ->
  UserDoc.email u2 = JsString.toLowerCase (JsString.trim e) ->
  status <$> res (run (post_users req) (request_at d time)) = Some 400 ∧
  db (run (post_users req) (request_at d time)) = d.
Proof.
  intros Hbody Hcast Hother Hsame. rewrite post_users_run. cbv zeta.
  set (id := new_user_id _ _). set (doc := new_user_doc _ _).
  assert (Hem : UserDoc.email (fields doc) = JsString.toLowerCase (JsString.trim e)).
  { apply (apply_updates_get User_init (fun d => UserDoc.email (fields d))
             (req_body req) "email" v); [done | |].
    - intros d0. by apply User_init_email_value.
    - intros k v' d0 Hk. by apply User_init_other_email. }
  destruct (_ ++ _)%list; [|done].
  destruct (users d !! id) eqn:Hfree; [done|].
  assert (Htaken : User.email_taken d id (UserDoc.email (inserted_user req time doc)) = true).
  { apply (email_taken_true d id _ other u2 Hother); [congruence|].
    unfold inserted_user, User.pre_save. cbn [UserDoc.email].
    destruct (isModified doc "password");
      cbn [fields UserDoc.email UserDoc.set_password]; by rewrite Hem. }
  by rewrite Htaken.
Qed.

Ltac case_init :=
  unfold User_init, User.set, assign_cast, assign;
  repeat match goal with
         | |- context [decide (?a = ?b)] =>
             destruct (decide (a = b)) as [?|?]; [try discriminate; try subst|]
         | H : ?c = Some _ |- context [match ?c with Some _ => _ | None => _ end] =>
             rewrite H
         | |- context [match ?c with Some _ => _ | None => _ end] => destruct c
         end;
  try done.

Lemma User_init_name_value v n doc :
  cast_string v = Some n ->
  UserDoc.name (fields (User_init "name" v doc)) = JsString.trim n.
Proof. intros Hcast. case_init. Qed.

Lemma User_init_password_value v p doc :
  cast_string v = Some p ->
  UserDoc.password (fields (User_init "password" v doc)) = JsString.trim p.
Proof. intros Hcast. case_init. Qed.

Lemma User_init_other_name k v doc :
  k ≠ "name" -> UserDoc.name (fields (User_init k v doc)) = UserDoc.name (fields doc).
Proof. intros Hne. case_init. Qed.

Lemma User_init_other_password k v doc :
  k ≠ "password" ->
  UserDoc.password (fields (User_init k v doc)) = UserDoc.password (fields doc).
Proof. intros Hne. case_init. Qed.

Lemma User_init_other_age k v doc :
  k ≠ "age" -> UserDoc.age (fields (User_init k v doc)) = UserDoc.age (fields doc).
Proof. intros Hne. case_init. Qed.

Lemma User_init_other_tokens k v doc :
  k ≠ "tokens" ->
  UserDoc.tokens (fields (User_init k v doc)) = UserDoc.tokens (fields doc).
Proof. intros Hne. case_init. Qed.

Lemma User_init_other_avatar k v doc :
  k ≠ "avatar" ->
  UserDoc.avatar (fields (User_init k v doc)) = UserDoc.avatar (fields doc).
Proof. intros Hne. case_init. Qed.

Lemma validate_ext u u' :
  UserDoc.name u = UserDoc.name u' -> UserDoc.email u = UserDoc.email u' ->
  UserDoc.password u = UserDoc.password u' -> UserDoc.age u = UserDoc.age u' ->
  User.validate u = User.validate u'.
Proof. unfold User.validate. by intros -> -> -> ->. Qed.

Lemma email_taken_false d id e :
  (∀ id' u', users d !! id' = Some u' -> UserDoc.email u' ≠ e) ->
  User.email_taken d id e = false.
Proof.
  intros Hfree. unfold User.email_taken.
  destruct (existsb _ _) eqn:Hex; [|reflexivity].
  apply existsb_exists in Hex as ([id' u'] & Hin & Htest).
  apply list_elem_of_In, elem_of_map_to_list in Hin.
  apply andb_true_iff in Htest as [_ He]. apply String.eqb_eq in He.
  destruct (Hfree id' u' Hin He).
Qed.

(** X19. Registration round trip.  For a body with a [name], an
    [email] and a [password] that cast to strings and pass the
    validators once trimmed (the email also lower-cased), and none of
    [age], [tokens], [avatar], [_id], [createdAt], [updatedAt]; a
    generated [_id] that is free; an email no stored user has; a hash
    that itself passes the password validators; and a [jwt.verify] that
    accepts what [jwt.sign] made: the answer is 201 with the public
    user and a token; the stored user has the normalised name and
    email, the hash of the trimmed password, age 0 and that one token;
    its [createdAt] is the time of the first save and its [updatedAt]
    the time, no earlier, of the save of [generateAuthToken]; and a
    request that carries the token passes the auth gate. *)
Theorem registration_issues_a_working_token req d time vn n ve e vp p :
  req_body req !! "name" = Some vn -> cast_string vn = Some n ->
  req_body req !! "email" = Some ve -> cast_string ve = Some e ->
  req_body req !! "password" = Some vp -> cast_string vp = Some p ->
  (∀ key, key ∈ ["age"; "tokens"; "avatar"; "_id"; "createdAt"; "updatedAt"] ->
          req_body req !! key = None) ->
  let id := ObjectId_generate (request_at d time) in
  let email := JsString.toLowerCase (JsString.trim e) in
  users d !! id = None ->
  (∀ id' u', users d !! id' = Some u' -> UserDoc.email u' ≠ email) ->
  User.validate (UserDoc.mk (JsString.trim n) email (JsString.trim p) 0 [] None 0 0) = [] ->
  let inserted := UserDoc.mk (JsString.trim n) email (bcrypt_hash (JsString.trim p)) 0
                             [] None time time in
  let time2 := time + clock_elapsed
                        (request_at (mkDB (<[id := inserted]> (users d)) (tasks d)) time) in
  let stored := UserDoc.mk (JsString.trim n) email (bcrypt_hash (JsString.trim p)) 0
                           [jwt_sign id] None time time2 in
  User.validate stored = [] ->
  jwt_verify (jwt_sign id) = Some id ->
  let d' := mkDB (<[id := stored]> (users d)) (tasks d) in
  run (post_users req) (request_at d time)
    = answered d' time2 201
        (BJson (JObj {[ "user" := JObj (User.toJSON (hydrate id stored));
                        "newToken" := JStr (jwt_sign id) ]})) ∧
  time <= time2 ∧
  ∀ req', req_header req' "Authorization" = Some ("Bearer " ++ jwt_sign id) ->
          Authenticated req' d' id stored (jwt_sign id).
Proof.
  intros Hn Hcn He Hce Hp Hcp Habsent id email Hfree Huntaken Hplain inserted time2
         stored Hstored Hjwt d'.
  assert (Hage : req_body req !! "age" = None) by (apply Habsent; compute_done).
  assert (Htokens : req_body req !! "tokens" = None) by (apply Habsent; compute_done).
  assert (Havatar : req_body req !! "avatar" = None) by (apply Habsent; compute_done).
  assert (Hid : req_body req !! "_id" = None) by (apply Habsent; compute_done).
  assert (Hcreated : req_body req !! "createdAt" = None) by (apply Habsent; compute_done).
  assert (Hupdated : req_body req !! "updatedAt" = None) by (apply Habsent; compute_done).
  split; [|split; [unfold time2; lia|]].
  - rewrite post_users_run. cbv zeta.
    assert (Hnew : new_user_id req (request_at d time) = id)
      by (unfold new_user_id; by rewrite Hid).
    rewrite Hnew.
    set (doc := new_user_doc req (request_at d time)).
    assert (Herr : castErrors doc = []).
    { unfold doc, new_user_doc, cast_failures. rewrite Hid, Hcreated, Hupdated.
      apply apply_updates_ind; [reflexivity|].
      intros key val d0 Hkey Hnone. unfold User_init, User.set, assign_cast, assign.
      repeat match goal with
             | |- context [decide (key = ?b)] =>
                 destruct (decide (key = b)) as [->|?]; [try congruence|]
             end; try done;
        match goal with
        | H : req_body req !! ?k = Some ?v, H' : cast_string ?v = Some _
          |- context [cast_string val] =>
            replace val with v by congruence; rewrite H'
        end; by destruct (decide _). }
    assert (Hname : UserDoc.name (fields doc) = JsString.trim n).
    { apply (apply_updates_get User_init (fun d => UserDoc.name (fields d))
               (req_body req) "name" vn); [done | |].
      - intros d0. by apply User_init_name_value.
      - intros k v' d0 Hk. by apply User_init_other_name. }
    assert (Hemail : UserDoc.email (fields doc) = email).
    { apply (apply_updates_get User_init (fun d => UserDoc.email (fields d))
               (req_body req) "email" ve); [done | |].
      - intros d0. by apply User_init_email_value.
      - intros k v' d0 Hk. by apply User_init_other_email. }
    assert (Hpassword : UserDoc.password (fields doc) = JsString.trim p).
    { apply (apply_updates_get User_init (fun d => UserDoc.password (fields d))
               (req_body req) "password" vp); [done | |].
      - intros d0. by apply User_init_password_value.
      - intros k v' d0 Hk. by apply User_init_other_password. }
    assert (Hage' : UserDoc.age (fields doc) = 0%Z).
    { apply (apply_updates_get_absent User_init (fun d => UserDoc.age (fields d))
               (req_body req) "age"); [done|].
      intros k v' d0 Hk. by apply User_init_other_age. }
    assert (Htokens' : UserDoc.tokens (fields doc) = []).
    { apply (apply_updates_get_absent User_init (fun d => UserDoc.tokens (fields d))
               (req_body req) "tokens"); [done|].
      intros k v' d0 Hk. by apply User_init_other_tokens. }
    assert (Havatar' : UserDoc.avatar (fields doc) = None).
    { apply (apply_updates_get_absent User_init (fun d => UserDoc.avatar (fields d))
               (req_body req) "avatar"); [done|].
      intros k v' d0 Hk. by apply User_init_other_avatar. }
    assert (Hvalid : User.validate (fields doc) = []).
    { rewrite <- Hplain. by apply validate_ext. }
    assert (Hmod : isModified doc "password" = true).
    { apply bool_decide_eq_true.
      destruct (new_user_constructed req (request_at d time)) as (_ & Hmod).
      apply Hmod. by apply validate_nil_password. }
    assert (Hu1 : inserted_user req time doc
                  = UserDoc.mk (JsString.trim n) email (bcrypt_hash (JsString.trim p)) 0
                               [] None time time).
    { unfold inserted_user, User.pre_save. rewrite Hmod, Hcreated.
      cbn [fields UserDoc.name UserDoc.email UserDoc.password UserDoc.age
           UserDoc.tokens UserDoc.avatar UserDoc.set_password mbind option_bind default].
      by rewrite Hname, Hemail, Hpassword, Hage', Htokens', Havatar'. }
    rewrite Herr, Hvalid, Hu1. cbn [fmap list_fmap app]. rewrite Hfree.
    cbn [UserDoc.email]. rewrite (email_taken_false d id email Huntaken).
    destruct (issue_first_token_run id
                (UserDoc.mk (JsString.trim n) email (bcrypt_hash (JsString.trim p)) 0
                            [] None time time)
                (mkDB (<[id := UserDoc.mk (JsString.trim n) email
                                  (bcrypt_hash (JsString.trim p)) 0 [] None time time]>
                         (users d)) (tasks d)) time) as [Hok _].
    rewrite Hok by exact Hstored.
    cbn [users tasks]. rewrite insert_insert_eq. reflexivity.
  - intros req' Hheader. split_and!.
    + unfold bearer_token. rewrite Hheader. simpl. f_equal.
      apply (replace_prefix "Bearer " "").
    + exact Hjwt.
    + apply lookup_insert_eq.
    + by left.
Qed.

End CreationProperties.

Section QueryProperties.
Context `{L : Libs}.

(** *** The order and the pages of the task list *)

Lemma compare_by_antisym field a b :
  Task.compare_by field b a = CompOpp (Task.compare_by field a b).
Proof.
  unfold Task.compare_by.
  repeat destruct (decide _);
    auto using String.compare_antisym, Nat.compare_antisym.
  by destruct (TaskDoc.completed a.2), (TaskDoc.completed b.2).
Qed.

Lemma in_order_total field dir a b :
  Task.in_order field dir a b = false -> Task.in_order field dir b a = true.
Proof.
  unfold Task.in_order. destruct (dir <? 0)%Z.
  - rewrite (compare_by_antisym field b a). by destruct (Task.compare_by field b a).
  - rewrite (compare_by_antisym field a b). by destruct (Task.compare_by field a b).
Qed.

Lemma insert_sorted_Sorted {A} (le : A -> A -> bool) x l :
  (∀ a b, le a b = false -> le b a = true) ->
  Sorted (fun a b => le a b = true) l ->
  Sorted (fun a b => le a b = true) (Task.insert_sorted le x l).
Proof.
  intros Htotal. induction l as [|y l IH]; intros Hsorted; simpl.
  - by repeat constructor.
  - destruct (le x y) eqn:Hxy.
    + constructor; [done | by constructor].
    + apply Sorted_inv in Hsorted as [Hsorted Hhd].
      constructor; [by apply IH|].
      destruct l as [|z l]; simpl.
      * constructor. by apply Htotal.
      * destruct (le x z); constructor; [by apply Htotal|].
        by apply HdRel_inv in Hhd.
Qed.

Lemma sort_by_Sorted {A} (le : A -> A -> bool) l :
  (∀ a b, le a b = false -> le b a = true) ->
  Sorted (fun a b => le a b = true) (Task.sort_by le l).
Proof.
  intros Htotal. unfold Task.sort_by.
  induction l as [|x l IH]; simpl; [constructor|].
  by apply insert_sorted_Sorted.
Qed.

Lemma Sorted_drop {A} (R : relation A) n l : Sorted R l -> Sorted R (drop n l).
Proof.
  revert l. induction n as [|n IH]; intros l Hsorted; [by rewrite drop_0|].
  destruct l as [|x l]; [constructor|].
  simpl. apply IH. by apply Sorted_inv in Hsorted as [? _].
Qed.

Lemma Sorted_take {A} (R : relation A) n l : Sorted R l -> Sorted R (take n l).
Proof.
  revert l. induction n as [|n IH]; intros l Hsorted; [constructor|].
  destruct l as [|x l]; [constructor|].
  apply Sorted_inv in Hsorted as [Hsorted Hhd]. simpl.
  constructor; [by apply IH|].
  destruct l as [|y l]; [by destruct n; constructor|].
  apply HdRel_inv in Hhd. destruct n; simpl; by constructor.
Qed.

Lemma apply_limit_Sorted {A} (R : relation A) lim l :
  Sorted R l -> Sorted R (Task.apply_limit lim l).
Proof.
  intros Hsorted. unfold Task.apply_limit. destruct lim as [n|]; [|done].
  destruct (n =? 0)%Z; [done | by apply Sorted_take].
Qed.

Lemma in_order_createdAt dir a b :
  Task.in_order "createdAt" dir a b = true -> createdAt_order dir a b.
Proof.
  unfold Task.in_order, createdAt_order, Task.compare_by.
  repeat (destruct (decide ("createdAt" = _)) as [?|_]; [discriminate|]).
  destruct (decide ("createdAt" = "createdAt")); [|done].
  destruct (dir <? 0)%Z;
    destruct (Nat.compare_spec (TaskDoc.createdAt b.2) (TaskDoc.createdAt a.2));
    destruct (Nat.compare_spec (TaskDoc.createdAt a.2) (TaskDoc.createdAt b.2));
    intros; try discriminate; lia.
Qed.

Lemma createdAt_order_trans dir a b c :
  createdAt_order dir a b -> createdAt_order dir b c -> createdAt_order dir a c.
Proof. unfold createdAt_order. destruct (dir <? 0)%Z; lia. Qed.

Lemma Sorted_impl {A} (R R' : relation A) l :
  (∀ a b, R a b -> R' a b) -> Sorted R l -> Sorted R' l.
Proof.
  intros Himpl. induction 1 as [|x l Hsorted IH Hhd]; constructor; [done|].
  destruct Hhd; constructor. by apply Himpl.
Qed.

(** X20. With a [sortBy], whenever [GET /tasks] answers with a list
    of tasks the list is in the order asked for: each task is in order
    with the next one for the field and the direction read from
    [sortBy].  For [createdAt] this is the whole sequence ascending, or
    descending when the direction is [desc]: each task was created no
    later (no earlier) than all that follow. *)
Theorem task_list_is_in_the_requested_order req d time uid u token field dir code l :
  Authenticated req d uid u token ->
  tasks_sort req = Some (field, dir) ->
  res (run (get_tasks req) (request_at d time)) = Some (mkResponse code (BTasks l)) ->
  Sorted (fun a b => Task.in_order field dir a b = true) l ∧
  (field = "createdAt" -> StronglySorted (createdAt_order dir) l).
Proof.
  intros HA Hsort. rewrite (get_tasks_run _ _ _ _ _ _ HA). rewrite Hsort.
  set (docs := matched_sorted d uid (tasks_match req) (Some (field, dir))).
  assert (Hdocs : Sorted (fun a b => Task.in_order field dir a b = true) docs).
  { unfold docs, matched_sorted. apply sort_by_Sorted, in_order_total. }
  assert (Hstrong : ∀ l, Sorted (fun a b => Task.in_order field dir a b = true) l ->
            field = "createdAt" -> StronglySorted (createdAt_order dir) l).
  { intros l' Hl ->. apply Sorted_StronglySorted.
    { intros a b c. apply createdAt_order_trans. }
    revert Hl. apply Sorted_impl. intros a b. apply in_order_createdAt. }
  destruct (JsString.parseInt (req_query req !! "skip")) as [n|] eqn:Hskip.
  - destruct (n <? 0)%Z eqn:Hneg; [discriminate|].
    intros [= <- <-].
    assert (Hl : Sorted (fun a b => Task.in_order field dir a b = true)
                   (Task.apply_limit (JsString.parseInt (req_query req !! "limit"))
                      (drop (Z.to_nat n) docs)))
      by (by apply apply_limit_Sorted, Sorted_drop).
    split; [exact Hl | by apply Hstrong].
  - intros [= <- <-].
    assert (Hl : Sorted (fun a b => Task.in_order field dir a b = true)
                   (Task.apply_limit (JsString.parseInt (req_query req !! "limit")) docs))
      by (by apply apply_limit_Sorted).
    split; [exact Hl | by apply Hstrong].
Qed.

(** X21. With a [completed] that is neither empty nor [true] (for
    instance [false], [TRUE], [1] or [yes]), every task of the answer
    is one that is not completed. *)
Theorem other_completed_values_select_open_tasks req d time uid u token v :
  Authenticated req d uid u token ->
  req_query req !! "completed" = Some v ->
  v ≠ "" -> v ≠ "true" ->
  (∃ n, JsString.parseInt (req_query req !! "skip") = Some n ∧ (n < 0)%Z ∧
        run (get_tasks req) (request_at d time) = answered d time 500 BEmpty) ∨
  (∃ l, run (get_tasks req) (request_at d time) = answered d time 200 (BTasks l) ∧
        ∀ id k, (id, k) ∈ l -> TaskDoc.completed k = false).
Proof.
  intros HA Hv Hne Hnt. rewrite (get_tasks_run _ _ _ _ _ _ HA).
  assert (Hmatch : tasks_match req = Some false).
  { unfold tasks_match. rewrite Hv. unfold JsString.truthy.
    destruct (String.eqb_spec v ""); [contradiction|]. cbn [negb]. f_equal.
    apply bool_decide_eq_false. by intros [= ->]. }
  rewrite Hmatch.
  set (docs := matched_sorted d uid (Some false) (tasks_sort req)).
  assert (Hopen : ∀ n id k,
            (id, k) ∈ Task.apply_limit (JsString.parseInt (req_query req !! "limit"))
                        (drop n docs) -> TaskDoc.completed k = false).
  { intros n id k Hin. apply apply_limit_subseteq, subseteq_drop in Hin.
    apply matched_sorted_elem in Hin as (_ & _ & Hb). by apply Hb. }
  destruct (JsString.parseInt (req_query req !! "skip")) as [n|] eqn:Hskip.
  - destruct (n <? 0)%Z eqn:Hneg.
    + left. exists n. split_and!; [done | lia | done].
    + right. eexists. split; [reflexivity | apply Hopen].
  - right. eexists. split; [reflexivity | apply (Hopen 0%nat)].
Qed.

End QueryProperties.

Section ParsingProperties.
Context `{L : Libs}.

(** *** Numbers and sort keys in the query string *)

Lemma parseInt_decimal n : JsString.parseInt (Some (decimal n)) = Some (Z.of_nat n).
Proof.
  destruct (parseInt_string_decimal n "") as [Hn _]; [done|].
  unfold JsString.parseInt. cbn [default].
  by rewrite append_nil_r in Hn.
Qed.

Lemma page_request_authenticated k n req d uid u token :
  Authenticated req d uid u token -> Authenticated (page_request k n req) d uid u token.
Proof. intros HA. exact HA. Qed.

Lemma page_request_run k n req d time uid u token :
  Authenticated req d uid u token ->
  (0 < n)%nat ->
  page_of (run (get_tasks (page_request k n req)) (request_at d time))
    = take n (drop k (matched_sorted d uid (tasks_match req) (tasks_sort req))).
Proof.
  intros HA Hn.
  rewrite (get_tasks_run _ _ _ _ _ _ (page_request_authenticated k n _ _ _ _ _ HA)).
  assert (Hskip : req_query (page_request k n req) !! "skip" = Some (decimal k)).
  { unfold page_request, with_query. cbn [req_query].
    rewrite lookup_insert_ne by done. by rewrite lookup_insert. }
  assert (Hlimit : req_query (page_request k n req) !! "limit" = Some (decimal n)).
  { unfold page_request, with_query. cbn [req_query]. by rewrite lookup_insert. }
  rewrite Hskip, Hlimit, !parseInt_decimal.
  rewrite (tasks_match_other_key req (page_request k n req)),
          (tasks_sort_other_key req (page_request k n req)).
  2,3: unfold page_request, with_query; cbn [req_query];
       by rewrite !lookup_insert_ne by done.
  destruct (Z.ltb_spec (Z.of_nat k) 0); [lia|].
  unfold answered, page_of, Task.apply_limit. cbn [res].
  destruct (Z.eqb_spec (Z.of_nat n) 0); [lia|].
  by rewrite Nat2Z.id, Zabs2Nat.id.
Qed.

(** X23. Pages tile the task list.  Asking for [n] tasks after the
    first [k] returns at most [n], and the page that starts where this
    one ends continues it: the two together are the page of [n + m]
    tasks after the first [k]. *)
Theorem task_pages_tile req d time uid u token k n m :
  Authenticated req d uid u token ->
  (0 < n)%nat -> (0 < m)%nat ->
  let page k n := page_of (run (get_tasks (page_request k n req)) (request_at d time)) in
  (length (page k n) <= n)%nat ∧
  (page k n ++ page (k + n)%nat m)%list = page k (n + m)%nat.
Proof.
  intros HA Hn Hm. cbv beta zeta.
  rewrite !(page_request_run _ _ _ _ _ _ _ _ HA) by lia.
  split.
  - rewrite length_take. lia.
  - rewrite <- (drop_drop _ n k). apply take_take_drop.
Qed.





End ParsingProperties.

Section AvatarProperties.
Context `{L : Libs}.

(** *** The public avatar route *)




End AvatarProperties.

(** ** The theorems at concrete requests

    The store [Toy.store]: Ann (u1) owns t1 and t2, Bob (u2) owns t3. *)

Lemma ann_authenticated id query body :
  Authenticated (L:=Toy.libs) (Toy.ann_request id query body) Toy.store "u1" Toy.ann "jwt.u1".
Proof. split_and!; [by vm_compute | by vm_compute | by vm_compute | by left]. Defined.

Lemma ann_valid : User.validate (L:=Toy.libs) Toy.ann = [].
Proof. by vm_compute. Defined.

Lemma eve_unregistered :
  email_unregistered Toy.store
    (fun stored => String.eqb stored (JsString.toLowerCase (JsString.trim " Eve@Example.com"))).
Proof.
  intros id u Hu. unfold Toy.store in Hu. cbn [users] in Hu.
  apply lookup_insert_Some in Hu as [[_ <-]|[_ Hu]]; [by vm_compute|].
  apply lookup_singleton_Some in Hu as [_ <-]. by vm_compute.
Defined.

Lemma ann_wrong_password :
  password_mismatch (L:=Toy.libs) Toy.store
    (fun stored => String.eqb stored (JsString.toLowerCase (JsString.trim "ANN@example.com ")))
    (Some (JStr "wrong horse")).
Proof.
  split.
  - exists "u1", Toy.ann. split; [reflexivity | by vm_compute].
  - intros id u Hu He. unfold Toy.store in Hu. cbn [users] in Hu.
    apply lookup_insert_Some in Hu as [[_ <-]|[_ Hu]]; [by vm_compute|].
    apply lookup_singleton_Some in Hu as [_ <-]. vm_compute in He. discriminate He.
Defined.

Lemma t3_is_not_anns : no_owned_task Toy.store "u1" "t3".
Proof. intros k Hk. vm_compute in Hk. injection Hk as <-. discriminate. Defined.

(** C1 as the specification states it fails here: the email of the
    request is an object that is no condition, so it is the email of no
    registered user; the login fails with status 400, but its body is
    the cast error, not the empty object a wrong password is answered
    with. *)
Lemma login_with_uncastable_email_shows_the_cast_error :
  let req := Toy.request ∅ "" ∅ {[ "email" := JObj {[ "a" := JNum 1 ]};
                                   "password" := JStr "correct horse" ]} in
  let wrong := Toy.login_request "ann@example.com" "wrong horse" in
  (∀ id u, users Toy.store !! id = Some u ->
           req_body req !! "email" ≠ Some (JStr (UserDoc.email u))) ∧
  status <$> res (run (post_users_login (L:=Toy.libs) req) (request_at Toy.store 10))
    = Some 400 ∧
  status <$> res (run (post_users_login (L:=Toy.libs) wrong) (request_at Toy.store 10))
    = Some 400 ∧
  body <$> res (run (post_users_login (L:=Toy.libs) wrong) (request_at Toy.store 10))
    = Some (BJson (JObj ∅)) ∧
  body <$> res (run (post_users_login (L:=Toy.libs) req) (request_at Toy.store 10))
    ≠ Some (BJson (JObj ∅)).
Proof.
  split_and!; [| by vm_compute | by vm_compute | by vm_compute |].
  - intros id u _. vm_compute. discriminate.
  - vm_compute. discriminate.
Qed.

Lemma login_failure_is_undifferentiated_witness :
  res (run (post_users_login (L:=Toy.libs)
              (Toy.login_request " Eve@Example.com" "correct horse"))
           (request_at Toy.store 10))
    = res (run (post_users_login (L:=Toy.libs)
                  (Toy.login_request "ANN@example.com " "wrong horse"))
               (request_at Toy.store 11)).
Proof.
  assert (Hemail1 : User.email_condition (L:=Toy.libs)
                      (req_body (Toy.login_request " Eve@Example.com" "correct horse")
                         !! "email")
                    = Some (fun stored => String.eqb stored
                              (JsString.toLowerCase (JsString.trim " Eve@Example.com"))))
    by (by vm_compute).
  assert (Hemail2 : User.email_condition (L:=Toy.libs)
                      (req_body (Toy.login_request "ANN@example.com " "wrong horse")
                         !! "email")
                    = Some (fun stored => String.eqb stored
                              (JsString.toLowerCase (JsString.trim "ANN@example.com "))))
    by (by vm_compute).
  assert (Hpass2 : req_body (Toy.login_request "ANN@example.com " "wrong horse") !! "password"
                   = Some (JStr "wrong horse")) by (by vm_compute).
  assert (Hemail3 : User.email_condition (L:=Toy.libs)
                      (req_body (Toy.request ∅ "" ∅ {[ "email" := JObj {[ "a" := JNum 1 ]} ]})
                         !! "email") = None)
    by (by vm_compute).
  pose proof ann_wrong_password as Hwrong. rewrite <- Hpass2 in Hwrong.
  destruct (login_failure_is_undifferentiated (L:=Toy.libs)
              (Toy.login_request " Eve@Example.com" "correct horse") Toy.store 10 _
              (Toy.login_request "ANN@example.com " "wrong horse") Toy.store 11 _
              (Toy.request ∅ "" ∅ {[ "email" := JObj {[ "a" := JNum 1 ]} ]}) Toy.store 12
              Hemail1 eve_unregistered Hemail2 Hwrong Hemail3)
    as (_ & _ & Hsame & _).
  exact Hsame.
Defined.

Lemma auth_failure_is_one_outcome_witness :
  AuthFailure (L:=Toy.libs) (Toy.request ∅ "" ∅ ∅) Toy.store ∧
  run (get_users_me (L:=Toy.libs) (Toy.request ∅ "" ∅ ∅)) (request_at Toy.store 10)
    = answered Toy.store 10 401 authentication_failed.
Proof.
  assert (HF : AuthFailure (L:=Toy.libs) (Toy.request ∅ "" ∅ ∅) Toy.store)
    by (apply MissingHeader; reflexivity).
  destruct (auth_failure_is_one_outcome (L:=Toy.libs)
              (fun user token req => res_send 200 (BJson (JObj (User.toJSON user))))
              (Toy.request ∅ "" ∅ ∅) Toy.store 10 HF) as [_ Hrun].
  split; [exact HF | exact Hrun].
Defined.

(** C3 as the specification states it fails here: Ann updates t3, which
    is Bob's, so no task matches the id and her as owner; the body has the
    key [owner], and the answer is 400, not 404. *)
Lemma update_with_unknown_key_on_unowned_task_is_400 :
  let req := Toy.ann_request "t3" ∅ {[ "owner" := JStr "u1" ]} in
  Authenticated (L:=Toy.libs) req Toy.store "u1" Toy.ann "jwt.u1" ∧
  no_owned_task Toy.store "u1" "t3" ∧
  status <$> res (run (patch_tasks_id (L:=Toy.libs) req) (request_at Toy.store 10))
    = Some 400 ∧
  status <$> res (run (patch_tasks_id (L:=Toy.libs) req) (request_at Toy.store 10))
    ≠ Some 404.
Proof.
  split_and!; [apply ann_authenticated | exact t3_is_not_anns | by vm_compute | ].
  vm_compute. discriminate.
Qed.

Lemma task_routes_check_id_and_owner_witness :
  run (get_tasks_id (L:=Toy.libs) (Toy.ann_request "t3" ∅ ∅)) (request_at Toy.store 10)
    = answered Toy.store 10 404 BEmpty ∧
  run (delete_tasks_id (L:=Toy.libs) (Toy.ann_request "t3" ∅ ∅)) (request_at Toy.store 10)
    = answered Toy.store 10 404 BEmpty.
Proof.
  assert (Hid : task_id_of (L:=Toy.libs) Toy.store
                  (req_params_id (Toy.ann_request "t3" ∅ ∅)) "t3") by (by vm_compute).
  destruct (task_routes_check_id_and_owner (L:=Toy.libs) (Toy.ann_request "t3" ∅ ∅)
              Toy.store 10 "u1" Toy.ann "jwt.u1" (ann_authenticated "t3" ∅ ∅))
    as [Hnone _].
  destruct (Hnone "t3" Hid t3_is_not_anns) as (Hget & Hdelete & _).
  split; [exact Hget | exact Hdelete].
Defined.

Lemma update_with_unknown_key_is_rejected_witness :
  run (patch_users_me (L:=Toy.libs) (Toy.ann_request "" ∅ {[ "tokens" := JArr [] ]}))
      (request_at Toy.store 10)
    = answered Toy.store 10 400 (BJson (JObj {[ "error" :=
        JStr "You are trying to update a User property that is not allowed or doesn't exist" ]})).
Proof.
  assert (Hkey : is_Some (req_body (Toy.ann_request "" ∅ {[ "tokens" := JArr [] ]}) !! "tokens"))
    by (exists (JArr []); by vm_compute).
  assert (Hnot : "tokens" ∉ ["name"; "email"; "password"; "age"]).
  { intros Hin. repeat (apply elem_of_cons in Hin as [Hin|Hin]; [discriminate|]).
    by apply elem_of_nil in Hin. }
  destruct (update_with_unknown_key_is_rejected (L:=Toy.libs)
              (Toy.ann_request "" ∅ {[ "tokens" := JArr [] ]}) Toy.store 10
              "u1" Toy.ann "jwt.u1" "tokens" (ann_authenticated _ _ _) Hkey)
    as [Huser _].
  exact (Huser Hnot).
Defined.

Lemma task_list_is_the_callers_witness :
  (∃ n, JsString.parseInt (req_query (Toy.ann_request "" {[ "completed" := "true" ]} ∅) !! "skip")
          = Some n ∧ (n < 0)%Z ∧
        run (get_tasks (L:=Toy.libs) (Toy.ann_request "" {[ "completed" := "true" ]} ∅))
            (request_at Toy.store 10) = answered Toy.store 10 500 BEmpty) ∨
  (∃ l, run (get_tasks (L:=Toy.libs) (Toy.ann_request "" {[ "completed" := "true" ]} ∅))
            (request_at Toy.store 10) = answered Toy.store 10 200 (BTasks l) ∧
        (∀ id k, (id, k) ∈ l -> tasks Toy.store !! id = Some k ∧ TaskDoc.owner k = "u1") ∧
        (∀ id k, (id, k) ∈ l -> TaskDoc.completed k = true)).
Proof.
  destruct (task_list_is_the_callers (L:=Toy.libs)
              (Toy.ann_request "" {[ "completed" := "true" ]} ∅)
              Toy.store 10 "u1" Toy.ann "jwt.u1" (ann_authenticated _ _ _))
    as [Hfail | (l & Hrun & Howned & Hcompleted & _)].
  - left. exact Hfail.
  - right. exists l. split_and!; [exact Hrun | exact Howned | ].
    apply Hcompleted. by vm_compute.
Defined.



Lemma account_deletion_cascades_witness :
  owned_tasks (db (run (delete_users_me (L:=Toy.libs) (Toy.ann_request "" ∅ ∅))
                       (request_at Toy.store 10))) "u1" = [].
Proof.
  destruct (account_deletion_cascades (L:=Toy.libs) (Toy.ann_request "" ∅ ∅) Toy.store 10
              "u1" Toy.ann "jwt.u1" (ann_authenticated _ _ _))
    as (_ & _ & _ & _ & Hempty & _).
  exact Hempty.
Defined.

Lemma toJSON_omits_private_fields_witness :
  User.toJSON (hydrate "u1" Toy.ann) !! "password" = None ∧
  User.toJSON (hydrate "u1" Toy.ann) !! "tokens" = None ∧
  User.toJSON (hydrate "u1" Toy.ann) !! "avatar" = None.
Proof.
  destruct (toJSON_omits_private_fields (L:=Toy.libs) (Toy.ann_request "" ∅ ∅) Toy.store 10
              "u1" Toy.ann "jwt.u1" (ann_authenticated _ _ _))
    as (_ & Hpassword & Htokens & Havatar & _).
  split_and!; [exact Hpassword | exact Htokens | exact Havatar].
Defined.

Lemma avatar_delete_is_idempotent_witness :
  let s1 := run (delete_users_me_avatar (L:=Toy.libs) (Toy.ann_request "" ∅ ∅))
                (request_at Toy.store 10) in
  let s2 := run (delete_users_me_avatar (L:=Toy.libs) (Toy.ann_request "" ∅ ∅))
                (request_at (db s1) 20) in
  res s1 = Some (mkResponse 200 avatar_deleted) ∧
  res s2 = Some (mkResponse 200 avatar_deleted) ∧
  db s2 = db s1.
Proof.
  destruct (avatar_delete_is_idempotent (L:=Toy.libs) (Toy.ann_request "" ∅ ∅) Toy.store
              10 20 "u1" Toy.ann "jwt.u1" (ann_authenticated _ _ _) ann_valid)
    as (H1 & H2 & Hdb & _).
  split_and!; [exact H1 | exact H2 | exact Hdb].
Defined.

Lemma empty_update_changes_nothing_witness :
  run (patch_users_me (L:=Toy.libs) (Toy.ann_request "t1" ∅ ∅)) (request_at Toy.store 10)
    = answered Toy.store 10 200 (BJson (JObj (User.toJSON (hydrate "u1" Toy.ann)))) ∧
  run (patch_tasks_id (L:=Toy.libs) (Toy.ann_request "t1" ∅ ∅)) (request_at Toy.store 10)
    = answered Toy.store 10 200 (BTask "t1" (TaskDoc.mk "write" false "u1" 3 3)).
Proof.
  destruct (empty_update_changes_nothing (L:=Toy.libs) (Toy.ann_request "t1" ∅ ∅) Toy.store
              10 "u1" Toy.ann "jwt.u1" (ann_authenticated _ _ _) eq_refl)
    as [Huser Htask].
  split; [exact (Huser ann_valid) | ].
  apply Htask; by vm_compute.
Defined.

(** ** The further properties at concrete requests

    The same store; new identities are [new] and the time of the
    request ([ToyMongoose.generate]). *)

Lemma ann_is_the_only_ann id u :
  users Toy.store !! id = Some u -> UserDoc.email u = "ann@example.com" -> id = "u1".
Proof.
  intros Hu He. unfold Toy.store in Hu. cbn [users] in Hu.
  apply lookup_insert_Some in Hu as [[<- _]|[_ Hu]]; [reflexivity|].
  apply lookup_singleton_Some in Hu as [_ <-]. discriminate.
Defined.

Lemma bearer_prefix_is_optional_witness :
  Authenticated (L:=Toy.libs)
    (Toy.request {[ "authorization" := "jwt.u1" ]} "" ∅ ∅) Toy.store "u1" Toy.ann "jwt.u1".
Proof.
  assert (Hverify : @jwt_verify Toy.libs "jwt.u1" = Some "u1") by (by vm_compute).
  assert (Hu : users Toy.store !! "u1" = Some Toy.ann) by (by vm_compute).
  assert (Hin : "jwt.u1" ∈ UserDoc.tokens Toy.ann) by (by left).
  assert (Hheader : req_header (Toy.request {[ "authorization" := "jwt.u1" ]} "" ∅ ∅)
                      "Authorization" = Some "jwt.u1") by (by vm_compute).
  assert (Hbare : JsString.includes "Bearer " "jwt.u1" = false) by (by vm_compute).
  exact (bearer_prefix_is_optional (L:=Toy.libs) _ Toy.store "u1" Toy.ann "jwt.u1"
           Hverify Hu Hin (or_intror (conj Hheader Hbare))).
Defined.

Lemma login_issues_a_working_token_witness :
  status <$> res (run (post_users_login (L:=Toy.libs)
                         (Toy.login_request "ANN@example.com " "correct horse"))
                      (request_at Toy.store 10)) = Some 200.
Proof.
  assert (Hemail : req_body (Toy.login_request "ANN@example.com " "correct horse") !! "email"
                   = Some (JStr "ANN@example.com ")) by (by vm_compute).
  assert (Hpass : req_body (Toy.login_request "ANN@example.com " "correct horse") !! "password"
                  = Some (JStr "correct horse")) by (by vm_compute).
  assert (Hu : users Toy.store !! "u1" = Some Toy.ann) by (by vm_compute).
  assert (Hsame : UserDoc.email Toy.ann
                  = JsString.toLowerCase (JsString.trim "ANN@example.com "))
    by (by vm_compute).
  assert (Hcompare : @bcrypt_compare Toy.libs "correct horse" (UserDoc.password Toy.ann) = true)
    by (by vm_compute).
  assert (Hverify : @jwt_verify Toy.libs (@jwt_sign Toy.libs "u1") = Some "u1")
    by (by vm_compute).
  pose proof (login_issues_a_working_token (L:=Toy.libs) _ Toy.store 10 "u1" Toy.ann
                "ANN@example.com " "correct horse"
                Hemail Hpass Hu Hsame ann_is_the_only_ann Hcompare ann_valid Hverify)
    as Hlogin.
  cbv zeta in Hlogin. destruct Hlogin as [Hrun _].
  exact (f_equal (fun s => status <$> res s) Hrun).
Defined.

Lemma logout_revokes_the_token_witness :
  status <$> res (run (post_users_logout (L:=Toy.libs) (Toy.ann_request "" ∅ ∅))
                      (request_at Toy.store 10)) = Some 200.
Proof.
  pose proof (logout_revokes_the_token (L:=Toy.libs) _ Toy.store 10 "u1" Toy.ann "jwt.u1"
                (ann_authenticated "" ∅ ∅) ann_valid) as Hlogout.
  cbv zeta in Hlogout. destruct Hlogout as [Hrun _].
  exact (f_equal (fun s => status <$> res s) Hrun).
Defined.

Lemma logoutAll_revokes_every_token_witness :
  status <$> res (run (post_users_logoutAll (L:=Toy.libs) (Toy.ann_request "" ∅ ∅))
                      (request_at Toy.store 10)) = Some 200.
Proof.
  pose proof (logoutAll_revokes_every_token (L:=Toy.libs) _ Toy.store 10 "u1" Toy.ann "jwt.u1"
                (ann_authenticated "" ∅ ∅) ann_valid) as Hlogout.
  cbv zeta in Hlogout. destruct Hlogout as [Hrun _].
  exact (f_equal (fun s => status <$> res s) Hrun).
Defined.

Lemma deleted_account_cannot_authenticate_witness :
  let d' := db (run (delete_users_me (L:=Toy.libs) (Toy.ann_request "" ∅ ∅))
                    (request_at Toy.store 10)) in
  run (with_auth (L:=Toy.libs) (fun _ _ _ => res_send 200 BEmpty) (Toy.ann_request "" ∅ ∅))
      (request_at d' 11)
    = answered d' 11 401 authentication_failed.
Proof.
  assert (Hbearer : bearer_token (Toy.ann_request "" ∅ ∅) = Some "jwt.u1") by (by vm_compute).
  assert (Hverify : @jwt_verify Toy.libs "jwt.u1" = Some "u1") by (by vm_compute).
  exact (deleted_account_cannot_authenticate (L:=Toy.libs) _ Toy.store 10 "u1" Toy.ann "jwt.u1"
           (ann_authenticated "" ∅ ∅)
           (Toy.ann_request "" ∅ ∅) "jwt.u1" (fun _ _ _ => res_send 200 BEmpty) 11
           Hbearer Hverify).
Defined.

Lemma profile_update_stores_only_hashes_witness :
  ∃ u', users (db (run (patch_users_me (L:=Toy.libs)
                          (Toy.ann_request "" ∅ {[ "password" := JStr "open sesame" ]}))
                       (request_at Toy.store 10))) !! "u1" = Some u' ∧
        (UserDoc.password u' = UserDoc.password Toy.ann ∨
         ∃ p, UserDoc.password u' = @bcrypt_hash Toy.libs p).
Proof.
  exact (profile_update_stores_only_hashes (L:=Toy.libs) _ Toy.store 10 "u1" Toy.ann "jwt.u1"
           (ann_authenticated "" ∅ {[ "password" := JStr "open sesame" ]})).
Defined.

Lemma profile_update_frame_witness :
  tasks (db (run (patch_users_me (L:=Toy.libs)
                    (Toy.ann_request "" ∅ {[ "name" := JStr "Anna" ]}))
                 (request_at Toy.store 10))) = tasks Toy.store.
Proof.
  pose proof (profile_update_frame (L:=Toy.libs) _ Toy.store 10 "u1" Toy.ann "jwt.u1"
                (ann_authenticated "" ∅ {[ "name" := JStr "Anna" ]})) as Hframe.
  cbv zeta in Hframe. destruct Hframe as [Htasks _]. exact Htasks.
Defined.

Lemma profile_update_is_all_or_nothing_witness :
  let s := run (patch_users_me (L:=Toy.libs)
                  (Toy.ann_request "" ∅ {[ "age" := JNum (-1) ]}))
               (request_at Toy.store 10) in
  status <$> res s = Some 200 ∨ status <$> res s = Some 400.
Proof.
  pose proof (profile_update_is_all_or_nothing (L:=Toy.libs) _ Toy.store 10 "u1" Toy.ann "jwt.u1"
                (ann_authenticated "" ∅ {[ "age" := JNum (-1) ]})) as Hatomic.
  cbv zeta in Hatomic. destruct Hatomic as [Hstatus _]. exact Hstatus.
Defined.

Lemma weak_password_is_refused_witness :
  let req := Toy.ann_request "" ∅ {[ "password" := JStr " MyPassWord1 " ]} in
  status <$> res (run (patch_users_me (L:=Toy.libs) req) (request_at Toy.store 10)) = Some 400 ∧
  db (run (patch_users_me (L:=Toy.libs) req) (request_at Toy.store 10)) = Toy.store.
Proof.
  assert (Hpass : req_body (Toy.ann_request "" ∅ {[ "password" := JStr " MyPassWord1 " ]})
                    !! "password" = Some (JStr " MyPassWord1 ")) by (by vm_compute).
  assert (Hcast : @cast_string Toy.libs (JStr " MyPassWord1 ") = Some " MyPassWord1 ")
    by (by vm_compute).
  assert (Hweak : weak_password (JsString.trim " MyPassWord1 ")) by (right; by vm_compute).
  exact (weak_password_is_refused (L:=Toy.libs) _ Toy.store 10 "u1" Toy.ann "jwt.u1"
           (JStr " MyPassWord1 ") " MyPassWord1 "
           (ann_authenticated "" ∅ {[ "password" := JStr " MyPassWord1 " ]})
           Hpass Hcast Hweak).
Defined.

Lemma taken_email_is_refused_witness :
  let req := Toy.ann_request "" ∅ {[ "email" := JStr " Bob@Example.com " ]} in
  status <$> res (run (patch_users_me (L:=Toy.libs) req) (request_at Toy.store 10)) = Some 400 ∧
  db (run (patch_users_me (L:=Toy.libs) req) (request_at Toy.store 10)) = Toy.store.
Proof.
  assert (Hemail : req_body (Toy.ann_request "" ∅ {[ "email" := JStr " Bob@Example.com " ]})
                     !! "email" = Some (JStr " Bob@Example.com ")) by (by vm_compute).
  assert (Hcast : @cast_string Toy.libs (JStr " Bob@Example.com ") = Some " Bob@Example.com ")
    by (by vm_compute).
  assert (Hother : JsString.toLowerCase (JsString.trim " Bob@Example.com ")
                   ≠ UserDoc.email Toy.ann) by (by vm_compute).
  assert (Hbob : users Toy.store !! "u2" = Some Toy.bob) by (by vm_compute).
  assert (Hne : "u2" ≠ "u1") by discriminate.
  assert (Hsame : UserDoc.email Toy.bob = JsString.toLowerCase (JsString.trim " Bob@Example.com "))
    by (by vm_compute).
  exact (taken_email_is_refused (L:=Toy.libs) _ Toy.store 10 "u1" Toy.ann "jwt.u1"
           (JStr " Bob@Example.com ") " Bob@Example.com " "u2" Toy.bob
           (ann_authenticated "" ∅ {[ "email" := JStr " Bob@Example.com " ]})
           Hemail Hcast Hother Hbob Hne Hsame).
Defined.

Lemma task_update_keeps_the_owner_witness :
  ∃ k', tasks (db (run (patch_tasks_id (L:=Toy.libs)
                          (Toy.ann_request "t1" ∅ {[ "completed" := JBool true ]}))
                       (request_at Toy.store 10))) !! "t1" = Some k' ∧
        TaskDoc.owner k' = "u1" ∧ TaskDoc.createdAt k' = 3%nat.
Proof.
  assert (Htask : tasks Toy.store
                    !! req_params_id (Toy.ann_request "t1" ∅ {[ "completed" := JBool true ]})
                  = Some (TaskDoc.mk "write" false "u1" 3 3)) by (by vm_compute).
  pose proof (task_update_keeps_the_owner (L:=Toy.libs) _ Toy.store 10 "u1" Toy.ann "jwt.u1"
                (TaskDoc.mk "write" false "u1" 3 3)
                (ann_authenticated "t1" ∅ {[ "completed" := JBool true ]})
                Htask eq_refl) as Hpatch.
  cbv zeta in Hpatch. destruct Hpatch as (_ & _ & Hkept). exact Hkept.
Defined.

Lemma deleted_task_is_gone_witness :
  let d' := mkDB (users Toy.store) (delete "t1" (tasks Toy.store)) in
  run (get_tasks_id (L:=Toy.libs) (Toy.ann_request "t1" ∅ ∅)) (request_at d' 11)
    = answered d' 11 404 BEmpty.
Proof.
  assert (Htask : tasks Toy.store !! req_params_id (Toy.ann_request "t1" ∅ ∅)
                  = Some (TaskDoc.mk "write" false "u1" 3 3)) by (by vm_compute).
  pose proof (deleted_task_is_gone (L:=Toy.libs) _ Toy.store 10 11 "u1" Toy.ann "jwt.u1"
                (TaskDoc.mk "write" false "u1" 3 3)
                (ann_authenticated "t1" ∅ ∅) Htask eq_refl) as Hdelete.
  assert (Hcast : @cast_ObjectId Toy.libs
                    (JStr (req_params_id (Toy.ann_request "t1" ∅ ∅)))
                  = Some (req_params_id (Toy.ann_request "t1" ∅ ∅))) by (by vm_compute).
  cbv zeta in Hdelete. destruct Hdelete as (_ & Hgone).
  destruct (Hgone Hcast) as [Hget _]. exact Hget.
Defined.

Lemma task_creation_only_adds_own_tasks_witness :
  let s := run (post_tasks (L:=Toy.libs) (G:=ToyMongoose.mongoose)
                  (Toy.ann_request "" ∅ {[ "description" := JStr "plan";
                                           "owner" := JStr "u2" ]}))
               (request_at Toy.store 10) in
  (status <$> res s = Some 400 ∧ db s = Toy.store) ∨
  (∃ id k, tasks Toy.store !! id = None ∧
           TaskDoc.owner k = "u1" ∧
           TaskDoc.description k ≠ "" ∧
           s = answered (mkDB (users Toy.store) (<[id := k]> (tasks Toy.store))) 10 201
                        (BTask id k)).
Proof.
  exact (task_creation_only_adds_own_tasks (L:=Toy.libs) (G:=ToyMongoose.mongoose)
           _ Toy.store 10 "u1" Toy.ann "jwt.u1"
           (ann_authenticated "" ∅ {[ "description" := JStr "plan"; "owner" := JStr "u2" ]})).
Defined.

Lemma created_task_can_be_fetched_witness :
  status <$> res (run (post_tasks (L:=Toy.libs) (G:=ToyMongoose.mongoose)
                         (Toy.ann_request "" ∅ {[ "description" := JStr " buy milk ";
                                                  "owner" := JStr "u2" ]}))
                      (request_at Toy.store 10)) = Some 201.
Proof.
  set (req := Toy.ann_request "" ∅ {[ "description" := JStr " buy milk ";
                                      "owner" := JStr "u2" ]}).
  assert (Hdescription : req_body req !! "description" = Some (JStr " buy milk "))
    by (by vm_compute).
  assert (Hcast : @cast_string Toy.libs (JStr " buy milk ") = Some " buy milk ")
    by (by vm_compute).
  assert (Hfull : JsString.trim " buy milk " ≠ "") by (by vm_compute).
  assert (Hcompleted : ∀ c, req_body req !! "completed" = Some c ->
                            is_Some (@cast_boolean Toy.libs c)).
  { intros c Hc. vm_compute in Hc. discriminate Hc. }
  assert (Hid : req_body req !! "_id" = None) by (by vm_compute).
  assert (Hcreated : req_body req !! "createdAt" = None) by (by vm_compute).
  assert (Hupdated : req_body req !! "updatedAt" = None) by (by vm_compute).
  assert (Hfree : tasks Toy.store
                    !! @ObjectId_generate ToyMongoose.mongoose (request_at Toy.store 10) = None)
    by (by vm_compute).
  pose proof (created_task_can_be_fetched (L:=Toy.libs) (G:=ToyMongoose.mongoose)
                req Toy.store 10 "u1" Toy.ann "jwt.u1" (JStr " buy milk ") " buy milk "
                (ann_authenticated "" ∅ _)
                Hdescription Hcast Hfull Hcompleted Hid Hcreated Hupdated Hfree) as Hcreate.
  cbv zeta in Hcreate. destruct Hcreate as [Hrun _].
  exact (f_equal (fun s => status <$> res s) Hrun).
Defined.

Lemma task_without_description_is_refused_witness :
  let req := Toy.ann_request "" ∅ {[ "completed" := JBool true ]} in
  status <$> res (run (post_tasks (L:=Toy.libs) (G:=ToyMongoose.mongoose) req)
                      (request_at Toy.store 10)) = Some 400 ∧
  db (run (post_tasks (L:=Toy.libs) (G:=ToyMongoose.mongoose) req)
          (request_at Toy.store 10)) = Toy.store.
Proof.
  assert (Hnone : req_body (Toy.ann_request "" ∅ {[ "completed" := JBool true ]})
                    !! "description" = None) by (by vm_compute).
  exact (task_without_description_is_refused (L:=Toy.libs) (G:=ToyMongoose.mongoose)
           _ Toy.store 10 "u1" Toy.ann "jwt.u1"
           (ann_authenticated "" ∅ {[ "completed" := JBool true ]}) (or_introl Hnone)).
Defined.

Lemma registration_with_taken_email_is_refused_witness :
  let req := Toy.request ∅ "" ∅ {[ "name" := JStr "Ann again";
                                   "email" := JStr "ANN@example.com";
                                   "password" := JStr "open sesame" ]} in
  status <$> res (run (post_users (L:=Toy.libs) (G:=ToyMongoose.mongoose) req)
                      (request_at Toy.store 10)) = Some 400 ∧
  db (run (post_users (L:=Toy.libs) (G:=ToyMongoose.mongoose) req)
          (request_at Toy.store 10)) = Toy.store.
Proof.
  set (req := Toy.request ∅ "" ∅ {[ "name" := JStr "Ann again";
                                    "email" := JStr "ANN@example.com";
                                    "password" := JStr "open sesame" ]}).
  assert (Hemail : req_body req !! "email" = Some (JStr "ANN@example.com")) by (by vm_compute).
  assert (Hcast : @cast_string Toy.libs (JStr "ANN@example.com") = Some "ANN@example.com")
    by (by vm_compute).
  assert (Hann : users Toy.store !! "u1" = Some Toy.ann) by (by vm_compute).
  assert (Hsame : UserDoc.email Toy.ann = JsString.toLowerCase (JsString.trim "ANN@example.com"))
    by (by vm_compute).
  exact (registration_with_taken_email_is_refused (L:=Toy.libs) (G:=ToyMongoose.mongoose)
           req Toy.store 10 (JStr "ANN@example.com") "ANN@example.com" "u1" Toy.ann
           Hemail Hcast Hann Hsame).
Defined.

Lemma eve_is_new id u :
  users Toy.store !! id = Some u ->
  UserDoc.email u ≠ JsString.toLowerCase (JsString.trim "Eve@Example.com").
Proof.
  intros Hu. unfold Toy.store in Hu. cbn [users] in Hu.
  apply lookup_insert_Some in Hu as [[_ <-]|[_ Hu]]; [by vm_compute|].
  apply lookup_singleton_Some in Hu as [_ <-]. by vm_compute.
Defined.

Lemma registration_issues_a_working_token_witness :
  status <$> res (run (post_users (L:=Toy.libs) (G:=ToyMongoose.mongoose)
                         (Toy.request ∅ "" ∅ {[ "name" := JStr " Eve ";
                                                "email" := JStr "Eve@Example.com";
                                                "password" := JStr " open sesame " ]}))
                      (request_at Toy.store 10)) = Some 201.
Proof.
  set (req := Toy.request ∅ "" ∅ {[ "name" := JStr " Eve ";
                                    "email" := JStr "Eve@Example.com";
                                    "password" := JStr " open sesame " ]}).
  assert (Hname : req_body req !! "name" = Some (JStr " Eve ")) by (by vm_compute).
  assert (Hemail : req_body req !! "email" = Some (JStr "Eve@Example.com")) by (by vm_compute).
  assert (Hpass : req_body req !! "password" = Some (JStr " open sesame ")) by (by vm_compute).
  assert (Hcast : ∀ s, @cast_string Toy.libs (JStr s) = Some s) by reflexivity.
  assert (Hrest : ∀ key, key ∈ ["age"; "tokens"; "avatar"; "_id"; "createdAt"; "updatedAt"] ->
                         req_body req !! key = None).
  { intros key Hkey.
    repeat (apply elem_of_cons in Hkey as [->|Hkey]; [by vm_compute|]).
    by apply elem_of_nil in Hkey. }
  assert (Hfree : users Toy.store
                    !! @ObjectId_generate ToyMongoose.mongoose (request_at Toy.store 10) = None)
    by (by vm_compute).
  assert (Hplain : User.validate (L:=Toy.libs)
                     (UserDoc.mk (JsString.trim " Eve ")
                        (JsString.toLowerCase (JsString.trim "Eve@Example.com"))
                        (JsString.trim " open sesame ") 0 [] None 0 0) = [])
    by (by vm_compute).
  assert (Hstored : User.validate (L:=Toy.libs)
                      (UserDoc.mk (JsString.trim " Eve ")
                         (JsString.toLowerCase (JsString.trim "Eve@Example.com"))
                         (@bcrypt_hash Toy.libs (JsString.trim " open sesame ")) 0
                         [@jwt_sign Toy.libs
                            (@ObjectId_generate ToyMongoose.mongoose (request_at Toy.store 10))]
                         None 10 11) = [])
    by (by vm_compute).
  assert (Hverify : @jwt_verify Toy.libs
                      (@jwt_sign Toy.libs
                         (@ObjectId_generate ToyMongoose.mongoose (request_at Toy.store 10)))
                    = Some (@ObjectId_generate ToyMongoose.mongoose (request_at Toy.store 10)))
    by (by vm_compute).
  pose proof (registration_issues_a_working_token (L:=Toy.libs) (G:=ToyMongoose.mongoose)
                req Toy.store 10 (JStr " Eve ") " Eve " (JStr "Eve@Example.com")
                "Eve@Example.com" (JStr " open sesame ") " open sesame "
                Hname (Hcast _) Hemail (Hcast _) Hpass (Hcast _) Hrest
                Hfree eve_is_new Hplain Hstored Hverify) as Hregister.
  cbv zeta in Hregister. destruct Hregister as [Hrun _].
  exact (f_equal (fun s => status <$> res s) Hrun).
Defined.

Lemma task_list_is_in_the_requested_order_witness :
  StronglySorted (createdAt_order (-1))
    [("t2", TaskDoc.mk "review" true "u1" 4 4); ("t1", TaskDoc.mk "write" false "u1" 3 3)].
Proof.
  assert (Hsort : tasks_sort (Toy.ann_request "" {[ "sortBy" := "createdAt_desc" ]} ∅)
                  = Some ("createdAt", (-1)%Z)) by (by vm_compute).
  assert (Hres : res (run (get_tasks (L:=Toy.libs)
                             (Toy.ann_request "" {[ "sortBy" := "createdAt_desc" ]} ∅))
                          (request_at Toy.store 10))
                 = Some (mkResponse 200
                           (BTasks [("t2", TaskDoc.mk "review" true "u1" 4 4);
                                    ("t1", TaskDoc.mk "write" false "u1" 3 3)])))
    by (by vm_compute).
  destruct (task_list_is_in_the_requested_order (L:=Toy.libs) _ Toy.store 10 "u1" Toy.ann
              "jwt.u1" "createdAt" (-1) 200 _
              (ann_authenticated "" {[ "sortBy" := "createdAt_desc" ]} ∅) Hsort Hres)
    as [_ Hstrong].
  exact (Hstrong eq_refl).
Defined.

Lemma other_completed_values_select_open_tasks_witness :
  let req := Toy.ann_request "" {[ "completed" := "TRUE" ]} ∅ in
  (∃ n, JsString.parseInt (req_query req !! "skip") = Some n ∧ (n < 0)%Z ∧
        run (get_tasks (L:=Toy.libs) req) (request_at Toy.store 10)
          = answered Toy.store 10 500 BEmpty) ∨
  (∃ l, run (get_tasks (L:=Toy.libs) req) (request_at Toy.store 10)
          = answered Toy.store 10 200 (BTasks l) ∧
        ∀ id k, (id, k) ∈ l -> TaskDoc.completed k = false).
Proof.
  assert (Hcompleted : req_query (Toy.ann_request "" {[ "completed" := "TRUE" ]} ∅)
                         !! "completed" = Some "TRUE") by (by vm_compute).
  assert (Hfull : "TRUE" ≠ "") by discriminate.
  assert (Hother : "TRUE" ≠ "true") by discriminate.
  exact (other_completed_values_select_open_tasks (L:=Toy.libs) _ Toy.store 10 "u1" Toy.ann
           "jwt.u1" "TRUE"
           (ann_authenticated "" {[ "completed" := "TRUE" ]} ∅) Hcompleted Hfull Hother).
Defined.

Lemma task_pages_tile_witness :
  let page k n := page_of (run (get_tasks (L:=Toy.libs)
                                  (page_request k n (Toy.ann_request "" ∅ ∅)))
                               (request_at Toy.store 10)) in
  (length (page 0 1) <= 1)%nat ∧
  (page 0 1 ++ page (0 + 1) 1)%list = page 0 (1 + 1).
Proof.
  assert (Hone : (0 < 1)%nat) by lia.
  exact (task_pages_tile (L:=Toy.libs) _ Toy.store 10 "u1" Toy.ann "jwt.u1" 0 1 1
           (ann_authenticated "" ∅ ∅) Hone Hone).
Defined.


